(** * A shallow embedding of the assistant's services and control loop

    The development follows the TypeScript sources:
    - [services/conversation.service.ts] (ConversationService),
    - [services/mcp.service.ts] (MCPService),
    - [index.ts] (processUserInput and the body of the interaction loop).

    The agent graph ([agent/graph.ts], [agent/nodes.ts]), the generator
    client and the Prisma schema are not among the sources.  The entry point
    takes the graph as a parameter; the orchestration loop that the
    specification describes is modelled from its section 4.1 on top of the
    embedded services, and every definition that comes from the
    specification rather than from code says so.

    JavaScript exceptions are results [Throw e]; the mutable singletons
    (the database behind [prisma], the [mcpService] instance, the terminal)
    are fields of an explicit [World] that every effectful function threads.
    A thrown exception keeps the world as it was at the throw, as in
    JavaScript.  Promises are awaited one after the other, so [await] is
    sequencing. *)

From Stdlib Require Import String Ascii List Arith Bool Lia ZArith.
From Stdlib Require Import Sorting.Sorted Sorting.Permutation.
Import ListNotations.
Local Open Scope string_scope.
Local Open Scope list_scope.
Local Open Scope nat_scope.

Set Implicit Arguments.
Set Warnings "-register-all".

(** ** JavaScript values *)

(** JSON-like values: tool arguments, tool responses, structured message
    content.  The services pass them through unmodified. *)
Inductive Json : Type :=
| JNull
| JBool (b : bool)
| JNumber (z : Z)
| JString (s : string)
| JArray (items : list Json)
| JObject (fields : list (string * Json)).

(** A JavaScript [Error]; only its message is ever read. *)
Record Error : Type := MkError { message : string }.

Inductive Exc (A : Type) : Type :=
| Ok (a : A)
| Throw (e : Error).
Arguments Ok {A} a.
Arguments Throw {A} e.

Definition is_ok {A} (r : Exc A) : bool :=
  match r with Ok _ => true | Throw _ => false end.

(** ** Strings *)

(** [String.prototype.toLowerCase] on the 8-bit characters of a Rocq string:
    the letters A-Z are lowered, every other byte is kept.  The sources only
    compare the result with ASCII literals, and no character outside A-Z
    lowers to one of the letters of those literals. *)
Definition lower_ascii (c : ascii) : ascii :=
  let n := nat_of_ascii c in
  if (65 <=? n) && (n <=? 90) then ascii_of_nat (n + 32) else c.

Fixpoint toLowerCase (s : string) : string :=
  match s with
  | EmptyString => EmptyString
  | String c rest => String (lower_ascii c) (toLowerCase rest)
  end.

(** White space removed by [String.prototype.trim]: the WhiteSpace and
    LineTerminator code points of ECMAScript.  A Rocq string holds the UTF-8
    bytes of the JavaScript string, so a code point is one, two or three
    bytes:
    - one byte: U+0009 to U+000D and U+0020;
    - two bytes: U+00A0 (C2 A0);
    - three bytes: U+1680 (E1 9A 80), U+2000 to U+200A (E2 80 80 to
      E2 80 8A), U+2028 and U+2029 (E2 80 A8, E2 80 A9), U+202F (E2 80 AF),
      U+205F (E2 81 9F), U+3000 (E3 80 80) and U+FEFF (EF BB BF). *)
Definition is_space (c : ascii) : bool :=
  let n := nat_of_ascii c in
  (n =? 32) || ((9 <=? n) && (n <=? 13)).

Definition is_space2 (c1 c2 : ascii) : bool :=
  (nat_of_ascii c1 =? 194) && (nat_of_ascii c2 =? 160).

Definition is_space3 (c1 c2 c3 : ascii) : bool :=
  let n1 := nat_of_ascii c1 in
  let n2 := nat_of_ascii c2 in
  let n3 := nat_of_ascii c3 in
  ((n1 =? 225) && (n2 =? 154) && (n3 =? 128))
  || ((n1 =? 226) && (n2 =? 128)
      && (((128 <=? n3) && (n3 <=? 138)) || (n3 =? 168) || (n3 =? 169)
          || (n3 =? 175)))
  || ((n1 =? 226) && (n2 =? 129) && (n3 =? 159))
  || ((n1 =? 227) && (n2 =? 128) && (n3 =? 128))
  || ((n1 =? 239) && (n2 =? 187) && (n3 =? 191)).

(** [s.trim().length > 0]: some code point of [s] is not white space. *)
Fixpoint trim_nonempty (s : string) : bool :=
  match s with
  | EmptyString => false
  | String c1 rest1 =>
      if is_space c1 then trim_nonempty rest1
      else
        match rest1 with
        | EmptyString => true
        | String c2 rest2 =>
            if is_space2 c1 c2 then trim_nonempty rest2
            else
              match rest2 with
              | EmptyString => true
              | String c3 rest3 =>
                  if is_space3 c1 c2 c3 then trim_nonempty rest3 else true
              end
        end
  end.

(** ** LangChain messages *)

(** [message.content] is a string or a structured value. *)
Inductive MessageContent : Type :=
| TextContent (text : string)
| ComplexContent (value : Json).

(** A tool call requested by the model ([AIMessage.tool_calls]). *)
Record ToolCall : Type := MkToolCall {
  tc_id : string;
  tc_name : string;
  tc_args : Json
}.

(** The classes of [@langchain/core/messages] the sources test with
    [instanceof]; [OtherMessage] stands for every other subclass of
    [BaseMessage] (system, function, chat ... messages).  A message carries
    the fields that the sources read: [content], and [tool_calls],
    [tool_call_id] and [name] where the class has them.  The other fields of
    a LangChain message ([id], [additional_kwargs], [response_metadata]) are
    read nowhere in the sources, [saveMessages] does not store them, and no
    statement below speaks about them. *)
Inductive BaseMessage : Type :=
| HumanMessage (content : MessageContent)
| AIMessage (content : MessageContent) (tool_calls : option (list ToolCall))
| ToolMessage (content : MessageContent) (tool_call_id : option string)
              (name : option string)
| OtherMessage (type : string) (content : MessageContent).

Definition msg_content (m : BaseMessage) : MessageContent :=
  match m with
  | HumanMessage c => c
  | AIMessage c _ => c
  | ToolMessage c _ _ => c
  | OtherMessage _ c => c
  end.

Definition instanceof_HumanMessage (m : BaseMessage) : bool :=
  match m with HumanMessage _ => true | _ => false end.
Definition instanceof_AIMessage (m : BaseMessage) : bool :=
  match m with AIMessage _ _ => true | _ => false end.
Definition instanceof_ToolMessage (m : BaseMessage) : bool :=
  match m with ToolMessage _ _ _ => true | _ => false end.

(** ** The message table *)

(** The [metadata] JSON column written by [saveMessages]; an [undefined]
    field is absent from the stored object. *)
Record Metadata : Type := MkMetadata {
  md_tool_calls : option (list ToolCall);
  md_tool_call_id : option string;
  md_name : option string
}.

(** What [saveMessages] hands to [createMany] for one message. *)
Record MessageData : Type := MkMessageData {
  data_conversationId : string;
  data_role : string;
  data_content : string;
  data_metadata : Metadata
}.

(** A stored row of the message table, with the columns the service reads
    and writes.  [row_createdAt] is the creation time the database assigns
    (a natural number here); [row_metadata] may be null. *)
Record MessageRow : Type := MkMessageRow {
  row_conversationId : string;
  row_role : string;
  row_content : string;
  row_metadata : option Metadata;
  row_createdAt : nat
}.

(** The database behind the [prisma] client: the message table in insertion
    order, the clock that stamps new rows, and the condition of the
    connection ([Some e]: every statement is rejected with the error [e],
    whatever made it fail). *)
Record Db : Type := MkDb {
  message_table : list MessageRow;
  db_clock : nat;
  db_fault : option Error
}.

(** ** MCP servers *)

(** A tool descriptor as returned by an MCP server. *)
Record Tool : Type := MkTool {
  tool_name : string;
  tool_inputSchema : Json
}.

(** An SDK [Client] as it stands: what a request through it gives.  For a
    client whose transport is open that is the answer of the server process;
    [client_listTools] is the [tools] field of the response, which may be
    missing.  The state of the client object lives with the reference to it,
    in the entry of the [servers] map: when the transport closes, the stored
    client becomes [closed_client]. *)
Record Client : Type := MkClient {
  client_listTools : Exc (option (list Tool));
  client_callTool : string -> Json -> Exc Json
}.

(** A client whose transport has closed: the SDK rejects every request
    with the error [Not connected]. *)
Definition closed_client : Client :=
  MkClient (Throw (MkError "Not connected"))
           (fun _ _ => Throw (MkError "Not connected")).

Record MCPServer : Type := MkMCPServer {
  server_name : string;
  server_command : string;
  server_args : list string;
  server_client : option Client;
  server_tools : option (list Tool)
}.

(** [servers] is a JavaScript [Map]: keys are unique and iteration follows
    insertion order.  [connectedServers] is a [Set] with the same order. *)
Record MCPService : Type := MkMCPService {
  servers : list (string * MCPServer);
  connectedServers : list string
}.

(** ** The entry point's data *)

(** The conversation record returned by [createConversation]. *)
Record Conversation : Type := MkConversation {
  conv_id : string;
  conv_userId : string
}.

(** The state object handed to [graph.invoke]. *)
Record AgentState : Type := MkAgentState {
  messages : list BaseMessage;
  conversationId : string;
  shouldContinue : bool;
  toolResults : list (string * Json);
  workingDirectory : string
}.

(** The variables of [process.env] that [main] reads. *)
Record ProcessEnv : Type := MkProcessEnv {
  GITHUB_TOKEN : option string;
  BRAVE_API_KEY : option string
}.

(** A line that [main] writes while it connects the servers: the check mark
    with the server's label, or the cross with the label and the reason. *)
Inductive StartupLine : Type :=
| ServerReady (text : string)
| ServerMissing (text : string).

(** ** The terminal *)

Inductive CliEvent : Type :=
| DisplayInfo (text : string)
| DisplayHelp
| DisplayTools (tools : list Tool)
| DisplayThinking
| StopThinking
| DisplayResponse (text : string)
| DisplayError (text : string).

(** ** The world and the monad of effectful code *)

Record World : Type := MkWorld {
  db : Db;
  mcp : MCPService;
  cli : list CliEvent
}.

Definition M (A : Type) : Type := World -> Exc A * World.

Definition ret {A} (a : A) : M A := fun w => (Ok a, w).

Definition bind {A B} (c : M A) (k : A -> M B) : M B :=
  fun w =>
    match c w with
    | (Ok a, w') => k a w'
    | (Throw e, w') => (Throw e, w')
    end.

Definition throw {A} (e : Error) : M A := fun w => (Throw e, w).

(** [try { c } catch (error) { h error }] *)
Definition try_catch {A} (c : M A) (h : Error -> M A) : M A :=
  fun w =>
    match c w with
    | (Ok a, w') => (Ok a, w')
    | (Throw e, w') => h e w'
    end.

Declare Scope js_scope.
Delimit Scope js_scope with js.
Notation "x <- c ;; k" := (bind c (fun x => k))
  (at level 61, c at next level, right associativity) : js_scope.
Notation "c ;;; k" := (bind c (fun _ => k))
  (at level 61, right associativity) : js_scope.
Local Open Scope js_scope.

Definition get_db : M Db := fun w => (Ok (db w), w).
Definition put_db (d : Db) : M unit :=
  fun w => (Ok tt, MkWorld d (mcp w) (cli w)).
Definition get_mcp : M MCPService := fun w => (Ok (mcp w), w).
Definition put_mcp (s : MCPService) : M unit :=
  fun w => (Ok tt, MkWorld (db w) s (cli w)).
Definition cli_emit (ev : CliEvent) : M unit :=
  fun w => (Ok tt, MkWorld (db w) (mcp w) (cli w ++ [ev])).

(** Lift a result computed from the current world. *)
Definition lift_exc {A} (r : Exc A) : M A := fun w => (r, w).

Section Assistant.

(** [JSON.stringify] on structured values. *)
Variable JSON_stringify : Json -> string.

(** [process.cwd()] *)
Variable process_cwd : string.

(** ** The prisma client (message model) *)

(** [orderBy: { createdAt: 'desc' }]: rows sorted by creation time, most
    recent first.  The database leaves the order of rows of equal creation
    time open; this insertion sort fixes one, and the properties proved of
    the query rest only on the result being a sorted rearrangement of the
    rows. *)
Fixpoint insert_desc (r : MessageRow) (l : list MessageRow) : list MessageRow :=
  match l with
  | [] => [r]
  | x :: rest =>
      if row_createdAt x <=? row_createdAt r then r :: x :: rest
      else x :: insert_desc r rest
  end.

Definition orderBy_createdAt_desc (l : list MessageRow) : list MessageRow :=
  fold_right insert_desc [] l.

(** [where: { conversationId }] *)
Definition where_conversationId (conversationId : string) (l : list MessageRow)
  : list MessageRow :=
  filter (fun r => String.eqb (row_conversationId r) conversationId) l.

(** [prisma.message.findMany({ where, orderBy: desc, take })] *)
Definition prisma_message_findMany (conversationId : string) (take : nat)
  : M (list MessageRow) :=
  d <- get_db ;;
  match db_fault d with
  | Some e => throw e
  | None =>
      ret (firstn take
             (orderBy_createdAt_desc
                (where_conversationId conversationId (message_table d))))
  end.

(** Modelled from the spec: the default of the creation-time column (the
    Prisma schema is not among the sources; messages are ordered by creation
    time).  A row gets the reading of the database clock at its statement,
    and the clock moves on between statements.  No statement below depends
    on how rows of one statement are stamped. *)
Definition stored_row (now : nat) (m : MessageData) : MessageRow :=
  MkMessageRow (data_conversationId m) (data_role m) (data_content m)
               (Some (data_metadata m)) now.

(** [prisma.message.createMany({ data })]: the rows are appended in the
    order of [data]. *)
Definition prisma_message_createMany (data : list MessageData) : M unit :=
  d <- get_db ;;
  match db_fault d with
  | Some e => throw e
  | None =>
      put_db (MkDb (message_table d ++ map (stored_row (db_clock d)) data)
                   (S (db_clock d)) None)
  end.

(** ** ConversationService *)

(** [mapMessageRole]: LangChain message types to the Prisma enum. *)
Definition mapMessageRole (m : BaseMessage) : string :=
  if instanceof_HumanMessage m then "USER"
  else if instanceof_AIMessage m then "ASSISTANT"
  else if instanceof_ToolMessage m then "TOOL"
  else "USER".

Definition content_as_string (c : MessageContent) : string :=
  match c with
  | TextContent s => s
  | ComplexContent v => JSON_stringify v
  end.

(** The object built by the callback of [messages.map] in [saveMessages]. *)
Definition messageData (conversationId : string) (m : BaseMessage)
  : MessageData :=
  MkMessageData conversationId
    (mapMessageRole m)
    (content_as_string (msg_content m))
    (MkMetadata
       (match m with AIMessage _ tcs => tcs | _ => None end)
       (match m with ToolMessage _ id _ => id | _ => None end)
       (match m with ToolMessage _ _ n => n | _ => None end)).

Definition saveMessages (conversationId : string) (messages : list BaseMessage)
  : M unit :=
  try_catch
    (prisma_message_createMany (map (messageData conversationId) messages))
    (fun error => throw error).

(** [new AIMessage({ content, tool_calls })]: the constructor reads an
    [undefined] list of tool calls as the empty list, so a constructed
    message always has one. *)
Definition new_AIMessage (content : MessageContent)
  (tool_calls : option (list ToolCall)) : BaseMessage :=
  AIMessage content
            (Some (match tool_calls with Some calls => calls | None => [] end)).

(** The callback of [chronologicalMessages.map] in
    [getConversationMessages]: [metadata?.field] is [undefined] when the
    column is null. *)
Definition row_to_message (msg : MessageRow) : BaseMessage :=
  let metadata := row_metadata msg in
  let field {A} (f : Metadata -> option A) : option A :=
    match metadata with Some md => f md | None => None end in
  if String.eqb (row_role msg) "USER" then
    HumanMessage (TextContent (row_content msg))
  else if String.eqb (row_role msg) "ASSISTANT" then
    new_AIMessage (TextContent (row_content msg)) (field md_tool_calls)
  else if String.eqb (row_role msg) "TOOL" then
    ToolMessage (TextContent (row_content msg)) (field md_tool_call_id)
                (field md_name)
  else HumanMessage (TextContent (row_content msg)).

(** The default of the [limit] parameter; the call in [index.ts] passes
    10. *)
Definition default_limit : nat := 20.

(** [limit] is a count of messages, a natural number. *)
Definition getConversationMessages (conversationId : string) (limit : nat)
  : M (list BaseMessage) :=
  try_catch
    (messages <- prisma_message_findMany conversationId limit ;;
     let chronologicalMessages := rev messages in
     ret (map row_to_message chronologicalMessages))
    (fun _ => ret []).

(** ** MCPService *)

(** Starting the server process and [client.connect(transport)]: the
    connected client, or the error of the failed connection. *)
Variable connect_transport : string -> list string -> Exc Client.

(** [Map.prototype.get / set / delete] on the insertion-ordered entries. *)
Fixpoint map_get {V} (k : string) (m : list (string * V)) : option V :=
  match m with
  | [] => None
  | (k', v) :: rest => if String.eqb k' k then Some v else map_get k rest
  end.

Fixpoint map_set {V} (k : string) (v : V) (m : list (string * V))
  : list (string * V) :=
  match m with
  | [] => [(k, v)]
  | (k', v') :: rest =>
      if String.eqb k' k then (k, v) :: rest else (k', v') :: map_set k v rest
  end.

Definition map_delete {V} (k : string) (m : list (string * V))
  : list (string * V) :=
  filter (fun kv => negb (String.eqb (fst kv) k)) m.

(** [Set.prototype.has / add / delete] *)
Definition set_has (k : string) (s : list string) : bool :=
  existsb (String.eqb k) s.
Definition set_add (k : string) (s : list string) : list string :=
  if set_has k s then s else s ++ [k].
Definition set_delete (k : string) (s : list string) : list string :=
  filter (fun x => negb (String.eqb x k)) s.

Definition new_MCPService : MCPService := MkMCPService [] [].

Definition not_connected (serverName : string) : Error :=
  MkError (String.append "Server " (String.append serverName " not connected")).

(** The handler [transport.onclose] that [connectServer] installs for the
    server [name]. *)
Definition transport_onclose (name : string) : M unit :=
  this <- get_mcp ;;
  put_mcp (MkMCPService (servers this) (set_delete name (connectedServers this))).

(** The handler is installed before [client.connect(transport)] is awaited.
    A connection that fails closes the transport it was tried on, so the
    handler runs before the error reaches the [catch], which rethrows it. *)
Definition connectServer (name command : string) (args : list string)
  : M unit :=
  try_catch
    (client <- try_catch (lift_exc (connect_transport command args))
                 (fun error => transport_onclose name ;;; throw error) ;;
     this <- get_mcp ;;
     put_mcp (MkMCPService
                (map_set name (MkMCPServer name command args (Some client) None)
                         (servers this))
                (set_add name (connectedServers this))))
    (fun error => throw error).

(** The stored server once the transport of its client has closed. *)
Definition close_server (server : MCPServer) : MCPServer :=
  MkMCPServer (server_name server) (server_command server) (server_args server)
              (match server_client server with
               | Some _ => Some closed_client
               | None => None
               end)
              (server_tools server).

(** The transport of the client stored under [name] closes (the server
    process ends, or the pipe breaks): the client is closed from then on,
    and the handler runs. *)
Definition transport_closed (name : string) : M unit :=
  this <- get_mcp ;;
  match map_get name (servers this) with
  | Some server =>
      put_mcp (MkMCPService (map_set name (close_server server) (servers this))
                            (connectedServers this))
  | None => ret tt
  end ;;;
  transport_onclose name.

(** The errors of [client.close()] are swallowed; the entry is removed
    whenever the stored server has a client. *)
Definition disconnectServer (name : string) : M unit :=
  try_catch
    (this <- get_mcp ;;
     match map_get name (servers this) with
     | Some (MkMCPServer _ _ _ (Some _) _) =>
         put_mcp (MkMCPService (map_delete name (servers this))
                               (set_delete name (connectedServers this)))
     | _ => ret tt
     end)
    (fun _ => ret tt).

Definition set_server_tools (server : MCPServer) (tools : list Tool)
  : MCPServer :=
  MkMCPServer (server_name server) (server_command server) (server_args server)
              (server_client server) (Some tools).

Definition listTools (serverName : string) : M (list Tool) :=
  try_catch
    (this <- get_mcp ;;
     match map_get serverName (servers this) with
     | Some ({| server_client := Some client |} as server) =>
         response_tools <- lift_exc (client_listTools client) ;;
         let tools := match response_tools with Some l => l | None => [] end in
         put_mcp (MkMCPService
                    (map_set serverName (set_server_tools server tools)
                             (servers this))
                    (connectedServers this)) ;;;
         ret tools
     | _ => throw (not_connected serverName)
     end)
    (fun _ => ret []).

(** The loop of [getAllTools] over a snapshot of the connected names. *)
Fixpoint getAllTools_loop (names : list string) (allTools : list Tool)
  : M (list Tool) :=
  match names with
  | [] => ret allTools
  | serverName :: rest =>
      tools <- listTools serverName ;;
      getAllTools_loop rest (allTools ++ tools)
  end.

Definition getAllTools : M (list Tool) :=
  this <- get_mcp ;;
  getAllTools_loop (connectedServers this) [].

Definition callTool (serverName toolName : string) (args : Json) : M Json :=
  try_catch
    (this <- get_mcp ;;
     match map_get serverName (servers this) with
     | Some {| server_client := Some client |} =>
         response <- lift_exc (client_callTool client toolName args) ;;
         ret response
     | _ => throw (not_connected serverName)
     end)
    (fun error => throw error).

(** [server.tools?.some((tool) => tool.name === toolName)] *)
Definition caches_tool (toolName : string) (server : MCPServer) : bool :=
  match server_tools server with
  | Some tools => existsb (fun tool => String.eqb (tool_name tool) toolName) tools
  | None => false
  end.

Fixpoint getServerForTool_loop (entries : list (string * MCPServer))
  (toolName : string) : option string :=
  match entries with
  | [] => None
  | (serverName, server) :: rest =>
      if caches_tool toolName server then Some serverName
      else getServerForTool_loop rest toolName
  end.

Definition getServerForTool (this : MCPService) (toolName : string)
  : option string :=
  getServerForTool_loop (servers this) toolName.

Definition isConnected (this : MCPService) (serverName : string) : bool :=
  set_has serverName (connectedServers this).

Definition getConnectedServers (this : MCPService) : list string :=
  connectedServers this.

(** Calls on the service, for statements about its reachable states;
    [TransportClosed name] is the closing of the transport of the client
    stored under [name]. *)
Inductive MCPCall : Type :=
| CallConnectServer (name command : string) (args : list string)
| CallDisconnectServer (name : string)
| CallListTools (serverName : string)
| CallGetAllTools
| CallCallTool (serverName toolName : string) (args : Json)
| TransportClosed (name : string).

Definition caches_tools (c : MCPCall) : bool :=
  match c with
  | CallListTools _ | CallGetAllTools => true
  | _ => false
  end.

(** One call, its result dropped and its exception left to the caller. *)
Definition mcp_call (c : MCPCall) : M unit :=
  match c with
  | CallConnectServer name command args => connectServer name command args
  | CallDisconnectServer name => disconnectServer name
  | CallListTools serverName => _ <- listTools serverName ;; ret tt
  | CallGetAllTools => _ <- getAllTools ;; ret tt
  | CallCallTool serverName toolName args =>
      _ <- callTool serverName toolName args ;; ret tt
  | TransportClosed name => transport_closed name
  end.

(** The world after a sequence of calls, each exception caught by the
    caller. *)
Fixpoint mcp_calls (cs : list MCPCall) (w : World) : World :=
  match cs with
  | [] => w
  | c :: rest => mcp_calls rest (snd (mcp_call c w))
  end.

(** The calls of [disconnectAll], one per name of the snapshot
    [Array.from(this.connectedServers)], each with its own [.catch].  Every
    call reads the entry of its own name and removes that name only, so the
    order in which the promises of [Promise.all] complete does not show in
    the result. *)
Fixpoint disconnectAll_loop (names : list string) : M unit :=
  match names with
  | [] => ret tt
  | serverName :: rest =>
      try_catch (disconnectServer serverName) (fun _ => ret tt) ;;;
      disconnectAll_loop rest
  end.

Definition disconnectAll : M unit :=
  this <- get_mcp ;;
  disconnectAll_loop (connectedServers this).

(** ** index.ts *)

(** The bytes of the waving-hand sign that ends the farewell. *)
Definition wave : string :=
  String (ascii_of_nat 240) (String (ascii_of_nat 159)
    (String (ascii_of_nat 145) (String (ascii_of_nat 139) EmptyString))).

Definition no_response : string :=
  "I processed your request but have no response to show.".

(** The backwards scan for the last [AIMessage] whose content is a string
    that is not blank; [msgs] is the list from the last message to the
    first. *)
Fixpoint find_finalResponse (msgs : list BaseMessage) : string :=
  match msgs with
  | [] => ""
  | AIMessage (TextContent text) _ :: rest =>
      if negb (String.eqb text "") && trim_nonempty text then text
      else find_finalResponse rest
  | _ :: rest => find_finalResponse rest
  end.

(** The [initialState] object of [processUserInput]: the loaded history
    followed by the new user message. *)
Definition initialState (conversation : Conversation)
  (conversationHistory : list BaseMessage) (userInput : string) : AgentState :=
  MkAgentState
    (conversationHistory ++ [HumanMessage (TextContent userInput)])
    (conv_id conversation) true [] process_cwd.

(** The end of [processUserInput], from [cli.stopThinking()] on. *)
Definition displayFinalResponse (result : AgentState) : M string :=
  cli_emit StopThinking ;;;
  let finalResponse := find_finalResponse (rev (messages result)) in
  (if negb (String.eqb finalResponse "") then
     cli_emit (DisplayResponse finalResponse)
   else cli_emit (DisplayResponse no_response)) ;;;
  ret "continue".

(** [graph] is the compiled agent graph of [agent/graph.ts], which is not
    among the sources: [graph st] is [await graph.invoke(st)]. *)
Definition processUserInput (graph : AgentState -> M AgentState)
  (userInput : string) (conversation : Conversation)
  (availableTools : list Tool) : M string :=
  if String.eqb (toLowerCase userInput) "/exit" then
    cli_emit (DisplayInfo (String.append "Goodbye! " wave)) ;;;
    ret "exit"
  else if String.eqb (toLowerCase userInput) "/help" then
    cli_emit DisplayHelp ;;;
    ret "continue"
  else if String.eqb (toLowerCase userInput) "/tools" then
    cli_emit (DisplayTools availableTools) ;;;
    ret "continue"
  else
    cli_emit DisplayThinking ;;;
    conversationHistory <- getConversationMessages (conv_id conversation) 10 ;;
    result <- graph (initialState conversation conversationHistory userInput) ;;
    displayFinalResponse result.

(** One iteration of the [while (true)] loop of [main]; [promptUser] is
    [cli.promptUser()].  The result is [true] when the loop breaks. *)
Definition main_loop_body (graph : AgentState -> M AgentState)
  (promptUser : M string) (conversation : Conversation)
  (availableTools : list Tool) : M bool :=
  try_catch
    (userInput <- promptUser ;;
     result <- processUserInput graph userInput conversation availableTools ;;
     if String.eqb result "exit" then ret true else ret false)
    (fun error =>
       cli_emit StopThinking ;;;
       cli_emit (DisplayError
                   (String.append "An error occurred: " (message error))) ;;;
       ret false).

(** The [while (true)] loop of [main] over the outcomes of the successive
    calls of [cli.promptUser()].  The result is [true] when the loop is left
    by [break], [false] when the given outcomes are used up and the loop
    waits at the prompt. *)
Fixpoint main_loop (graph : AgentState -> M AgentState)
  (prompts : list (Exc string)) (conversation : Conversation)
  (availableTools : list Tool) : M bool :=
  match prompts with
  | [] => ret false
  | prompt :: rest =>
      stop <- main_loop_body graph (lift_exc prompt) conversation
                             availableTools ;;
      if stop then ret true
      else main_loop graph rest conversation availableTools
  end.

(** A value of [process.env] is truthy when it is set and not empty. *)
Definition truthy (v : option string) : bool :=
  match v with
  | Some s => negb (String.eqb s "")
  | None => false
  end.

(** The server-connection block of [main]: three attempts, each in its own
    [try]/[catch].  The world has no console, so each attempt returns the
    line it writes with [console.log], without its colours. *)
Definition connect_filesystem : M StartupLine :=
  try_catch
    (connectServer "filesystem" "npx"
       ["-y"; "@modelcontextprotocol/server-filesystem"; process_cwd] ;;;
     ret (ServerReady " Filesystem server"))
    (fun error =>
       ret (ServerMissing
              (String.append " Filesystem server: " (message error)))).

Definition connect_github (env : ProcessEnv) : M StartupLine :=
  try_catch
    (if truthy (GITHUB_TOKEN env) then
       connectServer "github" "npx" ["-y"; "@missionsquad/mcp-github"] ;;;
       ret (ServerReady " GitHub server")
     else ret (ServerMissing " GitHub server (no token)"))
    (fun error =>
       ret (ServerMissing (String.append " GitHub server: " (message error)))).

Definition brave_placeholder : string := "your_brave_api_key_here".

Definition connect_websearch (env : ProcessEnv) : M StartupLine :=
  try_catch
    (if truthy (BRAVE_API_KEY env)
        && negb (match BRAVE_API_KEY env with
                 | Some key => String.eqb key brave_placeholder
                 | None => false
                 end)
     then
       connectServer "websearch" "npx"
                     ["-y"; "@brave/brave-search-mcp-server"] ;;;
       ret (ServerReady " Web search server")
     else ret (ServerMissing " Web search server (no API key)"))
    (fun error =>
       ret (ServerMissing
              (String.append " Web search server: " (message error)))).

Definition connect_servers (env : ProcessEnv) : M (list StartupLine) :=
  filesystem <- connect_filesystem ;;
  github <- connect_github env ;;
  websearch <- connect_websearch env ;;
  ret [filesystem; github; websearch].

(** The [finally] block of [main], which is also what the handlers of
    SIGINT and SIGTERM do before they exit. *)
Definition cleanup : M unit :=
  try_catch disconnectAll (fun _ => ret tt).

(** ** The orchestration loop *)

(** Modelled from the spec: the outcome of ResponseGenerator's [generate]
    (the generator client is not among the sources), a tagged variant.  A
    requested call carries the id that correlates its tool message. *)
Inductive Outcome : Type :=
| FinalAnswer (text : string)
| CapabilityRequest (calls : list ToolCall).

(** Modelled from the spec: the generator, a function of the message
    history and the capability catalog; [Throw] is a generator that is
    unreachable or whose outcome cannot be parsed. *)
Variable generate : list BaseMessage -> list Tool -> Exc Outcome.

(** Modelled from the spec: the states of OrchestrationLoop
    ([agent/graph.ts] and [agent/nodes.ts] are not among the sources). *)
Inductive LoopState : Type := GENERATING | AWAITING_TOOLS | DONE.

(** Modelled from the spec: CapabilityCallResult, the output payload or the
    failure reason of one call (its duration is left out). *)
Inductive CapabilityCallResult : Type :=
| CallSucceeded (call_id : string) (payload : Json)
| CallFailed (call_id : string) (reason : Error).

Definition no_provider (capabilityName : string) : Error :=
  MkError (String.append "No server provides " capabilityName).

(** Modelled from the spec: ToolGateway's [execute] with the routing the
    gateway owns, over [getServerForTool] and [callTool] of the sources.  A
    failure of the gateway is a result, not an exception. *)
Definition execute (call : ToolCall) : M CapabilityCallResult :=
  this <- get_mcp ;;
  match getServerForTool this (tc_name call) with
  | None => ret (CallFailed (tc_id call) (no_provider (tc_name call)))
  | Some serverName =>
      try_catch
        (response <- callTool serverName (tc_name call) (tc_args call) ;;
         ret (CallSucceeded (tc_id call) response))
        (fun error => ret (CallFailed (tc_id call) error))
  end.

(** Modelled from the spec: the structured failure payload of a tool
    message. *)
Definition failure_payload (reason : Error) : MessageContent :=
  ComplexContent (JObject [("error", JString (message reason))]).

(** Modelled from the spec: the tool message of one executed call, linked
    to the call by its id and capability name. *)
Definition tool_message (call : ToolCall) (r : CapabilityCallResult)
  : BaseMessage :=
  match r with
  | CallSucceeded id payload =>
      ToolMessage (ComplexContent payload) (Some id) (Some (tc_name call))
  | CallFailed id reason =>
      ToolMessage (failure_payload reason) (Some id) (Some (tc_name call))
  end.

(** Modelled from the spec: step 2 of [runTurn], one tool message per
    pending call, in the order of the calls. *)
Fixpoint execute_pending (calls : list ToolCall) : M (list BaseMessage) :=
  match calls with
  | [] => ret []
  | call :: rest =>
      r <- execute call ;;
      msgs <- execute_pending rest ;;
      ret (tool_message call r :: msgs)
  end.

(** Modelled from the spec: the loop's variables during a turn.
    [turn_history] is what the next generation is called with,
    [turn_produced] the messages of this turn so far; [turn_generated] lists
    the histories the generator was called with and [turn_executed] the
    calls handed to the gateway, both in order. *)
Record Turn : Type := MkTurn {
  turn_state : LoopState;
  turn_history : list BaseMessage;
  turn_produced : list BaseMessage;
  turn_pending : list ToolCall;
  turn_generated : list (list BaseMessage);
  turn_executed : list ToolCall
}.

Definition start_turn (history : list BaseMessage) : Turn :=
  MkTurn GENERATING history [] [] [] [].

(** Modelled from the spec: the assistant message of a generation. *)
Definition assistant_message (o : Outcome) : BaseMessage :=
  match o with
  | FinalAnswer text => AIMessage (TextContent text) None
  | CapabilityRequest calls => AIMessage (TextContent "") (Some calls)
  end.

(** Modelled from the spec: one step of [runTurn] (section 4.1).  The
    messages a step appends are persisted with [saveMessages] of the sources
    before the step ends; a failure of the generator or of the store leaves
    the step by an exception. *)
Definition step (conversation : string) (capabilities : list Tool) (t : Turn)
  : M Turn :=
  match turn_state t with
  | GENERATING =>
      outcome <- lift_exc (generate (turn_history t) capabilities) ;;
      let msg := assistant_message outcome in
      saveMessages conversation [msg] ;;;
      ret (MkTurn
             (match outcome with
              | FinalAnswer _ => DONE
              | CapabilityRequest _ => AWAITING_TOOLS
              end)
             (turn_history t ++ [msg])
             (turn_produced t ++ [msg])
             (match outcome with
              | FinalAnswer _ => []
              | CapabilityRequest calls => calls
              end)
             (turn_generated t ++ [turn_history t])
             (turn_executed t))
  | AWAITING_TOOLS =>
      msgs <- execute_pending (turn_pending t) ;;
      saveMessages conversation msgs ;;;
      ret (MkTurn GENERATING
             (turn_history t ++ msgs)
             (turn_produced t ++ msgs)
             []
             (turn_generated t)
             (turn_executed t ++ turn_pending t))
  | DONE => ret t
  end.

(** [n] steps in a row. *)
Fixpoint steps (n : nat) (conversation : string) (capabilities : list Tool)
  (t : Turn) : M Turn :=
  match n with
  | 0 => ret t
  | S k =>
      t' <- step conversation capabilities t ;;
      steps k conversation capabilities t'
  end.

(** How a turn ends: in [DONE], by a turn-level failure (with the loop's
    variables before the failing step), or still running when the given
    number of steps is used up (the loop itself has no iteration cap). *)
Inductive TurnResult : Type :=
| Completed (t : Turn)
| Aborted (e : Error) (t : Turn)
| Running (t : Turn).

Fixpoint run (fuel : nat) (conversation : string) (capabilities : list Tool)
  (t : Turn) (w : World) : TurnResult * World :=
  match turn_state t with
  | DONE => (Completed t, w)
  | _ =>
      match fuel with
      | 0 => (Running t, w)
      | S k =>
          match step conversation capabilities t w with
          | (Ok t', w') => run k conversation capabilities t' w'
          | (Throw e, w') => (Aborted e t, w')
          end
      end
  end.

(** Modelled from the spec: [runTurn(history, capabilities)]. *)
Definition runTurn (fuel : nat) (conversation : string)
  (history : list BaseMessage) (capabilities : list Tool) (w : World)
  : TurnResult * World :=
  run fuel conversation capabilities (start_turn history) w.

Definition result_turn (r : TurnResult) : Turn :=
  match r with Completed t | Aborted _ t | Running t => t end.

(** A row stores a message of a conversation: it is what [createMany]
    writes for it, whatever the creation time. *)
Definition stored_as (conversation : string) (m : BaseMessage)
  (r : MessageRow) : Prop :=
  r = stored_row (row_createdAt r) (messageData conversation m).

(** ** Vocabulary of the statements *)

Definition role_enum : list string := ["USER"; "ASSISTANT"; "TOOL"].

Definition newer_first (a b : MessageRow) : Prop :=
  row_createdAt b <= row_createdAt a.
Definition older_first (a b : MessageRow) : Prop :=
  row_createdAt a <= row_createdAt b.

(** The message that a stored row stands for: an assistant message for a
    row of role ASSISTANT, a tool message for a row of role TOOL, a human
    message for a row of any other role, always with the content of the row
    as its text; the tool calls (the empty list when the row has none), the
    tool-call id and the name are those of the row's metadata. *)
Definition loads_as (r : MessageRow) (m : BaseMessage) : Prop :=
  (row_role r = "ASSISTANT" /\
   m = AIMessage (TextContent (row_content r))
         (Some (match row_metadata r with
                | Some {| md_tool_calls := Some calls |} => calls
                | _ => []
                end))) \/
  (row_role r = "TOOL" /\
   m = ToolMessage (TextContent (row_content r))
         (match row_metadata r with
          | Some md => md_tool_call_id md
          | None => None
          end)
         (match row_metadata r with
          | Some md => md_name md
          | None => None
          end)) \/
  (row_role r <> "ASSISTANT" /\ row_role r <> "TOOL" /\
   m = HumanMessage (TextContent (row_content r))).

(** The world once the thinking indicator is shown. *)
Definition thinking (w : World) : World :=
  MkWorld (db w) (mcp w) (cli w ++ [DisplayThinking]).

(** No stored server has a cached tool list. *)
Definition nothing_cached (this : MCPService) : Prop :=
  Forall (fun kv => server_tools (snd kv) = None) (servers this).

Definition result_call_id (r : CapabilityCallResult) : string :=
  match r with CallSucceeded id _ | CallFailed id _ => id end.

(** A tool message linked to a call: its correlation id and name are the
    call's. *)
Definition answers (call : ToolCall) (m : BaseMessage) : Prop :=
  exists content,
    m = ToolMessage content (Some (tc_id call)) (Some (tc_name call)).

(** What [execute] returns for a call in a world: the gateway's failure is
    a value. *)
Definition gateway_result (this : MCPService) (call : ToolCall) (w : World)
  : CapabilityCallResult :=
  match getServerForTool this (tc_name call) with
  | None => CallFailed (tc_id call) (no_provider (tc_name call))
  | Some serverName =>
      match fst (callTool serverName (tc_name call) (tc_args call) w) with
      | Ok response => CallSucceeded (tc_id call) response
      | Throw error => CallFailed (tc_id call) error
      end
  end.

(** The world after a successful [saveMessages]. *)
Definition saved (conversation : string) (msgs : list BaseMessage) (w : World)
  : World :=
  MkWorld (MkDb (message_table (db w)
                   ++ map (stored_row (db_clock (db w)))
                        (map (messageData conversation) msgs))
                (S (db_clock (db w))) None)
          (mcp w) (cli w).

(** The gateway fails on a call: no server is routed to the capability, or
    [callTool] on the routed server throws. *)
Definition gateway_fails (w : World) (call : ToolCall) (reason : Error)
  : Prop :=
  (getServerForTool (mcp w) (tc_name call) = None /\
   reason = no_provider (tc_name call)) \/
  (exists serverName,
     getServerForTool (mcp w) (tc_name call) = Some serverName /\
     fst (callTool serverName (tc_name call) (tc_args call) w) = Throw reason).

(** The service is well formed: the keys of [servers] are distinct, every
    stored server carries its key as its name and has a client, and every
    name of [connectedServers] occurs once and is stored. *)
Definition service_ok (this : MCPService) : Prop :=
  NoDup (map fst (servers this)) /\
  Forall (fun kv =>
            server_name (snd kv) = fst kv /\
            exists client, server_client (snd kv) = Some client)
         (servers this) /\
  NoDup (connectedServers this) /\
  Forall (fun name => exists server, map_get name (servers this) = Some server)
         (connectedServers this).

(** The tools the server stored under a name lists when it is asked: none
    when no server with a client is stored or when its client fails. *)
Definition listed (this : MCPService) (serverName : string) : list Tool :=
  match map_get serverName (servers this) with
  | Some server =>
      match server_client server with
      | Some client =>
          match client_listTools client with
          | Ok (Some tools) => tools
          | _ => []
          end
      | None => []
      end
  | None => []
  end.

(** The cache of a name is up to date: the server stored under it caches
    exactly what it lists, unless it lists nothing. *)
Definition cache_fresh (this : MCPService) (name : string) : Prop :=
  listed this name = [] \/
  exists server,
    map_get name (servers this) = Some server /\
    server_tools server = Some (listed this name).

(** The prompt returned the exit command. *)
Definition is_exit (prompt : Exc string) : bool :=
  match prompt with
  | Ok userInput => String.eqb (toLowerCase userInput) "/exit"
  | Throw _ => false
  end.

(** An assistant message whose content is a string that is not blank. *)
Definition has_reply (m : BaseMessage) : bool :=
  match m with
  | AIMessage (TextContent text) _ => trim_nonempty text
  | _ => false
  end.

(** The rows of a conversation are stored in the order of strictly
    increasing creation times. *)
Definition created_in_order (rows : list MessageRow) : Prop :=
  StronglySorted (fun a b => row_createdAt a < row_createdAt b) rows.

(** What is kept of a message that is saved and loaded again: its class
    (any class other than assistant and tool becomes a human message), its
    content as a string, its tool calls (no list counts as the empty list),
    its tool-call id and its name. *)
Definition as_loaded (m : BaseMessage) : BaseMessage :=
  match m with
  | HumanMessage c => HumanMessage (TextContent (content_as_string c))
  | AIMessage c (Some calls) =>
      AIMessage (TextContent (content_as_string c)) (Some calls)
  | AIMessage c None => AIMessage (TextContent (content_as_string c)) (Some [])
  | ToolMessage c id n => ToolMessage (TextContent (content_as_string c)) id n
  | OtherMessage _ c => HumanMessage (TextContent (content_as_string c))
  end.

(** ** Sample data *)

(** A file-system server that lists two files and fails on every other
    call. *)
Definition sample_tools : list Tool :=
  [MkTool "list_files" JNull; MkTool "read_file" JNull].

Definition sample_files : Json := JArray [JString "a.txt"; JString "b.txt"].

Definition sample_client : Client :=
  MkClient (Ok (Some sample_tools))
    (fun toolName _ =>
       if String.eqb toolName "list_files" then Ok sample_files
       else Throw (MkError "ENOENT")).

Definition sample_connect (command : string) (args : list string)
  : Exc Client :=
  if String.eqb command "npx" then Ok sample_client
  else Throw (MkError "spawn failed").

(** The service once the server is connected and its tools are listed. *)
Definition sample_mcp : MCPService :=
  MkMCPService
    [("filesystem",
      MkMCPServer "filesystem" "npx" ["-y"] (Some sample_client)
                  (Some sample_tools))]
    ["filesystem"].

Definition sample_row (conversation text : string) (createdAt : nat)
  : MessageRow :=
  MkMessageRow conversation "USER" text None createdAt.

(** Twelve messages of conversation c1, created at times 1 to 12 and stored
    out of order, and one message of conversation c2. *)
Definition sample_table : list MessageRow :=
  sample_row "c2" "other" 5
  :: map (sample_row "c1" "m") [3; 1; 2; 12; 4; 11; 5; 6; 10; 7; 9; 8].

Definition sample_world : World :=
  MkWorld (MkDb sample_table 13 None) sample_mcp [].

Definition connection_lost : Error := MkError "connection lost".

Definition faulty_world : World :=
  MkWorld (MkDb sample_table 13 (Some connection_lost)) sample_mcp [].

Definition sample_conversation : Conversation := MkConversation "c1" "user".

Definition sample_calls : list ToolCall :=
  [MkToolCall "call_1" "list_files" (JObject [("path", JString ".")]);
   MkToolCall "call_2" "read_file" (JObject [("path", JString "x")])].

Definition upstream_error : Error := MkError "upstream API error".

(** A generator that greets, asks for the two sample calls, and is out of
    reach once it is shown tool results. *)
Definition sample_generate (history : list BaseMessage)
  (capabilities : list Tool) : Exc Outcome :=
  match rev history with
  | HumanMessage (TextContent text) :: _ =>
      if String.eqb text "hi" then Ok (FinalAnswer "Hello!")
      else Ok (CapabilityRequest sample_calls)
  | ToolMessage _ _ _ :: _ => Throw upstream_error
  | _ => Ok (FinalAnswer "done")
  end.

Definition sample_stringify (v : Json) : string := "[json]".

(** An agent graph that fails as the sample generator does. *)
Definition failing_graph (st : AgentState) : M AgentState :=
  throw upstream_error.

Definition list_files_history : list BaseMessage :=
  [HumanMessage (TextContent "list files")].

Definition sample_request : BaseMessage :=
  AIMessage (TextContent "") (Some sample_calls).

(** The loop's variables once the sample request is stored and its calls
    are pending. *)
Definition awaiting_sample : Turn :=
  MkTurn AWAITING_TOOLS (list_files_history ++ [sample_request])
         [sample_request] sample_calls [list_files_history] [].

(** The loop's variables and the world after the two steps of the sample
    request, with [sample_stringify] for the stored contents. *)
Definition after_tools : Turn :=
  MkTurn GENERATING
    (list_files_history
     ++ [sample_request;
         ToolMessage (ComplexContent sample_files) (Some "call_1")
                     (Some "list_files");
         ToolMessage (ComplexContent (JObject [("error", JString "ENOENT")]))
                     (Some "call_2") (Some "read_file")])
    [sample_request;
     ToolMessage (ComplexContent sample_files) (Some "call_1")
                 (Some "list_files");
     ToolMessage (ComplexContent (JObject [("error", JString "ENOENT")]))
                 (Some "call_2") (Some "read_file")]
    [] [list_files_history] sample_calls.

Definition after_tools_world : World :=
  MkWorld
    (MkDb (sample_table
           ++ [MkMessageRow "c1" "ASSISTANT" ""
                 (Some (MkMetadata (Some sample_calls) None None)) 13;
               MkMessageRow "c1" "TOOL" "[json]"
                 (Some (MkMetadata None (Some "call_1") (Some "list_files")))
                 14;
               MkMessageRow "c1" "TOOL" "[json]"
                 (Some (MkMetadata None (Some "call_2") (Some "read_file")))
                 14])
          15 None)
    sample_mcp [].

(** The world once the sample server is connected, before its tools are
    listed. *)
Definition connected_world : World :=
  MkWorld (MkDb [] 0 None)
    (MkMCPService
       [("filesystem",
         MkMCPServer "filesystem" "npx" ["-y"] (Some sample_client) None)]
       ["filesystem"])
    [].

(** A store whose conversation c1 was written in order, at times 1 to 4. *)
Definition ordered_world : World :=
  MkWorld
    (MkDb (sample_row "c2" "other" 2
           :: map (sample_row "c1" "m") [1; 2; 3; 4])
          5 None)
    sample_mcp [].

(** A store that holds two conversations with messages of the three
    roles, stored out of order. *)
Definition mixed_table : list MessageRow :=
  [MkMessageRow "c1" "USER" "list the files" None 1;
   MkMessageRow "c2" "USER" "hi" None 2;
   MkMessageRow "c1" "TOOL" "[a, b]"
     (Some (MkMetadata None (Some "call_1") (Some "list_files"))) 4;
   MkMessageRow "c2" "ASSISTANT" "Hello!" None 6;
   MkMessageRow "c1" "ASSISTANT" "" (Some (MkMetadata (Some sample_calls) None None)) 3;
   MkMessageRow "c1" "ASSISTANT" "Two files." None 5].

Definition mixed_world : World :=
  MkWorld (MkDb mixed_table 7 None) sample_mcp [].

(** A service with two stored servers that have listed their tools. *)
Definition search_tools : list Tool := [MkTool "search" JNull].

Definition routing_service : MCPService :=
  MkMCPService
    [("filesystem",
      MkMCPServer "filesystem" "npx" ["-y"] (Some sample_client)
                  (Some sample_tools));
     ("github",
      MkMCPServer "github" "npx" ["-y"] (Some sample_client) None);
     ("websearch",
      MkMCPServer "websearch" "npx" ["-y"] (Some sample_client)
                  (Some search_tools))]
    ["filesystem"; "github"; "websearch"].

(** A start-up in which no server process can be started. *)
Definition failing_connect (command : string) (args : list string)
  : Exc Client :=
  Throw (MkError "spawn npx ENOENT").

(** A text of white space only: a space, a no-break space (U+00A0), an
    ideographic space (U+3000), a byte-order mark (U+FEFF), a line separator
    (U+2028) and a tab. *)
Definition blank_text : string :=
  String (ascii_of_nat 32)
    (String (ascii_of_nat 194) (String (ascii_of_nat 160)
    (String (ascii_of_nat 227) (String (ascii_of_nat 128)
                                  (String (ascii_of_nat 128)
    (String (ascii_of_nat 239) (String (ascii_of_nat 187)
                                  (String (ascii_of_nat 191)
    (String (ascii_of_nat 226) (String (ascii_of_nat 128)
                                  (String (ascii_of_nat 168)
    (String (ascii_of_nat 9) EmptyString)))))))))))).

(** An agent graph that answers and then adds a message of white space. *)
Definition blank_last_graph (st : AgentState) : M AgentState :=
  ret (MkAgentState
         (messages st
          ++ [AIMessage (TextContent "Hello!") None;
              AIMessage (TextContent blank_text) (Some sample_calls)])
         (conversationId st) false [] (workingDirectory st)).

(** An environment with a GitHub token and the placeholder search key. *)
Definition sample_env : ProcessEnv :=
  MkProcessEnv (Some "ghp_token") (Some "your_brave_api_key_here").

Definition fresh_world : World := MkWorld (MkDb [] 0 None) new_MCPService [].

(** * Properties *)

(** ** The message store *)

Lemma insert_desc_perm r l : Permutation (insert_desc r l) (r :: l).
Proof.
  induction l as [|x rest IH]; simpl.
  - apply Permutation_refl.
  - destruct (row_createdAt x <=? row_createdAt r).
    + apply Permutation_refl.
    + eapply perm_trans; [apply perm_skip, IH | apply perm_swap].
Qed.

Lemma orderBy_createdAt_desc_perm l : Permutation (orderBy_createdAt_desc l) l.
Proof.
  induction l as [|x rest IH]; simpl.
  - apply perm_nil.
  - eapply perm_trans; [apply insert_desc_perm | apply perm_skip, IH].
Qed.

Lemma insert_desc_sorted r l :
  StronglySorted newer_first l -> StronglySorted newer_first (insert_desc r l).
Proof.
  induction 1 as [|x rest Hs IH Hall]; simpl.
  - repeat constructor.
  - destruct (Nat.leb_spec (row_createdAt x) (row_createdAt r)) as [Hle|Hlt].
    + constructor.
      * constructor; assumption.
      * constructor; [exact Hle|].
        eapply Forall_impl; [|exact Hall].
        unfold newer_first; intros; lia.
    + constructor; [exact IH|].
      eapply Permutation_Forall.
      * apply Permutation_sym, insert_desc_perm.
      * constructor; [unfold newer_first; lia | exact Hall].
Qed.

Lemma orderBy_createdAt_desc_sorted l :
  StronglySorted newer_first (orderBy_createdAt_desc l).
Proof.
  induction l as [|x rest IH]; simpl.
  - constructor.
  - apply insert_desc_sorted, IH.
Qed.

Lemma in_firstn_in {A} (x : A) n l : In x (firstn n l) -> In x l.
Proof.
  intros H. rewrite <- (firstn_skipn n l). apply in_or_app. now left.
Qed.

Lemma in_skipn_in {A} (x : A) n l : In x (skipn n l) -> In x l.
Proof.
  intros H. rewrite <- (firstn_skipn n l). apply in_or_app. now right.
Qed.

(** In a list sorted most recent first, what [take] leaves out is no more
    recent than what it keeps. *)
Lemma sorted_firstn_skipn n l :
  StronglySorted newer_first l ->
  Forall (fun o => Forall (fun r => row_createdAt o <= row_createdAt r)
                          (firstn n l))
         (skipn n l).
Proof.
  intros Hs. revert n.
  induction Hs as [|x rest Hs IH Hall]; intros [|n]; simpl.
  - constructor.
  - constructor.
  - apply Forall_forall; intros; constructor.
  - specialize (IH n).
    rewrite Forall_forall in IH |- *.
    intros o Ho. constructor.
    + rewrite Forall_forall in Hall.
      apply Hall. eapply in_skipn_in; eauto.
    + apply IH, Ho.
Qed.

Lemma sorted_firstn n l :
  StronglySorted newer_first l -> StronglySorted newer_first (firstn n l).
Proof.
  intros Hs. revert n.
  induction Hs as [|x rest Hs IH Hall]; intros [|n]; simpl; try constructor.
  - apply IH.
  - rewrite Forall_forall in Hall |- *.
    intros y Hy. apply Hall. eapply in_firstn_in; eauto.
Qed.

Lemma sorted_snoc l x :
  StronglySorted older_first l ->
  Forall (fun y => older_first y x) l ->
  StronglySorted older_first (l ++ [x]).
Proof.
  induction 1 as [|y rest Hs IH Hy]; simpl; intros Hall.
  - repeat constructor.
  - inversion Hall; subst. constructor.
    + apply IH; assumption.
    + apply Forall_app; split; [exact Hy | repeat constructor; assumption].
Qed.

Lemma sorted_rev l :
  StronglySorted newer_first l -> StronglySorted older_first (rev l).
Proof.
  induction 1 as [|x rest Hs IH Hall]; simpl.
  - constructor.
  - apply sorted_snoc; [exact IH|].
    rewrite Forall_forall in Hall |- *. intros y Hy.
    apply Hall, in_rev, Hy.
Qed.

Lemma prisma_message_findMany_run conversation take w :
  prisma_message_findMany conversation take w =
  match db_fault (db w) with
  | Some e => (Throw e, w)
  | None =>
      (Ok (firstn take
             (orderBy_createdAt_desc
                (where_conversationId conversation (message_table (db w))))),
       w)
  end.
Proof.
  unfold prisma_message_findMany, bind, get_db.
  destruct (db_fault (db w)); reflexivity.
Qed.

Lemma getConversationMessages_run conversation limit w :
  getConversationMessages conversation limit w =
  (Ok (match db_fault (db w) with
       | Some _ => []
       | None =>
           map row_to_message
             (rev (firstn limit
                     (orderBy_createdAt_desc
                        (where_conversationId conversation
                           (message_table (db w))))))
       end), w).
Proof.
  unfold getConversationMessages, try_catch, bind.
  rewrite prisma_message_findMany_run.
  destruct (db_fault (db w)); reflexivity.
Qed.

Lemma prisma_message_createMany_run data w :
  prisma_message_createMany data w =
  match db_fault (db w) with
  | Some e => (Throw e, w)
  | None =>
      (Ok tt,
       MkWorld (MkDb (message_table (db w)
                        ++ map (stored_row (db_clock (db w))) data)
                     (S (db_clock (db w))) None)
               (mcp w) (cli w))
  end.
Proof.
  unfold prisma_message_createMany, bind, get_db, put_db.
  destruct (db_fault (db w)); reflexivity.
Qed.

Lemma saveMessages_run conversation msgs w :
  saveMessages conversation msgs w =
  match db_fault (db w) with
  | Some e => (Throw e, w)
  | None =>
      (Ok tt,
       MkWorld (MkDb (message_table (db w)
                        ++ map (stored_row (db_clock (db w)))
                             (map (messageData conversation) msgs))
                     (S (db_clock (db w))) None)
               (mcp w) (cli w))
  end.
Proof.
  unfold saveMessages, try_catch, throw.
  rewrite prisma_message_createMany_run.
  destruct (db_fault (db w)); reflexivity.
Qed.

Lemma processUserInput_agent graph userInput conversation availableTools w :
  toLowerCase userInput <> "/exit" ->
  toLowerCase userInput <> "/help" ->
  toLowerCase userInput <> "/tools" ->
  processUserInput graph userInput conversation availableTools w =
  match getConversationMessages (conv_id conversation) 10 (thinking w) with
  | (Ok conversationHistory, w1) =>
      bind (graph (initialState conversation conversationHistory userInput))
           displayFinalResponse w1
  | (Throw e, w1) => (Throw e, w1)
  end.
Proof.
  intros He Hh Ht. unfold processUserInput.
  apply String.eqb_neq in He, Hh, Ht. rewrite He, Hh, Ht.
  reflexivity.
Qed.

(** C9.  Every message is mapped to one of the three roles USER, ASSISTANT,
    TOOL; a message that is neither an AIMessage nor a ToolMessage, of a
    known class or not, is mapped to USER; and every row that a call of
    saveMessages adds to the table carries the role mapped from its message,
    so no call stores a role outside the three. *)
Theorem saveMessages_role_enum :
  (forall m, In (mapMessageRole m) role_enum) /\
  (forall m,
     mapMessageRole m =
     if instanceof_AIMessage m then "ASSISTANT"
     else if instanceof_ToolMessage m then "TOOL"
     else "USER") /\
  (forall conversation msgs w,
     exists rows,
       message_table (db (snd (saveMessages conversation msgs w)))
       = message_table (db w) ++ rows /\
       Forall (fun r => In (row_role r) role_enum) rows /\
       if is_ok (fst (saveMessages conversation msgs w))
       then map row_role rows = map mapMessageRole msgs
       else rows = []).
Proof.
  assert (Henum : forall m, In (mapMessageRole m) role_enum).
  { intros [c|c tcs|c id n|ty c]; unfold mapMessageRole, role_enum; simpl; auto. }
  split; [exact Henum|]. split.
  - intros [c|c tcs|c id n|ty c]; reflexivity.
  - intros conversation msgs w. rewrite saveMessages_run.
    destruct (db_fault (db w)) as [e|]; simpl.
    + exists []. rewrite app_nil_r. repeat split. constructor.
    + eexists. split; [reflexivity|]. split.
      * rewrite Forall_forall. intros r Hr.
        apply in_map_iff in Hr as [d [<- Hd]].
        apply in_map_iff in Hd as [m [<- _]]. simpl. apply Henum.
      * rewrite !map_map. reflexivity.
Qed.

(** C8.  getConversationMessages never raises, and when the storage query
    fails it returns the empty list: the same answer as for a conversation
    without messages on a working store, so the entry point goes on and
    hands the agent the new user message alone. *)
Theorem getConversationMessages_storage_failure
  (conversation : Conversation) (limit : nat) (w : World) (e : Error)
  (Hfail : fst (prisma_message_findMany (conv_id conversation) limit w)
           = Throw e) :
  getConversationMessages (conv_id conversation) limit w = (Ok [], w) /\
  (forall conversation' limit' w',
     exists l, getConversationMessages conversation' limit' w' = (Ok l, w')) /\
  (forall w0,
     db_fault (db w0) = None ->
     where_conversationId (conv_id conversation) (message_table (db w0)) = [] ->
     fst (getConversationMessages (conv_id conversation) limit w0)
     = fst (getConversationMessages (conv_id conversation) limit w)) /\
  (forall graph userInput availableTools,
     toLowerCase userInput <> "/exit" ->
     toLowerCase userInput <> "/help" ->
     toLowerCase userInput <> "/tools" ->
     processUserInput graph userInput conversation availableTools w =
     bind (graph (initialState conversation [] userInput))
          displayFinalResponse (thinking w) /\
     messages (initialState conversation [] userInput)
     = [HumanMessage (TextContent userInput)]).
Proof.
  rewrite prisma_message_findMany_run in Hfail.
  destruct (db_fault (db w)) as [e'|] eqn:Hw; [|discriminate].
  split; [|split; [|split]].
  - rewrite getConversationMessages_run, Hw. reflexivity.
  - intros. rewrite getConversationMessages_run. eexists; reflexivity.
  - intros w0 H0 Hnone. rewrite !getConversationMessages_run.
    rewrite H0, Hw, Hnone. simpl. destruct limit; reflexivity.
  - intros graph userInput availableTools He Hh Ht. split; [|reflexivity].
    rewrite processUserInput_agent by assumption.
    rewrite getConversationMessages_run. simpl. rewrite Hw. reflexivity.
Qed.

Lemma where_conversationId_split conversationId l :
  Permutation
    (filter (fun r => negb (String.eqb (row_conversationId r) conversationId)) l
     ++ where_conversationId conversationId l)
    l.
Proof.
  unfold where_conversationId.
  induction l as [|r rest IH]; simpl; [constructor|].
  destruct (String.eqb (row_conversationId r) conversationId); simpl.
  - apply Permutation_sym, Permutation_cons_app, Permutation_sym, IH.
  - constructor. exact IH.
Qed.

Lemma row_to_message_loads_as r : loads_as r (row_to_message r).
Proof.
  unfold loads_as, row_to_message, new_AIMessage.
  destruct (String.eqb_spec (row_role r) "USER") as [Hu|Hu].
  - right. right. rewrite Hu. repeat split; discriminate.
  - destruct (String.eqb_spec (row_role r) "ASSISTANT") as [Ha|Ha].
    + left. split; [exact Ha|].
      destruct (row_metadata r) as [[[calls|] id n]|]; reflexivity.
    + destruct (String.eqb_spec (row_role r) "TOOL") as [Ht|Ht].
      * right. left. split; [exact Ht|].
        destruct (row_metadata r); reflexivity.
      * right. right. repeat split; assumption.
Qed.

Lemma rows_load_as rows : Forall2 loads_as rows (map row_to_message rows).
Proof.
  induction rows as [|r rest IH]; simpl; constructor;
    [apply row_to_message_loads_as | exact IH].
Qed.

(** C4.  getConversationMessages returns at most [limit] messages, each
    the message of a stored row of the requested conversation.  The stored
    rows split into those of other conversations, the rows of the
    conversation that are left out, and the rows returned: the returned ones
    are the most recently created of the conversation (no row left out is
    more recent than a row returned), as many as the limit allows, and they
    come back oldest first.  The entry point loads this window with limit 10
    and hands the agent the window followed by the new user message, at
    most 11 messages, whatever the length of the stored history. *)
Theorem getConversationMessages_recent_window
  (graph : AgentState -> M AgentState) (userInput : string)
  (conversation : Conversation) (availableTools : list Tool) (w : World)
  (Hexit : toLowerCase userInput <> "/exit")
  (Hhelp : toLowerCase userInput <> "/help")
  (Htools : toLowerCase userInput <> "/tools") :
  (forall conversationId limit w0,
     exists rows older others loaded,
       getConversationMessages conversationId limit w0 = (Ok loaded, w0) /\
       loaded = map row_to_message rows /\
       Forall2 loads_as rows loaded /\
       length rows <= limit /\
       StronglySorted older_first rows /\
       match db_fault (db w0) with
       | Some _ => rows = []
       | None =>
           Permutation (others ++ older ++ rows) (message_table (db w0)) /\
           Forall (fun r => row_conversationId r = conversationId)
                  (older ++ rows) /\
           Forall (fun r => row_conversationId r <> conversationId) others /\
           length rows = Nat.min limit (length (older ++ rows)) /\
           Permutation (older ++ rows)
             (where_conversationId conversationId (message_table (db w0))) /\
           length rows
           = Nat.min limit
               (length (where_conversationId conversationId
                          (message_table (db w0)))) /\
           Forall (fun o =>
                     Forall (fun r => row_createdAt o <= row_createdAt r) rows)
                  older
       end) /\
  (exists window,
     getConversationMessages (conv_id conversation) 10 (thinking w)
     = (Ok window, thinking w) /\
     length window <= 10 /\
     processUserInput graph userInput conversation availableTools w
     = bind (graph (initialState conversation window userInput))
            displayFinalResponse (thinking w) /\
     messages (initialState conversation window userInput)
     = window ++ [HumanMessage (TextContent userInput)] /\
     length (messages (initialState conversation window userInput)) <= 11).
Proof.
  assert (Hwin : forall conversationId limit w0,
     exists rows older others loaded,
       getConversationMessages conversationId limit w0 = (Ok loaded, w0) /\
       loaded = map row_to_message rows /\
       Forall2 loads_as rows loaded /\
       length rows <= limit /\
       StronglySorted older_first rows /\
       match db_fault (db w0) with
       | Some _ => rows = []
       | None =>
           Permutation (others ++ older ++ rows) (message_table (db w0)) /\
           Forall (fun r => row_conversationId r = conversationId)
                  (older ++ rows) /\
           Forall (fun r => row_conversationId r <> conversationId) others /\
           length rows = Nat.min limit (length (older ++ rows)) /\
           Permutation (older ++ rows)
             (where_conversationId conversationId (message_table (db w0))) /\
           length rows
           = Nat.min limit
               (length (where_conversationId conversationId
                          (message_table (db w0)))) /\
           Forall (fun o =>
                     Forall (fun r => row_createdAt o <= row_createdAt r) rows)
                  older
       end).
  { intros conversationId limit w0.
    rewrite getConversationMessages_run.
    destruct (db_fault (db w0)) as [e|].
    - exists [], [], [], []. simpl. repeat split; try lia; constructor.
    - set (sorted := orderBy_createdAt_desc
                       (where_conversationId conversationId
                          (message_table (db w0)))).
      assert (Hs : StronglySorted newer_first sorted)
        by apply orderBy_createdAt_desc_sorted.
      assert (Hperm : Permutation (skipn limit sorted ++ rev (firstn limit sorted))
                        (where_conversationId conversationId
                           (message_table (db w0)))).
      { eapply perm_trans; [apply Permutation_app_comm|].
        eapply perm_trans;
          [apply Permutation_app_tail, Permutation_sym, Permutation_rev|].
        rewrite firstn_skipn. apply orderBy_createdAt_desc_perm. }
      exists (rev (firstn limit sorted)), (skipn limit sorted),
        (filter (fun r => negb (String.eqb (row_conversationId r)
                                           conversationId))
                (message_table (db w0))),
        (map row_to_message (rev (firstn limit sorted))).
      split; [reflexivity|]. split; [reflexivity|].
      split; [apply rows_load_as|]. split.
      { rewrite length_rev. apply firstn_le_length. }
      split.
      { apply sorted_rev, sorted_firstn, Hs. }
      split; [|split; [|split; [|split; [|split; [|split]]]]].
      + eapply perm_trans; [|apply where_conversationId_split].
        apply Permutation_app_head, Hperm.
      + eapply Permutation_Forall; [apply Permutation_sym, Hperm|].
        apply Forall_forall. intros r Hr.
        apply filter_In in Hr as [_ Hr]. now apply String.eqb_eq.
      + apply Forall_forall. intros r Hr.
        apply filter_In in Hr as [_ Hr].
        apply negb_true_iff in Hr. now apply String.eqb_neq.
      + rewrite (Permutation_length Hperm).
        rewrite length_rev, length_firstn. f_equal.
        apply Permutation_length, orderBy_createdAt_desc_perm.
      + exact Hperm.
      + rewrite length_rev, length_firstn. f_equal.
        apply Permutation_length, orderBy_createdAt_desc_perm.
      + eapply Forall_impl; [|apply sorted_firstn_skipn, Hs].
        intros o Ho. rewrite Forall_forall in Ho |- *.
        intros r Hr. apply Ho, in_rev, Hr. }
  split; [exact Hwin|].
  destruct (Hwin (conv_id conversation) 10 (thinking w))
    as [rows [older [others [loaded [Hrun [-> [_ [Hlen _]]]]]]]].
  exists (map row_to_message rows).
  split; [exact Hrun|]. split; [now rewrite length_map|].
  split; [|split].
  - rewrite processUserInput_agent by assumption. rewrite Hrun. reflexivity.
  - reflexivity.
  - simpl. rewrite length_app, length_map. simpl. lia.
Qed.

(** C5.  On the exit, help and list-tools commands, in any letter case,
    processUserInput shows the command's output and returns: its result and
    the world it leaves are given outright, with the database and the MCP
    service untouched, and they are the same for every agent graph, so the
    graph (and behind it the generator) is never called. *)
Theorem commands_short_circuit
  (graph : AgentState -> M AgentState) (userInput : string)
  (conversation : Conversation) (availableTools : list Tool) (w : World)
  (Hcmd : In (toLowerCase userInput) ["/exit"; "/help"; "/tools"]) :
  (exists result shown,
     processUserInput graph userInput conversation availableTools w
     = (Ok result, MkWorld (db w) (mcp w) (cli w ++ [shown])) /\
     (result, shown)
     = if String.eqb (toLowerCase userInput) "/exit"
       then ("exit", DisplayInfo (String.append "Goodbye! " wave))
       else if String.eqb (toLowerCase userInput) "/help"
            then ("continue", DisplayHelp)
            else ("continue", DisplayTools availableTools)) /\
  (forall graph',
     processUserInput graph' userInput conversation availableTools w
     = processUserInput graph userInput conversation availableTools w).
Proof.
  unfold processUserInput.
  destruct Hcmd as [H|[H|[H|[]]]]; rewrite <- H; simpl;
    (split; [do 2 eexists; split; reflexivity | reflexivity]).
Qed.

(** ** The MCP service *)

Lemma caches_tool_true toolName server :
  caches_tool toolName server = true ->
  exists tools tool,
    server_tools server = Some tools /\ In tool tools /\
    tool_name tool = toolName.
Proof.
  unfold caches_tool. destruct (server_tools server) as [tools|]; [|discriminate].
  intros H. apply existsb_exists in H as [tool [Hin Heq]].
  apply String.eqb_eq in Heq. exists tools, tool. auto.
Qed.

Lemma caches_tool_uncached toolName server :
  server_tools server = None -> caches_tool toolName server = false.
Proof. unfold caches_tool. now intros ->. Qed.

Lemma getServerForTool_loop_Some entries toolName serverName :
  getServerForTool_loop entries toolName = Some serverName ->
  exists before server after,
    entries = before ++ (serverName, server) :: after /\
    Forall (fun kv => caches_tool toolName (snd kv) = false) before /\
    caches_tool toolName server = true.
Proof.
  induction entries as [|[name server] rest IH]; simpl; [discriminate|].
  destruct (caches_tool toolName server) eqn:Hc.
  - intros [= <-]. exists [], server, rest. repeat split; auto.
  - intros H. destruct (IH H) as [before [server' [after [-> [Hb Hs]]]]].
    exists ((name, server) :: before), server', after.
    repeat split; auto.
Qed.

Lemma getServerForTool_loop_None entries toolName :
  Forall (fun kv => caches_tool toolName (snd kv) = false) entries ->
  getServerForTool_loop entries toolName = None.
Proof.
  induction 1 as [|[name server] rest Hc _ IH]; simpl; [reflexivity|].
  simpl in Hc. now rewrite Hc.
Qed.

Lemma map_set_Forall {V} (P : string * V -> Prop) k v m :
  P (k, v) -> Forall P m -> Forall P (map_set k v m).
Proof.
  intros Hv. induction 1 as [|[k' v'] rest Hx Hrest IH]; simpl.
  - repeat constructor; assumption.
  - destruct (String.eqb k' k); constructor; assumption.
Qed.

Lemma map_delete_Forall {V} (P : string * V -> Prop) k m :
  Forall P m -> Forall P (map_delete k m).
Proof.
  intros H. unfold map_delete. rewrite Forall_forall in H |- *.
  intros x Hx. apply filter_In in Hx as [Hx _]. auto.
Qed.

Lemma callTool_world serverName toolName args w :
  snd (callTool serverName toolName args w) = w.
Proof.
  unfold callTool, try_catch, bind, get_mcp, lift_exc, throw, ret.
  destruct (map_get serverName (servers (mcp w))) as [[n c a [client|] t]|];
    simpl; try reflexivity.
  destruct (client_callTool client toolName args); reflexivity.
Qed.

Lemma getServerForTool_loop_first before serverName server after toolName :
  Forall (fun kv => caches_tool toolName (snd kv) = false) before ->
  caches_tool toolName server = true ->
  getServerForTool_loop (before ++ (serverName, server) :: after) toolName
  = Some serverName.
Proof.
  intros Hb Hc. induction Hb as [|[name srv] rest Hx _ IH]; simpl.
  - now rewrite Hc.
  - simpl in Hx. now rewrite Hx.
Qed.

Lemma caches_tool_cached toolName server tools tool :
  server_tools server = Some tools -> In tool tools ->
  tool_name tool = toolName -> caches_tool toolName server = true.
Proof.
  unfold caches_tool. intros -> Hin Hn.
  apply existsb_exists. exists tool. split; [exact Hin|].
  now apply String.eqb_eq.
Qed.

Lemma map_get_Forall {V} (P : string * V -> Prop) k v m :
  Forall P m -> map_get k m = Some v -> P (k, v).
Proof.
  induction 1 as [|[k' v'] rest Hx _ IH]; simpl; [discriminate|].
  destruct (String.eqb_spec k' k) as [->|Hk]; [|exact IH].
  now intros [= <-].
Qed.

Lemma mcp_call_nothing_cached c w :
  caches_tools c = false ->
  nothing_cached (mcp w) -> nothing_cached (mcp (snd (mcp_call c w))).
Proof.
  unfold nothing_cached.
  destruct c as [name command args|name|serverName| |serverName toolName args|name];
    simpl; try discriminate; intros _ H.
  - unfold connectServer, transport_onclose, try_catch, bind, lift_exc,
      get_mcp, put_mcp, throw.
    destruct (connect_transport command args) as [client|e]; simpl; [|exact H].
    apply map_set_Forall; [reflexivity | exact H].
  - unfold disconnectServer, try_catch, bind, get_mcp, put_mcp, ret.
    destruct (map_get name (servers (mcp w))) as [[n c a [client|] t]|];
      simpl; try exact H.
    apply map_delete_Forall, H.
  - unfold bind.
    pose proof (callTool_world serverName toolName args w) as Hw.
    destruct (callTool serverName toolName args w) as [[r|e] w']; simpl in *;
      subst w'; exact H.
  - unfold transport_closed, transport_onclose, bind, get_mcp, put_mcp, ret.
    destruct (map_get name (servers (mcp w))) as [server|] eqn:Hget;
      simpl; [|exact H].
    apply map_set_Forall; [|exact H].
    exact (@map_get_Forall _ _ name server _ H Hget).
Qed.

Lemma mcp_calls_nothing_cached cs w :
  forallb (fun c => negb (caches_tools c)) cs = true ->
  nothing_cached (mcp w) -> nothing_cached (mcp (mcp_calls cs w)).
Proof.
  revert w. induction cs as [|c rest IH]; simpl; intros w Hcs Hw; [exact Hw|].
  apply andb_prop in Hcs as [Hc Hrest].
  apply IH; [exact Hrest|].
  apply mcp_call_nothing_cached; [|exact Hw].
  now apply negb_true_iff.
Qed.

(** C10.  getServerForTool answers from the cached tool lists alone, and
    the statement fixes its answer for every service.  When it returns a
    name, that name is the key of the first stored server whose cached list
    has a tool of the requested name.  Conversely, when some stored server
    has a tool of that name in its cached list, it returns a name, namely
    the key of the first such server in the order of the map.  It returns
    null when no stored server has such a cached list; in particular after
    any sequence of calls without listTools or getAllTools, started with
    nothing cached, it returns null for every tool name, whatever the
    connected servers would list. *)
Theorem getServerForTool_cached_only (this : MCPService) (toolName : string) :
  (forall serverName,
     getServerForTool this toolName = Some serverName ->
     exists before server after tools tool,
       servers this = before ++ (serverName, server) :: after /\
       Forall (fun kv => caches_tool toolName (snd kv) = false) before /\
       server_tools server = Some tools /\
       In tool tools /\ tool_name tool = toolName) /\
  (forall before serverName server after tools tool,
     servers this = before ++ (serverName, server) :: after ->
     Forall (fun kv => forall cached,
                 server_tools (snd kv) = Some cached ->
                 Forall (fun t => tool_name t <> toolName) cached) before ->
     server_tools server = Some tools ->
     In tool tools -> tool_name tool = toolName ->
     getServerForTool this toolName = Some serverName) /\
  (forall serverName server tools tool,
     In (serverName, server) (servers this) ->
     server_tools server = Some tools ->
     In tool tools -> tool_name tool = toolName ->
     exists found, getServerForTool this toolName = Some found) /\
  (Forall (fun kv => caches_tool toolName (snd kv) = false) (servers this) ->
   getServerForTool this toolName = None) /\
  (forall calls w,
     mcp w = this ->
     nothing_cached this ->
     forallb (fun c => negb (caches_tools c)) calls = true ->
     getServerForTool (mcp (mcp_calls calls w)) toolName = None).
Proof.
  split; [|split; [|split; [|split]]].
  - intros serverName H.
    apply getServerForTool_loop_Some in H
      as [before [server [after [Hs [Hb Hc]]]]].
    apply caches_tool_true in Hc as [tools [tool [Ht [Hin Hn]]]].
    exists before, server, after, tools, tool. auto.
  - intros before serverName server after tools tool Hs Hb Ht Hin Hn.
    unfold getServerForTool. rewrite Hs.
    apply getServerForTool_loop_first.
    + eapply Forall_impl; [|exact Hb].
      intros [k srv] Hk. cbn [snd] in *. unfold caches_tool.
      destruct (server_tools srv) as [cached|]; [|reflexivity].
      specialize (Hk cached eq_refl).
      apply not_true_is_false. intros Hex.
      apply existsb_exists in Hex as [t [Hint Heq]].
      apply String.eqb_eq in Heq.
      rewrite Forall_forall in Hk. exact (Hk t Hint Heq).
    + exact (@caches_tool_cached toolName server tools tool Ht Hin Hn).
  - intros serverName server tools tool Hin Ht Htool Hn.
    pose proof (@caches_tool_cached toolName server tools tool Ht Htool Hn) as Hc.
    unfold getServerForTool.
    induction (servers this) as [|[name srv] rest IH]; simpl; [contradiction|].
    destruct Hin as [H|H].
    + injection H as -> ->. rewrite Hc. eexists; reflexivity.
    + destruct (caches_tool toolName srv); [eexists; reflexivity|].
      apply IH, H.
  - apply getServerForTool_loop_None.
  - intros calls w <- Hnone Hcalls.
    apply getServerForTool_loop_None.
    pose proof (mcp_calls_nothing_cached calls w Hcalls Hnone) as H.
    eapply Forall_impl; [|exact H].
    intros kv Hkv. apply caches_tool_uncached, Hkv.
Qed.

(** ** The orchestration loop *)

Lemma execute_run call w :
  execute call w = (Ok (gateway_result (mcp w) call w), w).
Proof.
  unfold execute, gateway_result, bind, get_mcp, try_catch, ret. simpl.
  destruct (getServerForTool (mcp w) (tc_name call)) as [serverName|];
    [|reflexivity].
  pose proof (callTool_world serverName (tc_name call) (tc_args call) w) as Hw.
  destruct (callTool serverName (tc_name call) (tc_args call) w) as [[r|e] w'];
    simpl in *; subst w'; reflexivity.
Qed.

Lemma gateway_result_id this call w :
  result_call_id (gateway_result this call w) = tc_id call.
Proof.
  unfold gateway_result.
  destruct (getServerForTool this (tc_name call)); [|reflexivity].
  destruct (fst (callTool _ _ _ w)); reflexivity.
Qed.

Lemma tool_message_answers call r :
  result_call_id r = tc_id call -> answers call (tool_message call r).
Proof.
  destruct r as [id payload|id reason]; simpl; intros ->;
    eexists; reflexivity.
Qed.

Lemma execute_pending_run calls w :
  execute_pending calls w =
  (Ok (map (fun call => tool_message call (gateway_result (mcp w) call w))
           calls), w).
Proof.
  induction calls as [|call rest IH]; simpl; [reflexivity|].
  unfold bind at 1. rewrite execute_run.
  unfold bind at 1. rewrite IH. reflexivity.
Qed.

Lemma executed_answers calls w :
  Forall2 answers calls
    (map (fun call => tool_message call (gateway_result (mcp w) call w)) calls).
Proof.
  induction calls as [|call rest IH]; simpl; constructor; [|exact IH].
  apply tool_message_answers, gateway_result_id.
Qed.

Lemma saved_stored_as conversation msgs now :
  Forall2 (stored_as conversation) msgs
    (map (stored_row now) (map (messageData conversation) msgs)).
Proof.
  induction msgs as [|m rest IH]; simpl; constructor; [reflexivity|exact IH].
Qed.

Lemma step_generating conversation capabilities t w :
  turn_state t = GENERATING ->
  step conversation capabilities t w =
  match generate (turn_history t) capabilities with
  | Throw e => (Throw e, w)
  | Ok outcome =>
      match db_fault (db w) with
      | Some e => (Throw e, w)
      | None =>
          (Ok (MkTurn
                 (match outcome with
                  | FinalAnswer _ => DONE
                  | CapabilityRequest _ => AWAITING_TOOLS
                  end)
                 (turn_history t ++ [assistant_message outcome])
                 (turn_produced t ++ [assistant_message outcome])
                 (match outcome with
                  | FinalAnswer _ => []
                  | CapabilityRequest calls => calls
                  end)
                 (turn_generated t ++ [turn_history t])
                 (turn_executed t)),
           saved conversation [assistant_message outcome] w)
      end
  end.
Proof.
  intros Hs. unfold step. rewrite Hs. unfold bind at 1, lift_exc.
  destruct (generate (turn_history t) capabilities) as [outcome|e];
    [|reflexivity].
  unfold bind. rewrite saveMessages_run.
  destruct (db_fault (db w)); reflexivity.
Qed.

Lemma step_awaiting conversation capabilities t w :
  turn_state t = AWAITING_TOOLS ->
  step conversation capabilities t w =
  let msgs :=
    map (fun call => tool_message call (gateway_result (mcp w) call w))
        (turn_pending t) in
  match db_fault (db w) with
  | Some e => (Throw e, w)
  | None =>
      (Ok (MkTurn GENERATING
             (turn_history t ++ msgs)
             (turn_produced t ++ msgs)
             []
             (turn_generated t)
             (turn_executed t ++ turn_pending t)),
       saved conversation msgs w)
  end.
Proof.
  intros Hs. unfold step. rewrite Hs. unfold bind at 1.
  rewrite execute_pending_run. unfold bind. rewrite saveMessages_run.
  destruct (db_fault (db w)); reflexivity.
Qed.

Lemma step_done conversation capabilities t w :
  turn_state t = DONE -> step conversation capabilities t w = (Ok t, w).
Proof. intros Hs. unfold step. now rewrite Hs. Qed.

(** What one successful step adds: the same messages to the history and to
    the turn's output, and their rows to the table, in order. *)
Lemma step_extends conversation capabilities t w t' w' :
  step conversation capabilities t w = (Ok t', w') ->
  exists msgs rows,
    turn_history t' = turn_history t ++ msgs /\
    turn_produced t' = turn_produced t ++ msgs /\
    message_table (db w') = message_table (db w) ++ rows /\
    Forall2 (stored_as conversation) msgs rows /\
    mcp w' = mcp w.
Proof.
  destruct (turn_state t) eqn:Hs.
  - rewrite step_generating by assumption.
    destruct (generate (turn_history t) capabilities) as [outcome|e];
      [|discriminate].
    destruct (db_fault (db w)); [discriminate|].
    intros [= <- <-]. do 2 eexists. unfold saved; cbn [db mcp message_table
      turn_history turn_produced].
    repeat split; try reflexivity. apply saved_stored_as.
  - rewrite step_awaiting by assumption. cbv zeta.
    destruct (db_fault (db w)); [discriminate|].
    intros [= <- <-]. do 2 eexists. unfold saved; cbn [db mcp message_table
      turn_history turn_produced].
    repeat split; try reflexivity. apply saved_stored_as.
  - rewrite step_done by assumption. intros [= <- <-].
    exists [], []. rewrite !app_nil_r. repeat split. constructor.
Qed.

(** A failing step leaves the world as it was. *)
Lemma step_throw_world conversation capabilities t w e w' :
  step conversation capabilities t w = (Throw e, w') -> w' = w.
Proof.
  destruct (turn_state t) eqn:Hs.
  - rewrite step_generating by assumption.
    destruct (generate (turn_history t) capabilities) as [outcome|e'].
    + destruct (db_fault (db w)); [|discriminate]. now intros [= _ <-].
    + now intros [= _ <-].
  - rewrite step_awaiting by assumption. cbv zeta.
    destruct (db_fault (db w)); [|discriminate]. now intros [= _ <-].
  - rewrite step_done by assumption. discriminate.
Qed.

Lemma steps_extends conversation capabilities n : forall t w t' w',
  steps n conversation capabilities t w = (Ok t', w') ->
  exists msgs rows,
    turn_history t' = turn_history t ++ msgs /\
    turn_produced t' = turn_produced t ++ msgs /\
    message_table (db w') = message_table (db w) ++ rows /\
    Forall2 (stored_as conversation) msgs rows /\
    mcp w' = mcp w.
Proof.
  induction n as [|n IH]; simpl; intros t w t' w' H.
  - injection H as <- <-. exists [], []. rewrite !app_nil_r.
    repeat split. constructor.
  - unfold bind in H.
    destruct (step conversation capabilities t w) as [[t1|e] w1] eqn:H1;
      [|discriminate].
    apply step_extends in H1 as [m1 [r1 [Hh1 [Hp1 [Ht1 [Hf1 Hm1]]]]]].
    apply IH in H as [m2 [r2 [Hh2 [Hp2 [Ht2 [Hf2 Hm2]]]]]].
    exists (m1 ++ m2), (r1 ++ r2).
    rewrite Hh2, Hp2, Ht2, Hh1, Hp1, Ht1, Hm2, Hm1, !app_assoc.
    repeat split. apply Forall2_app; assumption.
Qed.

Lemma steps_split conversation capabilities k : forall n t w t' w',
  k <= n ->
  steps n conversation capabilities t w = (Ok t', w') ->
  exists tk wk,
    steps k conversation capabilities t w = (Ok tk, wk) /\
    steps (n - k) conversation capabilities tk wk = (Ok t', w').
Proof.
  induction k as [|k IH]; intros n t w t' w' Hle H.
  - exists t, w. rewrite Nat.sub_0_r. split; [reflexivity|exact H].
  - destruct n as [|n]; [lia|]. simpl in H |- *. unfold bind in H |- *.
    destruct (step conversation capabilities t w) as [[t1|e] w1];
      [|discriminate].
    apply IH; [lia|exact H].
Qed.

Lemma run_step fuel conversation capabilities t w t' w' :
  turn_state t <> DONE ->
  step conversation capabilities t w = (Ok t', w') ->
  run (S fuel) conversation capabilities t w
  = run fuel conversation capabilities t' w'.
Proof.
  intros Hs H. simpl. rewrite H. destruct (turn_state t); congruence.
Qed.

Lemma run_abort fuel conversation capabilities t w e w' :
  turn_state t <> DONE ->
  step conversation capabilities t w = (Throw e, w') ->
  run (S fuel) conversation capabilities t w = (Aborted e t, w').
Proof.
  intros Hs H. simpl. rewrite H. destruct (turn_state t); congruence.
Qed.

Lemma steps_done n conversation capabilities t w :
  turn_state t = DONE -> steps n conversation capabilities t w = (Ok t, w).
Proof.
  intros Hs. induction n as [|n IH]; simpl; [reflexivity|].
  unfold bind. rewrite step_done by assumption. exact IH.
Qed.

(** Steps that have not reached [DONE] are the first steps of the run. *)
Lemma run_after_steps conversation capabilities n : forall fuel t w t' w',
  steps n conversation capabilities t w = (Ok t', w') ->
  turn_state t' <> DONE ->
  run (n + fuel) conversation capabilities t w
  = run fuel conversation capabilities t' w'.
Proof.
  induction n as [|n IH]; intros fuel t w t' w' H Hs.
  - simpl in H. now injection H as <- <-.
  - assert (Ht : turn_state t <> DONE).
    { intros Hd. rewrite steps_done in H by assumption.
      injection H as <- <-. contradiction. }
    simpl in H. unfold bind in H.
    destruct (step conversation capabilities t w) as [[t1|e] w1] eqn:H1;
      [|discriminate].
    change (S n + fuel) with (S (n + fuel)).
    rewrite (@run_step (n + fuel) conversation capabilities t w t1 w1 Ht H1).
    apply IH; assumption.
Qed.

(** C1.  When the generator answers a generation step with a capability
    request of N calls, the loop produces exactly 1 + N messages before the
    generator is called again: the assistant message that carries the calls,
    then one tool message per call, each with the id and name of its call, in
    the order of the request.  The gateway is handed exactly the requested
    calls in that order, the messages are stored in that order, and the turn
    goes on from the next generation step with the history so extended; for
    the first step of runTurn these 1 + N messages are the turn's output so
    far. *)
Theorem capability_request_round
  (conversation : string) (capabilities : list Tool) (t : Turn) (w : World)
  (calls : list ToolCall)
  (Hstate : turn_state t = GENERATING)
  (Hgen : generate (turn_history t) capabilities = Ok (CapabilityRequest calls))
  (Hdb : db_fault (db w) = None) :
  exists tools t2 w2 rows,
    let request := AIMessage (TextContent "") (Some calls) in
    steps 2 conversation capabilities t w = (Ok t2, w2) /\
    turn_state t2 = GENERATING /\
    turn_pending t2 = [] /\
    turn_produced t2 = turn_produced t ++ request :: tools /\
    turn_history t2 = turn_history t ++ request :: tools /\
    length (request :: tools) = 1 + length calls /\
    Forall2 answers calls tools /\
    turn_generated t2 = turn_generated t ++ [turn_history t] /\
    turn_executed t2 = turn_executed t ++ calls /\
    message_table (db w2) = message_table (db w) ++ rows /\
    Forall2 (stored_as conversation) (request :: tools) rows /\
    (forall fuel,
       run (S (S fuel)) conversation capabilities t w
       = run fuel conversation capabilities t2 w2) /\
    (forall history fuel,
       t = start_turn history ->
       runTurn (S (S fuel)) conversation history capabilities w
       = run fuel conversation capabilities t2 w2 /\
       turn_produced t2 = request :: tools).
Proof.
  pose proof (step_generating conversation capabilities t w Hstate) as H1.
  rewrite Hgen, Hdb in H1.
  set (request := AIMessage (TextContent "") (Some calls)) in *.
  set (t1 := MkTurn AWAITING_TOOLS (turn_history t ++ [request])
                    (turn_produced t ++ [request]) calls
                    (turn_generated t ++ [turn_history t])
                    (turn_executed t)) in *.
  set (w1 := saved conversation [request] w) in *.
  change (step conversation capabilities t w = (Ok t1, w1)) in H1.
  pose proof (step_awaiting conversation capabilities t1 w1 eq_refl) as H2.
  cbv zeta in H2. change (db_fault (db w1)) with (@None Error) in H2.
  cbv iota in H2.
  set (tools := map (fun call =>
                       tool_message call (gateway_result (mcp w1) call w1))
                    calls) in *.
  change (turn_pending t1) with calls in H2. fold tools in H2.
  match type of H2 with _ = (Ok ?t2, ?w2) =>
    exists tools, t2, w2 end.
  exists (map (stored_row (db_clock (db w)))
              (map (messageData conversation) [request])
          ++ map (stored_row (db_clock (db w1)))
                 (map (messageData conversation) tools)).
  cbv zeta.
  assert (Hlen : length tools = length calls)
    by (unfold tools; apply length_map).
  split.
  { simpl. unfold bind. rewrite H1. unfold bind. rewrite H2. reflexivity. }
  split; [reflexivity|]. split; [reflexivity|].
  split; [cbn [turn_produced t1]; now rewrite <- app_assoc|].
  split; [cbn [turn_history t1]; now rewrite <- app_assoc|].
  split; [simpl; now rewrite Hlen|].
  split; [apply executed_answers|].
  split; [reflexivity|]. split; [reflexivity|].
  split.
  { unfold saved, w1, saved; cbn [db message_table]. now rewrite app_assoc. }
  split.
  { change (request :: tools) with ([request] ++ tools).
    apply Forall2_app; apply saved_stored_as. }
  assert (Hrun : forall fuel,
            run (S (S fuel)) conversation capabilities t w
            = run fuel conversation capabilities
                (MkTurn GENERATING (turn_history t1 ++ tools)
                   (turn_produced t1 ++ tools) [] (turn_generated t1)
                   (turn_executed t1 ++ calls))
                (saved conversation tools w1)).
  { intros fuel.
    assert (Ht : turn_state t <> DONE) by congruence.
    rewrite (@run_step (S fuel) conversation capabilities t w t1 w1 Ht H1).
    apply run_step; [discriminate|exact H2]. }
  split; [exact Hrun|].
  intros history fuel ->. split; [apply Hrun|reflexivity].
Qed.

Lemma gateway_fails_result w call reason :
  gateway_fails w call reason ->
  gateway_result (mcp w) call w = CallFailed (tc_id call) reason.
Proof.
  unfold gateway_result.
  intros [[-> ->]|[serverName [-> ->]]]; reflexivity.
Qed.

(** C2.  A pending call on which the gateway fails does not abort the
    turn: the tool-execution step ends normally in GENERATING, the call's
    tool message is produced at the call's place with the failure reason
    encoded in its content, and it is part of the history that the next
    generation step passes to the generator. *)
Theorem failed_call_is_reported
  (conversation : string) (capabilities : list Tool) (t : Turn) (w : World)
  (before after : list ToolCall) (call : ToolCall) (reason : Error)
  (Hstate : turn_state t = AWAITING_TOOLS)
  (Hpending : turn_pending t = before ++ call :: after)
  (Hfail : gateway_fails w call reason)
  (Hdb : db_fault (db w) = None) :
  exists msgs_before msgs_after t' w',
    let failed :=
      ToolMessage (failure_payload reason) (Some (tc_id call))
                  (Some (tc_name call)) in
    step conversation capabilities t w = (Ok t', w') /\
    turn_state t' = GENERATING /\
    Forall2 answers before msgs_before /\
    Forall2 answers after msgs_after /\
    turn_produced t' = turn_produced t ++ msgs_before ++ failed :: msgs_after /\
    turn_history t' = turn_history t ++ msgs_before ++ failed :: msgs_after /\
    (forall fuel,
       run (S fuel) conversation capabilities t w
       = run fuel conversation capabilities t' w') /\
    In failed (turn_history t') /\
    (forall t'' w'',
       step conversation capabilities t' w' = (Ok t'', w'') ->
       turn_generated t'' = turn_generated t' ++ [turn_history t']).
Proof.
  pose proof (step_awaiting conversation capabilities t w Hstate) as H.
  cbv zeta in H. rewrite Hdb, Hpending, map_app in H. cbn [map] in H.
  rewrite (gateway_fails_result Hfail) in H. cbn [tool_message] in H.
  match type of H with _ = (Ok ?t1, ?w1) =>
    exists (map (fun c => tool_message c (gateway_result (mcp w) c w)) before),
           (map (fun c => tool_message c (gateway_result (mcp w) c w)) after),
           t1, w1 end.
  cbv zeta.
  split; [exact H|]. split; [reflexivity|].
  split; [apply executed_answers|]. split; [apply executed_answers|].
  split; [reflexivity|]. split; [reflexivity|].
  split.
  { intros fuel. apply run_step; [congruence|exact H]. }
  split.
  - cbn [turn_history]. apply in_or_app. right.
    apply in_or_app. right. now left.
  - intros t'' w'' H2. rewrite step_generating in H2 by reflexivity.
    destruct (generate _ capabilities) as [outcome|e]; [|discriminate].
    destruct (db_fault _); [discriminate|].
    injection H2 as <- _. reflexivity.
Qed.

(** C3.  When the generator answers the first generation step with a final
    answer, the turn completes in DONE with exactly one new message, the
    assistant message with the answer's text, stored as one ASSISTANT row;
    the generator was called once, with the given history, and the gateway
    was not called. *)
Theorem final_answer_turn
  (conversation : string) (history : list BaseMessage)
  (capabilities : list Tool) (w : World) (text : string) (fuel : nat)
  (Hgen : generate history capabilities = Ok (FinalAnswer text))
  (Hdb : db_fault (db w) = None) :
  exists t w' row,
    runTurn (S fuel) conversation history capabilities w = (Completed t, w') /\
    turn_state t = DONE /\
    turn_produced t = [AIMessage (TextContent text) None] /\
    turn_history t = history ++ [AIMessage (TextContent text) None] /\
    turn_generated t = [history] /\
    turn_executed t = [] /\
    message_table (db w') = message_table (db w) ++ [row] /\
    stored_as conversation (AIMessage (TextContent text) None) row /\
    row_role row = "ASSISTANT" /\
    row_content row = text /\
    mcp w' = mcp w.
Proof.
  pose proof (step_generating conversation capabilities
                (start_turn history) w eq_refl) as H.
  cbn [turn_history start_turn] in H. rewrite Hgen, Hdb in H.
  match type of H with _ = (Ok ?t1, ?w1) =>
    exists t1, w1,
      (stored_row (db_clock (db w))
         (messageData conversation (AIMessage (TextContent text) None)))
  end.
  split.
  { unfold runTurn.
    rewrite (@run_step fuel conversation capabilities (start_turn history) w
               _ _ ltac:(discriminate) H).
    destruct fuel; reflexivity. }
  repeat split.
Qed.

(** C6.  After any number of steps of a turn, every message produced so
    far is in the table: the table is the table before the turn followed by
    one row per produced message, in the order of production.  Stopping the
    turn after fewer steps leaves a prefix of these messages and of these
    rows: what later steps add comes after, messages and rows alike; and a
    step that fails leaves the table as the steps before it wrote it. *)
Theorem steps_persisted
  (conversation : string) (capabilities : list Tool)
  (history : list BaseMessage) (w : World) (n : nat) (t : Turn) (w' : World)
  (Hsteps : steps n conversation capabilities (start_turn history) w
            = (Ok t, w')) :
  (exists rows,
     message_table (db w') = message_table (db w) ++ rows /\
     Forall2 (stored_as conversation) (turn_produced t) rows) /\
  (forall k, k <= n ->
     exists tk wk rows_k later later_rows,
       steps k conversation capabilities (start_turn history) w = (Ok tk, wk) /\
       message_table (db wk) = message_table (db w) ++ rows_k /\
       Forall2 (stored_as conversation) (turn_produced tk) rows_k /\
       turn_produced t = turn_produced tk ++ later /\
       message_table (db w') = message_table (db w) ++ rows_k ++ later_rows /\
       Forall2 (stored_as conversation) later later_rows) /\
  (forall e w'',
     step conversation capabilities t w' = (Throw e, w'') -> w'' = w').
Proof.
  split; [|split].
  - apply steps_extends in Hsteps as [msgs [rows [_ [Hp [Ht [Hf _]]]]]].
    exists rows. split; [exact Ht|]. now rewrite Hp.
  - intros k Hk.
    destruct (@steps_split conversation capabilities k n (start_turn history)
                w t w' Hk Hsteps) as [tk [wk [H1 H2]]].
    pose proof (@steps_extends _ _ _ _ _ _ _ H1)
      as [m1 [r1 [_ [Hp1 [Ht1 [Hf1 _]]]]]].
    pose proof (@steps_extends _ _ _ _ _ _ _ H2)
      as [m2 [r2 [_ [Hp2 [Ht2 [Hf2 _]]]]]].
    exists tk, wk, r1, m2, r2.
    split; [exact H1|]. split; [exact Ht1|].
    split; [now rewrite Hp1|]. split; [exact Hp2|].
    split; [now rewrite Ht2, Ht1, app_assoc | exact Hf2].
  - intros e w'' H. eapply step_throw_world, H.
Qed.

(** C7.  When the generator fails at a generation step, the turn aborts
    with that failure however many steps may still be taken, and the failing
    step changes nothing: the table holds what it held before the turn
    followed by the rows of the messages the earlier steps produced.  In the
    entry point, a failure that the agent graph throws leaves
    processUserInput as the same exception; the loop of main catches it,
    shows it as an error and goes on, with the database as the failure left
    it. *)
Theorem generator_failure_aborts_turn
  (conversation : string) (capabilities : list Tool)
  (history : list BaseMessage) (w : World) (n : nat) (t : Turn) (w1 : World)
  (e : Error)
  (Hsteps : steps n conversation capabilities (start_turn history) w
            = (Ok t, w1))
  (Hstate : turn_state t = GENERATING)
  (Hgen : generate (turn_history t) capabilities = Throw e) :
  step conversation capabilities t w1 = (Throw e, w1) /\
  (forall fuel,
     runTurn (n + S fuel) conversation history capabilities w
     = (Aborted e t, w1)) /\
  (exists rows,
     message_table (db w1) = message_table (db w) ++ rows /\
     Forall2 (stored_as conversation) (turn_produced t) rows) /\
  (forall graph userInput conv availableTools w0 window wg,
     toLowerCase userInput <> "/exit" ->
     toLowerCase userInput <> "/help" ->
     toLowerCase userInput <> "/tools" ->
     fst (getConversationMessages (conv_id conv) 10 (thinking w0)) = Ok window ->
     graph (initialState conv window userInput) (thinking w0) = (Throw e, wg) ->
     processUserInput graph userInput conv availableTools w0 = (Throw e, wg) /\
     main_loop_body graph (ret userInput) conv availableTools w0
     = (Ok false,
        MkWorld (db wg) (mcp wg)
          (cli wg ++ [StopThinking;
                      DisplayError
                        (String.append "An error occurred: " (message e))]))).
Proof.
  assert (Hstep : step conversation capabilities t w1 = (Throw e, w1)).
  { rewrite step_generating by assumption. now rewrite Hgen. }
  split; [exact Hstep|]. split; [|split].
  - intros fuel. unfold runTurn.
    rewrite (@run_after_steps conversation capabilities n (S fuel)
               (start_turn history) w t w1 Hsteps) by congruence.
    apply run_abort; [congruence|exact Hstep].
  - apply steps_extends in Hsteps as [msgs [rows [_ [Hp [Ht [Hf _]]]]]].
    exists rows. split; [exact Ht|]. now rewrite Hp.
  - intros graph userInput conv availableTools w0 window wg He Hh Ht Hwin Hg.
    assert (Hp : processUserInput graph userInput conv availableTools w0
                 = (Throw e, wg)).
    { rewrite processUserInput_agent by assumption.
      assert (Hload : getConversationMessages (conv_id conv) 10 (thinking w0)
                      = (Ok window, thinking w0)).
      { rewrite getConversationMessages_run in Hwin |- *.
        cbn [fst] in Hwin. f_equal. exact Hwin. }
      rewrite Hload. unfold bind. now rewrite Hg. }
    split; [exact Hp|].
    unfold main_loop_body, try_catch.
    change (bind (ret userInput) ?k w0) with (k userInput w0). cbv beta.
    unfold bind at 1. rewrite Hp.
    unfold bind, cli_emit, ret. cbn [db mcp cli fst snd].
    rewrite <- app_assoc. reflexivity.
Qed.

(** ** Further properties of the services *)

Lemma map_get_set {V} k (v : V) m : map_get k (map_set k v m) = Some v.
Proof.
  induction m as [|[k' v'] rest IH]; simpl.
  - now rewrite String.eqb_refl.
  - destruct (String.eqb k' k) eqn:Hk; simpl.
    + now rewrite String.eqb_refl.
    + now rewrite Hk.
Qed.

Lemma map_get_delete {V} k (m : list (string * V)) :
  map_get k (map_delete k m) = None.
Proof.
  induction m as [|[k' v'] rest IH]; simpl; [reflexivity|].
  destruct (String.eqb k' k) eqn:Hk; simpl; [exact IH|].
  now rewrite Hk.
Qed.

Lemma set_has_add k s : set_has k (set_add k s) = true.
Proof.
  unfold set_add. destruct (set_has k s) eqn:H; [exact H|].
  unfold set_has. rewrite existsb_app. simpl.
  rewrite String.eqb_refl. apply orb_true_iff. right. reflexivity.
Qed.

Lemma set_has_delete k s : set_has k (set_delete k s) = false.
Proof.
  unfold set_has, set_delete.
  induction s as [|x rest IH]; simpl; [reflexivity|].
  destruct (String.eqb x k) eqn:Hx; simpl; [exact IH|].
  rewrite String.eqb_sym, Hx. exact IH.
Qed.

Lemma map_set_In {V} k (v : V) m : In (k, v) (map_set k v m).
Proof.
  induction m as [|[k' v'] rest IH]; simpl; [now left|].
  destruct (String.eqb k' k); [now left | now right].
Qed.

Lemma getServerForTool_loop_found entries toolName serverName server :
  In (serverName, server) entries ->
  caches_tool toolName server = true ->
  exists found, getServerForTool_loop entries toolName = Some found.
Proof.
  induction entries as [|[name srv] rest IH]; simpl; [contradiction|].
  intros [H|H] Hc.
  - injection H as -> ->. rewrite Hc. eexists; reflexivity.
  - destruct (caches_tool toolName srv); [eexists; reflexivity|].
    apply IH; assumption.
Qed.

(** What saveMessages stores of a message is its class, its content as a
    string and, by class, its tool calls or its tool-call id and name; the
    row loads back as a message of the same class with these values.  A
    message that is neither an assistant nor a tool message loads back as a
    human message, structured content as its JSON text, and an assistant
    message without a list of tool calls with the empty list. *)
Theorem stored_message_loads_back (conversation : string) (now : nat)
  (m : BaseMessage) :
  row_to_message (stored_row now (messageData conversation m))
  = match m with
    | HumanMessage c => HumanMessage (TextContent (content_as_string c))
    | AIMessage c (Some calls) =>
        AIMessage (TextContent (content_as_string c)) (Some calls)
    | AIMessage c None => AIMessage (TextContent (content_as_string c)) (Some [])
    | ToolMessage c id n =>
        ToolMessage (TextContent (content_as_string c)) id n
    | OtherMessage _ c => HumanMessage (TextContent (content_as_string c))
    end.
Proof. destruct m as [c|c [calls|]|c id n|t c]; reflexivity. Qed.

(** listTools never raises, touches only the MCP service, and once it has
    returned a tool, getServerForTool finds a server for that tool's name. *)
Theorem listTools_enables_routing (serverName : string) (w : World)
  (tools : list Tool) (tool : Tool)
  (Hlist : fst (listTools serverName w) = Ok tools)
  (Htool : In tool tools) :
  (forall name w0, exists l, fst (listTools name w0) = Ok l) /\
  db (snd (listTools serverName w)) = db w /\
  cli (snd (listTools serverName w)) = cli w /\
  connectedServers (mcp (snd (listTools serverName w)))
  = connectedServers (mcp w) /\
  exists found,
    getServerForTool (mcp (snd (listTools serverName w))) (tool_name tool)
    = Some found.
Proof.
  split.
  { intros name w0. unfold listTools, try_catch, bind, get_mcp, lift_exc,
      put_mcp, throw, ret.
    destruct (map_get name (servers (mcp w0))) as [[n c a [client|] t]|];
      simpl; try (eexists; reflexivity).
    destruct (client_listTools client); simpl; eexists; reflexivity. }
  revert Hlist.
  unfold listTools, try_catch, bind, get_mcp, lift_exc, put_mcp, throw, ret.
  destruct (map_get serverName (servers (mcp w))) as [[n c a [client|] t]|];
    simpl; try (intros [= <-]; contradiction).
  destruct (client_listTools client) as [response|e]; simpl;
    try (intros [= <-]; contradiction).
  intros [= <-]. repeat split.
  unfold getServerForTool; simpl.
  eapply getServerForTool_loop_found; [apply map_set_In|].
  unfold caches_tool, set_server_tools; simpl.
  apply existsb_exists. exists tool. split; [exact Htool|].
  apply String.eqb_refl.
Qed.

(** A successful connectServer stores the server under its name without a
    tool cache and marks it connected; disconnectServer then forgets it. *)
Theorem connectServer_then_disconnectServer
  (name command : string) (args : list string) (client : Client) (w : World)
  (Hconnect : connect_transport command args = Ok client) :
  let w1 := snd (connectServer name command args w) in
  let w2 := snd (disconnectServer name w1) in
  fst (connectServer name command args w) = Ok tt /\
  map_get name (servers (mcp w1))
  = Some (MkMCPServer name command args (Some client) None) /\
  isConnected (mcp w1) name = true /\
  fst (disconnectServer name w1) = Ok tt /\
  map_get name (servers (mcp w2)) = None /\
  isConnected (mcp w2) name = false /\
  db w2 = db w /\ cli w2 = cli w.
Proof.
  cbv zeta.
  unfold connectServer, try_catch, bind, lift_exc, get_mcp, put_mcp.
  rewrite Hconnect. cbn [fst snd mcp servers connectedServers].
  split; [reflexivity|]. split; [apply map_get_set|].
  split; [apply set_has_add|].
  unfold disconnectServer, try_catch, bind, get_mcp, put_mcp, ret.
  cbn [fst snd mcp servers connectedServers]. rewrite map_get_set.
  cbn [fst snd mcp servers connectedServers db cli].
  split; [reflexivity|]. split; [apply map_get_delete|].
  split; [apply set_has_delete|]. split; reflexivity.
Qed.

(** ** The MCP service: its states and its other operations *)

Lemma map_get_set_other {V} k k' (v : V) m :
  k <> k' -> map_get k (map_set k' v m) = map_get k m.
Proof.
  intros Hk. induction m as [|[k0 v0] rest IH]; simpl.
  - destruct (String.eqb_spec k' k); [congruence|reflexivity].
  - destruct (String.eqb_spec k0 k') as [->|Hk0]; simpl.
    + destruct (String.eqb_spec k' k); [congruence|reflexivity].
    + destruct (String.eqb k0 k); [reflexivity|exact IH].
Qed.

Lemma map_get_delete_other {V} k k' (m : list (string * V)) :
  k <> k' -> map_get k (map_delete k' m) = map_get k m.
Proof.
  intros Hk. induction m as [|[k0 v0] rest IH]; simpl; [reflexivity|].
  destruct (String.eqb_spec k0 k') as [->|Hk0]; simpl.
  - destruct (String.eqb_spec k' k); [congruence|exact IH].
  - destruct (String.eqb k0 k); [reflexivity|exact IH].
Qed.

Lemma map_get_In {V} k (v : V) m : map_get k m = Some v -> In (k, v) m.
Proof.
  induction m as [|[k0 v0] rest IH]; simpl; [discriminate|].
  destruct (String.eqb_spec k0 k) as [->|Hk].
  - intros [= ->]. now left.
  - intros H. right. apply IH, H.
Qed.

Lemma map_get_None {V} k (m : list (string * V)) :
  map_get k m = None -> ~ In k (map fst m).
Proof using.
  clear JSON_stringify process_cwd connect_transport generate.
  induction m as [|[k0 v0] rest IH]; simpl; [tauto|].
  destruct (String.eqb_spec k0 k) as [->|Hk]; [discriminate|].
  intros H [Hin|Hin]; [congruence|]. now apply IH.
Qed.

Lemma map_set_keys {V} k (v : V) m x :
  In x (map fst (map_set k v m)) <-> x = k \/ In x (map fst m).
Proof using.
  clear JSON_stringify process_cwd connect_transport generate.
  induction m as [|[k0 v0] rest IH]; simpl.
  - intuition.
  - destruct (String.eqb_spec k0 k) as [->|Hk]; simpl.
    + intuition.
    + rewrite IH. intuition.
Qed.

Lemma map_set_NoDup {V} k (v : V) m :
  NoDup (map fst m) -> NoDup (map fst (map_set k v m)).
Proof.
  induction m as [|[k0 v0] rest IH]; simpl; intros H.
  - repeat constructor. intros [].
  - inversion H as [|? ? Hnot Hrest]; subst.
    destruct (String.eqb_spec k0 k) as [->|Hk]; simpl.
    + constructor; assumption.
    + constructor; [|apply IH, Hrest].
      rewrite map_set_keys. intros [->|Hin]; [congruence|contradiction].
Qed.

Lemma map_delete_keys {V} k (m : list (string * V)) x :
  In x (map fst (map_delete k m)) -> In x (map fst m).
Proof.
  unfold map_delete. intros H. apply in_map_iff in H as [kv [<- Hkv]].
  apply filter_In in Hkv as [Hkv _]. now apply in_map.
Qed.

Lemma map_delete_NoDup {V} k (m : list (string * V)) :
  NoDup (map fst m) -> NoDup (map fst (map_delete k m)).
Proof.
  induction m as [|[k0 v0] rest IH]; simpl; intros H; [constructor|].
  inversion H as [|? ? Hnot Hrest]; subst.
  destruct (String.eqb k0 k); simpl; [apply IH, Hrest|].
  constructor; [|apply IH, Hrest].
  intros Hin. apply Hnot. eapply map_delete_keys, Hin.
Qed.

Lemma set_has_In k s : set_has k s = true <-> In k s.
Proof.
  unfold set_has. rewrite existsb_exists. split.
  - intros [x [Hx Heq]]. apply String.eqb_eq in Heq. now subst.
  - intros H. exists k. split; [exact H|apply String.eqb_refl].
Qed.

Lemma set_add_In k s x : In x (set_add k s) <-> x = k \/ In x s.
Proof using.
  clear JSON_stringify process_cwd connect_transport generate.
  unfold set_add. destruct (set_has k s) eqn:H.
  - apply set_has_In in H. split; [tauto|]. intros [->|Hx]; assumption.
  - rewrite in_app_iff. simpl. intuition.
Qed.

Lemma set_add_NoDup k s : NoDup s -> NoDup (set_add k s).
Proof.
  intros Hs. unfold set_add. destruct (set_has k s) eqn:H; [exact Hs|].
  assert (Hk : ~ In k s).
  { intros Hin. apply set_has_In in Hin. congruence. }
  clear H. induction Hs as [|x rest Hx Hrest IH]; simpl.
  - repeat constructor. intros [].
  - constructor.
    + rewrite in_app_iff. simpl. intros [Hin|[->|[]]]; [contradiction|].
      apply Hk. now left.
    + apply IH. intros Hin. apply Hk. now right.
Qed.

Lemma set_delete_In k s x : In x (set_delete k s) <-> In x s /\ x <> k.
Proof.
  unfold set_delete. rewrite filter_In, negb_true_iff, String.eqb_neq.
  reflexivity.
Qed.

Lemma set_delete_NoDup k s : NoDup s -> NoDup (set_delete k s).
Proof. apply NoDup_filter. Qed.

(** The effect of each operation on the world, spelled out. *)
Lemma connectServer_run name command args w :
  connectServer name command args w =
  match connect_transport command args with
  | Ok client =>
      (Ok tt,
       MkWorld (db w)
         (MkMCPService
            (map_set name (MkMCPServer name command args (Some client) None)
                     (servers (mcp w)))
            (set_add name (connectedServers (mcp w))))
         (cli w))
  | Throw e =>
      (Throw e,
       MkWorld (db w)
         (MkMCPService (servers (mcp w))
                       (set_delete name (connectedServers (mcp w))))
         (cli w))
  end.
Proof.
  unfold connectServer, transport_onclose, try_catch, bind, lift_exc,
    get_mcp, put_mcp, throw.
  destruct (connect_transport command args); reflexivity.
Qed.

Lemma disconnectServer_run name w :
  disconnectServer name w =
  (Ok tt,
   match map_get name (servers (mcp w)) with
   | Some server =>
       match server_client server with
       | Some _ =>
           MkWorld (db w)
             (MkMCPService (map_delete name (servers (mcp w)))
                           (set_delete name (connectedServers (mcp w))))
             (cli w)
       | None => w
       end
   | None => w
   end).
Proof.
  unfold disconnectServer, try_catch, bind, get_mcp, put_mcp, ret.
  destruct (map_get name (servers (mcp w))) as [[n c a [client|] t]|];
    reflexivity.
Qed.

Lemma listTools_run serverName w :
  listTools serverName w =
  match map_get serverName (servers (mcp w)) with
  | Some server =>
      match server_client server with
      | Some client =>
          match client_listTools client with
          | Ok response =>
              let tools := match response with Some l => l | None => [] end in
              (Ok tools,
               MkWorld (db w)
                 (MkMCPService
                    (map_set serverName (set_server_tools server tools)
                             (servers (mcp w)))
                    (connectedServers (mcp w)))
                 (cli w))
          | Throw _ => (Ok [], w)
          end
      | None => (Ok [], w)
      end
  | None => (Ok [], w)
  end.
Proof.
  unfold listTools, try_catch, bind, get_mcp, lift_exc, put_mcp, throw, ret.
  destruct (map_get serverName (servers (mcp w))) as [[n c a [client|] t]|];
    simpl; try reflexivity.
  destruct (client_listTools client); reflexivity.
Qed.

Lemma transport_onclose_run name w :
  transport_onclose name w =
  (Ok tt,
   MkWorld (db w)
     (MkMCPService (servers (mcp w))
                   (set_delete name (connectedServers (mcp w))))
     (cli w)).
Proof. reflexivity. Qed.

Lemma transport_closed_run name w :
  transport_closed name w =
  (Ok tt,
   MkWorld (db w)
     (MkMCPService
        (match map_get name (servers (mcp w)) with
         | Some server => map_set name (close_server server) (servers (mcp w))
         | None => servers (mcp w)
         end)
        (set_delete name (connectedServers (mcp w))))
     (cli w)).
Proof.
  unfold transport_closed, transport_onclose, bind, get_mcp, put_mcp, ret.
  destruct (map_get name (servers (mcp w))); reflexivity.
Qed.

Lemma callTool_fst serverName toolName args w :
  fst (callTool serverName toolName args w)
  = match map_get serverName (servers (mcp w)) with
    | Some server =>
        match server_client server with
        | Some client => client_callTool client toolName args
        | None => Throw (not_connected serverName)
        end
    | None => Throw (not_connected serverName)
    end.
Proof.
  unfold callTool, try_catch, bind, get_mcp, lift_exc, throw, ret.
  destruct (map_get serverName (servers (mcp w))) as [[n c a [client|] t]|];
    simpl; try reflexivity.
  destruct (client_callTool client toolName args); reflexivity.
Qed.

Lemma stored_after_set name k (v : MCPServer) m :
  (exists server, map_get name m = Some server) ->
  exists server, map_get name (map_set k v m) = Some server.
Proof.
  intros H. destruct (string_dec name k) as [->|Hk].
  - exists v. apply map_get_set.
  - now rewrite map_get_set_other.
Qed.

Lemma connectServer_ok name command args w :
  service_ok (mcp w) ->
  service_ok (mcp (snd (connectServer name command args w))).
Proof.
  intros (Hk & He & Hc & Hs). rewrite connectServer_run.
  destruct (connect_transport command args) as [client|e]; simpl.
  - repeat split; simpl.
    + apply map_set_NoDup, Hk.
    + apply map_set_Forall; [|exact He]. simpl. split; [reflexivity|].
      eexists; reflexivity.
    + apply set_add_NoDup, Hc.
    + rewrite Forall_forall in Hs |- *. intros x Hx.
      apply set_add_In in Hx as [->|Hx].
      * eexists. apply map_get_set.
      * apply stored_after_set, Hs, Hx.
  - repeat split; simpl; try assumption.
    + apply set_delete_NoDup, Hc.
    + rewrite Forall_forall in Hs |- *. intros x Hx.
      apply set_delete_In in Hx as [Hx _]. apply Hs, Hx.
Qed.

Lemma disconnectServer_ok name w :
  service_ok (mcp w) -> service_ok (mcp (snd (disconnectServer name w))).
Proof.
  intros (Hk & He & Hc & Hs). rewrite disconnectServer_run. simpl.
  destruct (map_get name (servers (mcp w))) as [server|];
    [|repeat split; assumption].
  destruct (server_client server); [|repeat split; assumption].
  repeat split; simpl.
  - apply map_delete_NoDup, Hk.
  - apply map_delete_Forall, He.
  - apply set_delete_NoDup, Hc.
  - rewrite Forall_forall in Hs |- *. intros x Hx.
    apply set_delete_In in Hx as [Hx Hne].
    rewrite map_get_delete_other by exact Hne. apply Hs, Hx.
Qed.

Lemma listTools_ok serverName w :
  service_ok (mcp w) -> service_ok (mcp (snd (listTools serverName w))).
Proof.
  intros (Hk & He & Hc & Hs). rewrite listTools_run.
  destruct (map_get serverName (servers (mcp w))) as [server|] eqn:Hget;
    [|repeat split; assumption].
  destruct (server_client server) as [client|] eqn:Hcl;
    [|repeat split; assumption].
  destruct (client_listTools client) as [response|e];
    [|repeat split; assumption].
  repeat split; simpl.
  - apply map_set_NoDup, Hk.
  - apply map_set_Forall; [|exact He]. simpl.
    apply map_get_In in Hget. rewrite Forall_forall in He.
    destruct (He _ Hget) as [Hn _]. simpl in Hn.
    split; [exact Hn|]. exists client. exact Hcl.
  - exact Hc.
  - rewrite Forall_forall in Hs |- *. intros x Hx.
    apply stored_after_set, Hs, Hx.
Qed.

Lemma transport_closed_ok name w :
  service_ok (mcp w) -> service_ok (mcp (snd (transport_closed name w))).
Proof.
  intros (Hk & He & Hc & Hs). rewrite transport_closed_run.
  destruct (map_get name (servers (mcp w))) as [server|] eqn:Hget;
    repeat split; simpl; try assumption.
  - apply map_set_NoDup, Hk.
  - apply map_set_Forall; [|exact He]. simpl.
    apply map_get_In in Hget. rewrite Forall_forall in He.
    destruct (He _ Hget) as [Hn [client Hcl]]. simpl in Hn, Hcl.
    split; [exact Hn|]. rewrite Hcl. eexists; reflexivity.
  - apply set_delete_NoDup, Hc.
  - rewrite Forall_forall in Hs |- *. intros x Hx.
    apply set_delete_In in Hx as [Hx _]. apply stored_after_set, Hs, Hx.
  - apply set_delete_NoDup, Hc.
  - rewrite Forall_forall in Hs |- *. intros x Hx.
    apply set_delete_In in Hx as [Hx _]. apply Hs, Hx.
Qed.

Lemma listTools_is_ok serverName w :
  exists tools, fst (listTools serverName w) = Ok tools.
Proof.
  rewrite listTools_run.
  destruct (map_get serverName (servers (mcp w))) as [server|];
    [|eexists; reflexivity].
  destruct (server_client server) as [client|]; [|eexists; reflexivity].
  destruct (client_listTools client); eexists; reflexivity.
Qed.

Lemma getAllTools_loop_ok names : forall allTools w,
  service_ok (mcp w) ->
  service_ok (mcp (snd (getAllTools_loop names allTools w))).
Proof.
  induction names as [|name rest IH]; intros allTools w Hok; simpl;
    [exact Hok|].
  unfold bind.
  pose proof (listTools_ok name w Hok) as Hok1.
  destruct (listTools_is_ok name w) as [tools Ht].
  destruct (listTools name w) as [r w1]. simpl in Ht, Hok1. subst r.
  apply IH, Hok1.
Qed.

Lemma mcp_call_ok c w :
  service_ok (mcp w) -> service_ok (mcp (snd (mcp_call c w))).
Proof.
  intros Hok.
  destruct c as [name command args|name|serverName| |serverName toolName args|name];
    simpl.
  - apply connectServer_ok, Hok.
  - apply disconnectServer_ok, Hok.
  - unfold bind. pose proof (listTools_ok serverName w Hok) as H.
    destruct (listTools serverName w) as [[r|e] w1]; exact H.
  - unfold bind, getAllTools, bind, get_mcp.
    pose proof (getAllTools_loop_ok (connectedServers (mcp w)) [] w Hok) as H.
    destruct (getAllTools_loop (connectedServers (mcp w)) [] w) as [[r|e] w1];
      exact H.
  - unfold bind.
    pose proof (callTool_world serverName toolName args w) as Hw.
    destruct (callTool serverName toolName args w) as [[r|e] w1];
      simpl in *; subst w1; exact Hok.
  - apply transport_closed_ok, Hok.
Qed.

Lemma mcp_calls_ok cs : forall w,
  service_ok (mcp w) -> service_ok (mcp (mcp_calls cs w)).
Proof.
  induction cs as [|c rest IH]; simpl; intros w Hok; [exact Hok|].
  apply IH, mcp_call_ok, Hok.
Qed.

(** The service stays well formed under every sequence of calls: names are
    never stored twice, each stored server carries its key and a client, and
    every name marked connected is stored.  So for a name that isConnected
    reports, callTool reaches that server's client and returns or rethrows
    what the client does; it cannot fail with "not connected". *)
Theorem service_stays_well_formed (calls : list MCPCall) (w : World)
  (Hok : service_ok (mcp w)) :
  service_ok new_MCPService /\
  service_ok (mcp (mcp_calls calls w)) /\
  (forall name,
     isConnected (mcp (mcp_calls calls w)) name = true ->
     exists server client,
       map_get name (servers (mcp (mcp_calls calls w))) = Some server /\
       server_name server = name /\
       server_client server = Some client /\
       forall toolName args,
         fst (callTool name toolName args (mcp_calls calls w))
         = client_callTool client toolName args).
Proof.
  split.
  { repeat split; simpl; constructor. }
  pose proof (mcp_calls_ok calls w Hok) as H. split; [exact H|].
  destruct H as (Hk & He & Hc & Hs).
  intros name Hn. apply set_has_In in Hn.
  rewrite Forall_forall in Hs, He.
  destruct (Hs _ Hn) as [server Hget].
  destruct (He _ (map_get_In _ _ Hget)) as [Hname [client Hcl]].
  simpl in Hname, Hcl.
  exists server, client. repeat split; try assumption.
  intros toolName args. rewrite callTool_fst, Hget, Hcl. reflexivity.
Qed.

(** The client stored under a name. *)
Lemma listTools_keeps_clients serverName w name :
  match map_get name (servers (mcp (snd (listTools serverName w)))) with
  | Some server => server_client server
  | None => None
  end
  = match map_get name (servers (mcp w)) with
    | Some server => server_client server
    | None => None
    end.
Proof.
  rewrite listTools_run.
  destruct (map_get serverName (servers (mcp w))) as [server|] eqn:Hget;
    [|reflexivity].
  destruct (server_client server) as [client|] eqn:Hcl; [|reflexivity].
  destruct (client_listTools client) as [response|e]; [|reflexivity].
  simpl. destruct (string_dec name serverName) as [->|Hne].
  - rewrite map_get_set, Hget. simpl. now rewrite Hcl.
  - now rewrite map_get_set_other.
Qed.

Lemma listed_client this this' name :
  match map_get name (servers this') with
  | Some server => server_client server
  | None => None
  end
  = match map_get name (servers this) with
    | Some server => server_client server
    | None => None
    end ->
  listed this' name = listed this name.
Proof.
  unfold listed. intros H.
  destruct (map_get name (servers this')) as [s'|];
    destruct (map_get name (servers this)) as [s|]; simpl in H.
  - now rewrite H.
  - now rewrite H.
  - now rewrite <- H.
  - reflexivity.
Qed.

Lemma listTools_listed serverName w name :
  listed (mcp (snd (listTools serverName w))) name = listed (mcp w) name.
Proof. apply listed_client, listTools_keeps_clients. Qed.

Lemma listTools_returns serverName w :
  fst (listTools serverName w) = Ok (listed (mcp w) serverName).
Proof.
  rewrite listTools_run. unfold listed.
  destruct (map_get serverName (servers (mcp w))) as [server|]; [|reflexivity].
  destruct (server_client server) as [client|]; [|reflexivity].
  destruct (client_listTools client) as [[l|]|e]; reflexivity.
Qed.

Lemma listTools_frame serverName w :
  db (snd (listTools serverName w)) = db w /\
  cli (snd (listTools serverName w)) = cli w /\
  connectedServers (mcp (snd (listTools serverName w)))
  = connectedServers (mcp w).
Proof.
  rewrite listTools_run.
  destruct (map_get serverName (servers (mcp w))) as [server|];
    [|repeat split].
  destruct (server_client server) as [client|]; [|repeat split].
  destruct (client_listTools client); repeat split.
Qed.

Lemma listTools_makes_fresh serverName w :
  cache_fresh (mcp (snd (listTools serverName w))) serverName.
Proof.
  unfold cache_fresh. rewrite listTools_listed.
  rewrite listTools_run. unfold listed.
  destruct (map_get serverName (servers (mcp w))) as [server|] eqn:Hget;
    [|now left].
  destruct (server_client server) as [client|] eqn:Hcl; [|now left].
  destruct (client_listTools client) as [response|e]; [|now left].
  right. simpl. eexists. split; [apply map_get_set|].
  simpl. destruct response; reflexivity.
Qed.

Lemma listTools_keeps_fresh serverName w name :
  cache_fresh (mcp w) name ->
  cache_fresh (mcp (snd (listTools serverName w))) name.
Proof.
  destruct (string_dec name serverName) as [->|Hne];
    [intros _; apply listTools_makes_fresh|].
  unfold cache_fresh. rewrite listTools_listed.
  intros [H|[server [Hget Ht]]]; [now left|right].
  exists server. split; [|exact Ht].
  rewrite listTools_run.
  destruct (map_get serverName (servers (mcp w))) as [s|]; [|exact Hget].
  destruct (server_client s) as [client|]; [|exact Hget].
  destruct (client_listTools client); [|exact Hget].
  simpl. now rewrite map_get_set_other.
Qed.

Lemma getAllTools_loop_run names : forall allTools w,
  let w' := snd (getAllTools_loop names allTools w) in
  fst (getAllTools_loop names allTools w)
  = Ok (allTools ++ flat_map (listed (mcp w)) names) /\
  db w' = db w /\ cli w' = cli w /\
  connectedServers (mcp w') = connectedServers (mcp w) /\
  (forall name, listed (mcp w') name = listed (mcp w) name) /\
  (forall name,
     In name names \/ cache_fresh (mcp w) name -> cache_fresh (mcp w') name).
Proof.
  induction names as [|serverName rest IH]; intros allTools w; cbv zeta.
  - simpl. rewrite app_nil_r. repeat split. intros name [[]|H]. exact H.
  - simpl. unfold bind.
    pose proof (listTools_returns serverName w) as Hr.
    pose proof (listTools_frame serverName w) as (Hd & Hc & Hn).
    pose proof (fun name => listTools_listed serverName w name) as Hl.
    pose proof (listTools_makes_fresh serverName w) as Hf.
    pose proof (fun name => @listTools_keeps_fresh serverName w name) as Hkf.
    destruct (listTools serverName w) as [r w1]. simpl in *. subst r.
    specialize (IH (allTools ++ listed (mcp w) serverName) w1).
    cbv zeta in IH. destruct IH as (I1 & I2 & I3 & I4 & I5 & I6).
    split.
    { rewrite I1, <- app_assoc. do 3 f_equal.
      apply flat_map_ext. intros name. apply Hl. }
    split; [congruence|]. split; [congruence|]. split; [congruence|].
    split.
    { intros name. now rewrite I5. }
    intros name [[<-|Hin]|Hfresh]; apply I6; auto.
Qed.

(** getAllTools never raises and returns, in the order the servers were
    connected, what each connected server lists; a server that cannot be
    asked contributes nothing.  It leaves the database, the terminal and the
    set of connected servers as they are, and every tool it returns can then
    be routed: getServerForTool finds a server for its name. *)
Theorem getAllTools_lists_connected (w : World) :
  let w' := snd (getAllTools w) in
  fst (getAllTools w)
  = Ok (flat_map (listed (mcp w)) (connectedServers (mcp w))) /\
  db w' = db w /\ cli w' = cli w /\
  connectedServers (mcp w') = connectedServers (mcp w) /\
  (forall tool,
     In tool (flat_map (listed (mcp w)) (connectedServers (mcp w))) ->
     exists found, getServerForTool (mcp w') (tool_name tool) = Some found).
Proof.
  cbv zeta. unfold getAllTools, bind, get_mcp.
  pose proof (getAllTools_loop_run (connectedServers (mcp w)) [] w) as H.
  cbv zeta in H. destruct H as (H1 & H2 & H3 & H4 & H5 & H6).
  cbn [fst snd]. repeat split; try assumption.
  intros tool Hin. apply in_flat_map in Hin as [name [Hname Htool]].
  destruct (H6 name (or_introl Hname)) as [Hempty|[server [Hget Ht]]].
  - rewrite H5 in Hempty. rewrite Hempty in Htool. contradiction.
  - unfold getServerForTool.
    eapply getServerForTool_loop_found; [apply map_get_In, Hget|].
    unfold caches_tool. rewrite Ht. apply existsb_exists.
    exists tool. split; [now rewrite H5|apply String.eqb_refl].
Qed.

Lemma filter_twice {A} (f g : A -> bool) l :
  filter f (filter g l) = filter (fun x => g x && f x) l.
Proof.
  induction l as [|x rest IH]; simpl; [reflexivity|].
  destruct (g x); simpl; [|exact IH].
  destruct (f x); now rewrite IH.
Qed.

Lemma filter_all {A} (f : A -> bool) l :
  (forall x, f x = true) -> filter f l = l.
Proof.
  intros H. induction l as [|x rest IH]; simpl; [reflexivity|].
  now rewrite H, IH.
Qed.

Lemma filter_none {A} (f : A -> bool) l :
  (forall x, In x l -> f x = false) -> filter f l = [].
Proof.
  induction l as [|x rest IH]; simpl; intros H; [reflexivity|].
  rewrite (H x (or_introl eq_refl)). apply IH. intros y Hy. apply H. now right.
Qed.

Lemma filter_keys_NoDup {V} (f : string * V -> bool) m :
  NoDup (map fst m) -> NoDup (map fst (filter f m)).
Proof.
  induction m as [|kv rest IH]; simpl; intros H; [constructor|].
  inversion H as [|? ? Hnot Hrest]; subst.
  destruct (f kv); simpl; [|apply IH, Hrest].
  constructor; [|apply IH, Hrest].
  intros Hin. apply Hnot. apply in_map_iff in Hin as [x [Hx Hin]].
  apply filter_In in Hin as [Hin _]. rewrite <- Hx. now apply in_map.
Qed.

Lemma map_get_filter_keys {V} (g : string -> bool) k (m : list (string * V)) :
  map_get k (filter (fun kv => g (fst kv)) m)
  = if g k then map_get k m else None.
Proof.
  induction m as [|[k0 v0] rest IH]; simpl; [now destruct (g k)|].
  destruct (String.eqb_spec k0 k) as [->|Hne].
  - destruct (g k) eqn:Hg; simpl.
    + now rewrite String.eqb_refl.
    + exact IH.
  - destruct (g k0); simpl; [|exact IH].
    destruct (String.eqb_spec k0 k); [congruence|exact IH].
Qed.

(** The loop of disconnectAll over distinct names that are all stored with
    a client removes exactly these names, from the map and from the set. *)
Lemma disconnectAll_loop_run names : forall w,
  NoDup names ->
  Forall (fun kv => exists client, server_client (snd kv) = Some client)
         (servers (mcp w)) ->
  Forall (fun name => exists server, map_get name (servers (mcp w)) = Some server)
         names ->
  disconnectAll_loop names w =
  (Ok tt,
   MkWorld (db w)
     (MkMCPService
        (filter (fun kv => negb (set_has (fst kv) names)) (servers (mcp w)))
        (filter (fun x => negb (set_has x names)) (connectedServers (mcp w))))
     (cli w)).
Proof.
  induction names as [|name rest IH]; intros w Hnd Hcl Hst.
  - simpl. unfold ret. f_equal.
    rewrite !filter_all by reflexivity.
    destruct w as [d [sv cn] c]. reflexivity.
  - inversion Hnd as [|? ? Hnot Hrest]; subst.
    inversion Hst as [|? ? [server Hget] Hst']; subst.
    simpl. unfold bind, try_catch. rewrite disconnectServer_run, Hget.
    rewrite Forall_forall in Hcl.
    destruct (Hcl _ (map_get_In _ _ Hget)) as [client Hc]. simpl in Hc.
    rewrite Hc. rewrite IH; cbn [db mcp cli servers connectedServers].
    + f_equal. f_equal. f_equal.
      * unfold map_delete. rewrite filter_twice. apply filter_ext.
        intros [k v]. unfold set_has. simpl. now rewrite negb_orb.
      * unfold set_delete. rewrite filter_twice. apply filter_ext.
        intros x. unfold set_has. simpl. now rewrite negb_orb.
    + exact Hrest.
    + apply map_delete_Forall. rewrite Forall_forall. exact Hcl.
    + rewrite Forall_forall in Hst' |- *. intros x Hx.
      rewrite map_get_delete_other; [apply Hst', Hx|].
      intros ->. contradiction.
Qed.

Lemma disconnectAll_run w :
  service_ok (mcp w) ->
  disconnectAll w =
  (Ok tt,
   MkWorld (db w)
     (MkMCPService
        (filter (fun kv => negb (set_has (fst kv) (connectedServers (mcp w))))
                (servers (mcp w)))
        [])
     (cli w)).
Proof.
  intros (Hk & He & Hc & Hs). unfold disconnectAll, bind, get_mcp.
  rewrite disconnectAll_loop_run; try assumption.
  - do 3 f_equal. apply filter_none. intros x Hx.
    apply negb_false_iff, set_has_In, Hx.
  - eapply Forall_impl; [|exact He]. intros kv [_ H]. exact H.
Qed.

(** In a well-formed service disconnectAll never raises and leaves no
    server connected: it removes from the stored servers exactly those that
    were marked connected and keeps every other entry as it is, without
    touching the database or the terminal.  The cleanup that main and the
    signal handlers run is this call. *)
Theorem disconnectAll_removes_connected (w : World)
  (Hok : service_ok (mcp w)) :
  let w' := snd (disconnectAll w) in
  fst (disconnectAll w) = Ok tt /\
  cleanup w = disconnectAll w /\
  getConnectedServers (mcp w') = [] /\
  servers (mcp w')
  = filter (fun kv => negb (isConnected (mcp w) (fst kv))) (servers (mcp w)) /\
  (forall name,
     isConnected (mcp w) name = true ->
     map_get name (servers (mcp w')) = None) /\
  (forall name,
     isConnected (mcp w) name = false ->
     map_get name (servers (mcp w')) = map_get name (servers (mcp w))) /\
  db w' = db w /\ cli w' = cli w /\
  service_ok (mcp w').
Proof.
  cbv zeta. unfold cleanup, try_catch.
  rewrite (disconnectAll_run w Hok). cbn [fst snd mcp servers db cli].
  unfold getConnectedServers, isConnected. cbn [connectedServers].
  split; [reflexivity|]. split; [reflexivity|]. split; [reflexivity|].
  split; [reflexivity|]. split; [|split].
  - intros name Hn.
    rewrite (map_get_filter_keys
               (fun k => negb (set_has k (connectedServers (mcp w))))).
    now rewrite Hn.
  - intros name Hn.
    rewrite (map_get_filter_keys
               (fun k => negb (set_has k (connectedServers (mcp w))))).
    now rewrite Hn.
  - split; [reflexivity|]. split; [reflexivity|].
    destruct Hok as (Hk & He & Hc & Hs).
    repeat split; simpl.
    + apply filter_keys_NoDup, Hk.
    + rewrite Forall_forall in He |- *. intros kv Hkv.
      apply filter_In in Hkv as [Hkv _]. apply He, Hkv.
    + constructor.
    + constructor.
Qed.

(** After disconnectServer on a name, whatever was stored before, callTool
    on that name throws "Server <name> not connected" and listTools on it
    returns the empty list, both without changing anything. *)
Theorem disconnected_server_is_unreachable (name : string) (w : World) :
  let w' := snd (disconnectServer name w) in
  fst (disconnectServer name w) = Ok tt /\
  (forall toolName args,
     callTool name toolName args w' = (Throw (not_connected name), w')) /\
  listTools name w' = (Ok [], w') /\
  db w' = db w /\ cli w' = cli w.
Proof.
  cbv zeta. rewrite disconnectServer_run. cbn [fst snd].
  split; [reflexivity|].
  assert (Hgone :
    forall w', 
      match map_get name (servers (mcp w')) with
      | Some server => server_client server = None
      | None => True
      end ->
      (forall toolName args,
         callTool name toolName args w' = (Throw (not_connected name), w')) /\
      listTools name w' = (Ok [], w')).
  { intros w' H. split.
    - intros toolName args.
      rewrite (surjective_pairing (callTool name toolName args w')).
      rewrite callTool_world, callTool_fst.
      destruct (map_get name (servers (mcp w'))) as [server|]; [|reflexivity].
      now rewrite H.
    - rewrite listTools_run.
      destruct (map_get name (servers (mcp w'))) as [server|]; [|reflexivity].
      now rewrite H. }
  destruct (map_get name (servers (mcp w))) as [server|] eqn:Hget.
  - destruct (server_client server) as [client|] eqn:Hcl.
    + destruct (Hgone (MkWorld (db w)
                         (MkMCPService (map_delete name (servers (mcp w)))
                            (set_delete name (connectedServers (mcp w))))
                         (cli w))) as [H1 H2].
      { simpl. now rewrite map_get_delete. }
      repeat split; assumption.
    + destruct (Hgone w) as [H1 H2]; [now rewrite Hget|].
      repeat split; assumption.
  - destruct (Hgone w) as [H1 H2]; [now rewrite Hget|].
    repeat split; assumption.
Qed.

Lemma getServerForTool_loop_key entries toolName found :
  getServerForTool_loop entries toolName = Some found ->
  In found (map fst entries).
Proof.
  intros H. apply getServerForTool_loop_Some in H
    as [before [server [after [-> _]]]].
  rewrite map_app. apply in_or_app. right. now left.
Qed.

Lemma uncached_entry_not_found name (fresh : MCPServer) toolName m :
  caches_tool toolName fresh = false ->
  NoDup (map fst m) ->
  getServerForTool_loop (map_set name fresh m) toolName <> Some name.
Proof.
  intros Hf. induction m as [|[k0 v0] rest IH]; simpl; intros Hnd.
  - now rewrite Hf.
  - inversion Hnd as [|? ? Hnot Hrest]; subst.
    destruct (String.eqb_spec k0 name) as [->|Hne]; simpl.
    + rewrite Hf. intros H. apply Hnot.
      eapply getServerForTool_loop_key, H.
    + destruct (caches_tool toolName v0); [congruence|]. apply IH, Hrest.
Qed.

Lemma other_route_kept name (fresh : MCPServer) toolName found m :
  caches_tool toolName fresh = false ->
  found <> name ->
  getServerForTool_loop m toolName = Some found ->
  getServerForTool_loop (map_set name fresh m) toolName = Some found.
Proof.
  intros Hf Hne. induction m as [|[k0 v0] rest IH]; simpl; [discriminate|].
  destruct (String.eqb_spec k0 name) as [->|Hk]; simpl.
  - rewrite Hf. destruct (caches_tool toolName v0); [congruence|auto].
  - destruct (caches_tool toolName v0); [auto|exact IH].
Qed.

Lemma set_has_add_eq x k s :
  set_has x (set_add k s) = String.eqb x k || set_has x s.
Proof.
  unfold set_add. destruct (set_has k s) eqn:Hk.
  - destruct (String.eqb_spec x k) as [->|Hne]; simpl; [exact Hk|reflexivity].
  - unfold set_has. rewrite existsb_app. simpl.
    rewrite orb_false_r. apply orb_comm.
Qed.

Lemma set_has_delete_eq x k s :
  set_has x (set_delete k s) = negb (String.eqb x k) && set_has x s.
Proof.
  unfold set_has, set_delete.
  induction s as [|y rest IH]; simpl; [now rewrite andb_false_r|].
  destruct (String.eqb_spec y k) as [->|Hy]; simpl.
  - rewrite IH. destruct (String.eqb_spec x k) as [->|Hx]; reflexivity.
  - rewrite IH. destruct (String.eqb_spec x y) as [->|Hxy]; simpl.
    + destruct (String.eqb_spec y k); [congruence|reflexivity].
    + reflexivity.
Qed.

(** connectServer on a name that is already stored replaces the entry: the
    tool cache of that name is dropped, so getServerForTool does not return
    the name again until its tools are listed anew, while every other stored
    server and every route to another server stay as they were.  When the
    connection fails, the error is rethrown and the stored servers stay as
    they were, but the name is no longer reported connected, whether it was
    before or not: the close handler of the failed attempt removes it.  In
    both cases the other names keep their status, and the database and the
    terminal are untouched. *)
Theorem connectServer_replaces_entry
  (name command : string) (args : list string) (w : World)
  (Hkeys : NoDup (map fst (servers (mcp w)))) :
  let w' := snd (connectServer name command args w) in
  db w' = db w /\ cli w' = cli w /\
  (forall other,
     other <> name ->
     isConnected (mcp w') other = isConnected (mcp w) other /\
     map_get other (servers (mcp w')) = map_get other (servers (mcp w))) /\
  match connect_transport command args with
  | Throw e =>
      fst (connectServer name command args w) = Throw e /\
      servers (mcp w') = servers (mcp w) /\
      isConnected (mcp w') name = false
  | Ok client =>
      fst (connectServer name command args w) = Ok tt /\
      isConnected (mcp w') name = true /\
      map_get name (servers (mcp w'))
      = Some (MkMCPServer name command args (Some client) None) /\
      (forall toolName, getServerForTool (mcp w') toolName <> Some name) /\
      (forall toolName found,
         found <> name ->
         getServerForTool (mcp w) toolName = Some found ->
         getServerForTool (mcp w') toolName = Some found)
  end.
Proof.
  cbv zeta. rewrite connectServer_run.
  destruct (connect_transport command args) as [client|e];
    cbn [fst snd db mcp cli servers connectedServers];
    (split; [reflexivity|]); (split; [reflexivity|]); unfold isConnected;
    cbn [connectedServers servers]; split.
  - intros other Hne. split.
    + rewrite set_has_add_eq.
      destruct (String.eqb_spec other name); [congruence|reflexivity].
    + now apply map_get_set_other.
  - split; [reflexivity|]. split; [apply set_has_add|].
    split; [apply map_get_set|]. split.
    + intros toolName. unfold getServerForTool. cbn [servers].
      apply uncached_entry_not_found; [reflexivity|exact Hkeys].
    + intros toolName found Hne H. unfold getServerForTool in *.
      cbn [servers]. apply other_route_kept; [reflexivity|exact Hne|exact H].
  - intros other Hne. split; [|reflexivity].
    rewrite set_has_delete_eq.
    destruct (String.eqb_spec other name); [congruence|reflexivity].
  - split; [reflexivity|]. split; [reflexivity|]. apply set_has_delete.
Qed.

Lemma getServerForTool_loop_set_same name (server server' : MCPServer)
  toolName m :
  map_get name m = Some server ->
  caches_tool toolName server' = caches_tool toolName server ->
  getServerForTool_loop (map_set name server' m) toolName
  = getServerForTool_loop m toolName.
Proof.
  intros Hget Hc. induction m as [|[k0 v0] rest IH]; simpl in *;
    [discriminate|].
  destruct (String.eqb_spec k0 name) as [->|Hk]; simpl.
  - injection Hget as ->. now rewrite Hc.
  - now rewrite (IH Hget).
Qed.

Lemma flat_map_ext_in {A B} (f g : A -> list B) l :
  (forall a, In a l -> f a = g a) -> flat_map f l = flat_map g l.
Proof.
  induction l as [|a rest IH]; simpl; intros H; [reflexivity|].
  rewrite (H a) by now left. f_equal. apply IH. intros x Hx. apply H.
  now right.
Qed.

(** When the transport of a stored server closes, the server is no longer
    reported connected but stays stored, now with a closed client, while
    every other entry is as before.  getServerForTool routes as before, so
    it still names the closed server for the tools it cached; callTool on
    the name reaches the stored client, which is closed, and throws Not
    connected; listTools on the name returns the empty list; getAllTools no
    longer asks the server; and disconnectAll does not remove it. *)
Theorem closed_transport_stays_stored (name : string) (w : World)
  (server : MCPServer)
  (Hok : service_ok (mcp w))
  (Hstored : map_get name (servers (mcp w)) = Some server) :
  let w1 := snd (transport_closed name w) in
  isConnected (mcp w1) name = false /\
  map_get name (servers (mcp w1)) = Some (close_server server) /\
  server_client (close_server server) = Some closed_client /\
  (forall other,
     other <> name ->
     map_get other (servers (mcp w1)) = map_get other (servers (mcp w)) /\
     isConnected (mcp w1) other = isConnected (mcp w) other) /\
  (forall toolName,
     getServerForTool (mcp w1) toolName = getServerForTool (mcp w) toolName) /\
  (forall toolName args,
     callTool name toolName args w1 = (Throw (MkError "Not connected"), w1)) /\
  listTools name w1 = (Ok [], w1) /\
  fst (getAllTools w1)
  = Ok (flat_map (listed (mcp w))
                 (set_delete name (connectedServers (mcp w)))) /\
  map_get name (servers (mcp (snd (disconnectAll w1))))
  = Some (close_server server).
Proof.
  cbv zeta.
  pose proof (transport_closed_ok name w Hok) as Hok1.
  rewrite transport_closed_run in *. rewrite Hstored in *. cbn [snd] in *.
  set (w1 := MkWorld (db w)
               (MkMCPService
                  (map_set name (close_server server) (servers (mcp w)))
                  (set_delete name (connectedServers (mcp w)))) (cli w)) in *.
  assert (Hn : isConnected (mcp w1) name = false).
  { unfold isConnected. simpl. apply set_has_delete. }
  assert (Hget : map_get name (servers (mcp w1)) = Some (close_server server)).
  { simpl. apply map_get_set. }
  assert (Hcl : server_client (close_server server) = Some closed_client).
  { destruct Hok as (_ & He & _). rewrite Forall_forall in He.
    destruct (He _ (map_get_In _ _ Hstored)) as [_ [client Hc]].
    simpl in Hc. unfold close_server. cbn [server_client]. now rewrite Hc. }
  assert (Hother : forall other, other <> name ->
            map_get other (servers (mcp w1)) = map_get other (servers (mcp w))).
  { intros other Hne. simpl. now apply map_get_set_other. }
  split; [exact Hn|]. split; [exact Hget|]. split; [exact Hcl|].
  split; [|split; [|split; [|split; [|split]]]].
  - intros other Hne. split; [now apply Hother|].
    unfold isConnected. simpl. rewrite set_has_delete_eq.
    destruct (String.eqb_spec other name); [congruence|reflexivity].
  - intros toolName. unfold getServerForTool. cbn [mcp servers w1].
    now apply getServerForTool_loop_set_same with (server := server).
  - intros toolName args.
    rewrite (surjective_pairing (callTool name toolName args w1)).
    rewrite callTool_world, callTool_fst, Hget, Hcl. reflexivity.
  - rewrite listTools_run, Hget, Hcl. reflexivity.
  - pose proof (getAllTools_loop_run (connectedServers (mcp w1)) [] w1) as H.
    cbv zeta in H. destruct H as [H _].
    unfold getAllTools, bind, get_mcp. rewrite H. cbn [app]. f_equal.
    apply flat_map_ext_in. intros x Hx. cbn [mcp connectedServers w1] in Hx.
    apply set_delete_In in Hx as [_ Hx].
    unfold listed. now rewrite (Hother x Hx).
  - rewrite (disconnectAll_run w1 Hok1). cbn [snd mcp servers].
    rewrite (map_get_filter_keys
               (fun k => negb (set_has k (connectedServers (mcp w1))))).
    unfold isConnected in Hn. rewrite Hn. exact Hget.
Qed.

(** ** The entry point: replies, the loop and the start-up *)

Lemma find_finalResponse_spec msgs :
  (find_finalResponse msgs = "" /\
   Forall (fun m => has_reply m = false) msgs) \/
  (exists skipped tcs rest,
     msgs = skipped ++ AIMessage (TextContent (find_finalResponse msgs)) tcs
                    :: rest /\
     trim_nonempty (find_finalResponse msgs) = true /\
     Forall (fun m => has_reply m = false) skipped).
Proof.
  induction msgs as [|m rest IH]; simpl.
  - left. split; [reflexivity|constructor].
  - assert (Hskip : has_reply m = false ->
              (find_finalResponse rest = "" /\
               Forall (fun m => has_reply m = false) (m :: rest)) \/
              (exists skipped tcs rest',
                 m :: rest
                 = skipped ++ AIMessage (TextContent (find_finalResponse rest))
                                        tcs :: rest' /\
                 trim_nonempty (find_finalResponse rest) = true /\
                 Forall (fun m => has_reply m = false) skipped)).
    { intros Hm. destruct IH as [[H1 H2]|[skipped [tcs [rest' [H1 [H2 H3]]]]]].
      - left. split; [exact H1|]. constructor; assumption.
      - right. exists (m :: skipped), tcs, rest'. split.
        + simpl. f_equal. exact H1.
        + split; [exact H2|]. constructor; assumption. }
    destruct m as [c|[text|v] tcs|c id n|ty c]; try (apply Hskip; reflexivity).
    destruct (trim_nonempty text) eqn:Ht.
    + assert (Hne : negb (String.eqb text "") = true).
      { destruct text; [discriminate|reflexivity]. }
      rewrite Hne. simpl. right. exists [], tcs, rest.
      repeat split; [exact Ht|constructor].
    + rewrite andb_false_r. apply Hskip. exact Ht.
Qed.

Lemma trim_nonempty_not_empty text :
  trim_nonempty text = true -> String.eqb text "" = false.
Proof. destruct text; [discriminate|reflexivity]. Qed.

Lemma displayFinalResponse_run result w :
  displayFinalResponse result w =
  (Ok "continue",
   MkWorld (db w) (mcp w)
     (cli w ++ [StopThinking;
                DisplayResponse
                  (if String.eqb (find_finalResponse (rev (messages result))) ""
                   then no_response
                   else find_finalResponse (rev (messages result)))])).
Proof.
  unfold displayFinalResponse, bind, cli_emit, ret.
  destruct (String.eqb (find_finalResponse (rev (messages result))) "");
    simpl; rewrite <- app_assoc; reflexivity.
Qed.

Lemma getConversationMessages_same_world conversation limit w window :
  fst (getConversationMessages conversation limit w) = Ok window ->
  getConversationMessages conversation limit w = (Ok window, w).
Proof.
  rewrite getConversationMessages_run. cbn [fst]. intros H. f_equal. exact H.
Qed.

(** What the user is shown after a turn.  When the agent graph returns,
    processUserInput stops the indicator, shows one response and returns
    "continue".  The response is the content of the last assistant message
    of the returned messages whose content is a string that is not blank,
    wherever it stands in them; when there is no such message it is the
    fixed notice. *)
Theorem processUserInput_shows_last_reply
  (graph : AgentState -> M AgentState) (userInput : string)
  (conversation : Conversation) (availableTools : list Tool) (w : World)
  (window : list BaseMessage) (result : AgentState) (wg : World)
  (Hexit : toLowerCase userInput <> "/exit")
  (Hhelp : toLowerCase userInput <> "/help")
  (Htools : toLowerCase userInput <> "/tools")
  (Hwindow : fst (getConversationMessages (conv_id conversation) 10
                    (thinking w)) = Ok window)
  (Hgraph : graph (initialState conversation window userInput) (thinking w)
            = (Ok result, wg)) :
  exists shown,
    processUserInput graph userInput conversation availableTools w
    = (Ok "continue",
       MkWorld (db wg) (mcp wg)
               (cli wg ++ [StopThinking; DisplayResponse shown])) /\
    ((shown = no_response /\
      Forall (fun m => has_reply m = false) (messages result)) \/
     (exists earlier tcs later,
        messages result
        = earlier ++ AIMessage (TextContent shown) tcs :: later /\
        trim_nonempty shown = true /\
        Forall (fun m => has_reply m = false) later)).
Proof.
  rewrite processUserInput_agent by assumption.
  rewrite (getConversationMessages_same_world _ _ _ Hwindow).
  unfold bind. rewrite Hgraph, displayFinalResponse_run.
  eexists. split; [reflexivity|].
  destruct (find_finalResponse_spec (rev (messages result)))
    as [[H1 H2]|[skipped [tcs [rest [H1 [H2 H3]]]]]].
  - left. rewrite H1. split; [reflexivity|].
    rewrite Forall_forall in H2 |- *. intros m Hm. apply H2, in_rev.
    now rewrite rev_involutive.
  - right. rewrite (trim_nonempty_not_empty _ H2).
    exists (rev rest), tcs, (rev skipped). split.
    + assert (Hm : messages result = rev (rev (messages result)))
        by (now rewrite rev_involutive).
      rewrite Hm at 1. rewrite H1 at 1.
      rewrite rev_app_distr. simpl. now rewrite <- app_assoc.
    + split; [exact H2|].
      rewrite Forall_forall in H3 |- *. intros m Hm. apply H3, in_rev, Hm.
Qed.

Lemma processUserInput_result graph userInput conversation availableTools w :
  (toLowerCase userInput = "/exit" /\
   processUserInput graph userInput conversation availableTools w
   = (Ok "exit",
      MkWorld (db w) (mcp w)
              (cli w ++ [DisplayInfo (String.append "Goodbye! " wave)]))) \/
  (toLowerCase userInput <> "/exit" /\
   fst (processUserInput graph userInput conversation availableTools w)
   <> Ok "exit").
Proof.
  destruct (String.eqb_spec (toLowerCase userInput) "/exit") as [He|He].
  - left. split; [exact He|]. unfold processUserInput. rewrite He. reflexivity.
  - right. split; [exact He|].
    destruct (String.eqb_spec (toLowerCase userInput) "/help") as [Hh|Hh].
    { unfold processUserInput. rewrite Hh. simpl. discriminate. }
    destruct (String.eqb_spec (toLowerCase userInput) "/tools") as [Ht|Ht].
    { unfold processUserInput. rewrite Ht. simpl. discriminate. }
    rewrite processUserInput_agent by assumption.
    rewrite getConversationMessages_run. unfold bind.
    destruct (graph _ (thinking w)) as [[result|e] wg].
    + rewrite displayFinalResponse_run. simpl. discriminate.
    + simpl. discriminate.
Qed.

Lemma main_loop_body_run graph prompt conversation availableTools w :
  exists w',
    main_loop_body graph (lift_exc prompt) conversation availableTools w
    = (Ok (is_exit prompt), w') /\
    (is_exit prompt = true ->
     w' = MkWorld (db w) (mcp w)
            (cli w ++ [DisplayInfo (String.append "Goodbye! " wave)])).
Proof.
  unfold main_loop_body, try_catch, bind at 1, lift_exc.
  destruct prompt as [userInput|e]; simpl.
  - unfold bind at 1.
    destruct (processUserInput_result graph userInput conversation
                availableTools w) as [[He H]|[He H]].
    + rewrite H. apply String.eqb_eq in He. rewrite He. simpl.
      eexists. split; [reflexivity|]. reflexivity.
    + apply String.eqb_neq in He. rewrite He.
      destruct (processUserInput graph userInput conversation availableTools w)
        as [[r|e] w1]; simpl in *.
      * destruct (String.eqb_spec r "exit") as [->|Hr]; [congruence|].
        eexists. split; [reflexivity|discriminate].
      * eexists. split; [reflexivity|discriminate].
  - eexists. split; [reflexivity|discriminate].
Qed.

(** One iteration of the loop of main never throws, whatever the prompt
    and the agent graph do, and it asks to leave the loop exactly when the
    prompt returned the exit command; a failure of the prompt itself is
    reported on the terminal as an error and the loop goes on. *)
Theorem main_loop_body_outcome
  (graph : AgentState -> M AgentState) (promptUser : M string)
  (conversation : Conversation) (availableTools : list Tool) (w : World) :
  exists stop w',
    main_loop_body graph promptUser conversation availableTools w
    = (Ok stop, w') /\
    (stop = true <->
     exists userInput w1,
       promptUser w = (Ok userInput, w1) /\
       toLowerCase userInput = "/exit") /\
    (forall e w1,
       promptUser w = (Throw e, w1) ->
       stop = false /\
       w' = MkWorld (db w1) (mcp w1)
              (cli w1 ++ [StopThinking;
                          DisplayError
                            (String.append "An error occurred: "
                                           (message e))])).
Proof.
  unfold main_loop_body, try_catch, bind at 1.
  destruct (promptUser w) as [[userInput|e] w1].
  - unfold bind at 1.
    destruct (processUserInput_result graph userInput conversation
                availableTools w1) as [[He H]|[He H]].
    + rewrite H. simpl. exists true. eexists. split; [reflexivity|].
      split; [|intros; discriminate].
      split; [intros _; exists userInput, w1; auto|reflexivity].
    + destruct (processUserInput graph userInput conversation availableTools
                  w1) as [[r|e] w2]; simpl in *.
      * destruct (String.eqb_spec r "exit") as [->|Hr]; [congruence|].
        exists false. eexists. split; [reflexivity|].
        split; [|intros; discriminate].
        split; [discriminate|].
        intros [u [w3 [[= <- <-] Hu]]]. contradiction.
      * exists false. eexists. split; [reflexivity|].
        split; [|intros; discriminate].
        split; [discriminate|].
        intros [u [w3 [[= <- <-] Hu]]]. contradiction.
  - exists false. eexists. split; [reflexivity|]. split.
    + split; [discriminate|]. intros [u [w3 [H _]]]. discriminate.
    + intros e' w3 [= <- <-]. split; [reflexivity|].
      unfold bind, cli_emit, ret. simpl. now rewrite <- app_assoc.
Qed.

Lemma main_loop_result graph prompts conversation availableTools : forall w,
  fst (main_loop graph prompts conversation availableTools w)
  = Ok (existsb is_exit prompts).
Proof.
  induction prompts as [|prompt rest IH]; intros w; simpl; [reflexivity|].
  unfold bind.
  destruct (main_loop_body_run graph prompt conversation availableTools w)
    as [w' [H _]].
  rewrite H. destruct (is_exit prompt); simpl; [reflexivity|apply IH].
Qed.

Lemma main_loop_app graph before conversation availableTools :
  forall rest w,
    existsb is_exit before = false ->
    main_loop graph (before ++ rest) conversation availableTools w
    = main_loop graph rest conversation availableTools
        (snd (main_loop graph before conversation availableTools w)).
Proof.
  induction before as [|prompt before' IH]; intros rest w Hb; simpl;
    [reflexivity|].
  simpl in Hb. apply orb_false_iff in Hb as [Hp Hb].
  unfold bind.
  destruct (main_loop_body_run graph prompt conversation availableTools w)
    as [w' [H _]].
  rewrite H, Hp. apply IH, Hb.
Qed.

(** The loop of main is left only by the exit command.  Whatever the
    prompts and the graph do, the loop never throws; it ends exactly when a
    prompt returns the exit command, and then at the first one: the farewell
    is shown in the world the earlier inputs left, and what would have been
    typed afterwards plays no part. *)
Theorem main_loop_stops_at_exit
  (graph : AgentState -> M AgentState) (before after : list (Exc string))
  (userInput : string) (conversation : Conversation)
  (availableTools : list Tool) (w : World)
  (Hbefore : existsb is_exit before = false)
  (Hexit : toLowerCase userInput = "/exit") :
  let w1 := snd (main_loop graph before conversation availableTools w) in
  main_loop graph (before ++ Ok userInput :: after) conversation availableTools w
  = (Ok true,
     MkWorld (db w1) (mcp w1)
             (cli w1 ++ [DisplayInfo (String.append "Goodbye! " wave)])) /\
  main_loop graph before conversation availableTools w = (Ok false, w1) /\
  (forall prompts w0,
     fst (main_loop graph prompts conversation availableTools w0)
     = Ok (existsb is_exit prompts)).
Proof.
  cbv zeta. split; [|split].
  - rewrite main_loop_app by exact Hbefore. simpl. unfold bind.
    destruct (main_loop_body_run graph (Ok userInput) conversation
                availableTools
                (snd (main_loop graph before conversation availableTools w)))
      as [w' [H Hw]].
    assert (He : is_exit (Ok userInput) = true)
      by (simpl; now apply String.eqb_eq).
    rewrite H, He. rewrite (Hw He). reflexivity.
  - rewrite (surjective_pairing
               (main_loop graph before conversation availableTools w)).
    now rewrite main_loop_result, Hbefore.
  - intros. apply main_loop_result.
Qed.

(** One guarded connection attempt of the start-up. *)
Lemma connection_attempt_run {A} name command args (ready : A)
  (missing : Error -> A) w :
  try_catch (connectServer name command args ;;; ret ready)
            (fun error => ret (missing error)) w
  = match connect_transport command args with
    | Ok client =>
        (Ok ready,
         MkWorld (db w)
           (MkMCPService
              (map_set name (MkMCPServer name command args (Some client) None)
                       (servers (mcp w)))
              (set_add name (connectedServers (mcp w))))
           (cli w))
    | Throw e =>
        (Ok (missing e),
         MkWorld (db w)
           (MkMCPService (servers (mcp w))
                         (set_delete name (connectedServers (mcp w))))
           (cli w))
    end.
Proof.
  unfold try_catch, bind. rewrite connectServer_run.
  destruct (connect_transport command args); reflexivity.
Qed.

Lemma connection_attempt_frame name command args (ready : StartupLine)
  (missing : Error -> StartupLine) w :
  let r := try_catch (connectServer name command args ;;; ret ready)
                     (fun error => ret (missing error)) w in
  (exists line : StartupLine, fst r = Ok line) /\
  db (snd r) = db w /\ cli (snd r) = cli w /\
  (forall x,
     isConnected (mcp (snd r)) x
     = if String.eqb x name then is_ok (connect_transport command args)
       else isConnected (mcp w) x).
Proof.
  cbv zeta. rewrite connection_attempt_run.
  destruct (connect_transport command args) as [client|e]; simpl.
  - split; [eexists; reflexivity|]. repeat split.
    intros x. unfold isConnected. simpl. rewrite set_has_add_eq.
    destruct (String.eqb x name); reflexivity.
  - split; [eexists; reflexivity|]. repeat split.
    intros x. unfold isConnected. simpl. rewrite set_has_delete_eq.
    destruct (String.eqb x name); reflexivity.
Qed.

(** The connection block of main never throws and makes its three
    attempts independently: the file-system server is always tried, the
    GitHub server only when GITHUB_TOKEN is set and not empty, the web search
    server only when BRAVE_API_KEY is set, not empty and not the placeholder.
    A server that was tried ends up connected exactly when its transport
    connected, whatever it was before and whatever happened to the others; a
    server that was not tried, and every other name, keeps its status.  One
    line is written per server. *)
Theorem connect_servers_attempts (env : ProcessEnv) (w : World) :
  let w' := snd (connect_servers env w) in
  (exists l1 l2 l3, fst (connect_servers env w) = Ok [l1; l2; l3]) /\
  db w' = db w /\ cli w' = cli w /\
  isConnected (mcp w') "filesystem"
  = is_ok (connect_transport "npx"
             ["-y"; "@modelcontextprotocol/server-filesystem"; process_cwd]) /\
  isConnected (mcp w') "github"
  = (if truthy (GITHUB_TOKEN env)
     then is_ok (connect_transport "npx" ["-y"; "@missionsquad/mcp-github"])
     else isConnected (mcp w) "github") /\
  isConnected (mcp w') "websearch"
  = (if truthy (BRAVE_API_KEY env)
        && negb (match BRAVE_API_KEY env with
                 | Some key => String.eqb key brave_placeholder
                 | None => false
                 end)
     then is_ok (connect_transport "npx"
                   ["-y"; "@brave/brave-search-mcp-server"])
     else isConnected (mcp w) "websearch") /\
  (forall name,
     name <> "filesystem" -> name <> "github" -> name <> "websearch" ->
     isConnected (mcp w') name = isConnected (mcp w) name).
Proof.
  assert (Hrun : exists l1 l2 l3 w',
            connect_servers env w = (Ok [l1; l2; l3], w') /\
            db w' = db w /\ cli w' = cli w /\
            forall x,
              isConnected (mcp w') x
              = if String.eqb x "websearch"
                   && (truthy (BRAVE_API_KEY env)
                       && negb (match BRAVE_API_KEY env with
                                | Some key => String.eqb key brave_placeholder
                                | None => false
                                end))
                then is_ok (connect_transport "npx"
                              ["-y"; "@brave/brave-search-mcp-server"])
                else if String.eqb x "github" && truthy (GITHUB_TOKEN env)
                     then is_ok (connect_transport "npx"
                                   ["-y"; "@missionsquad/mcp-github"])
                     else if String.eqb x "filesystem"
                          then is_ok (connect_transport "npx"
                                 ["-y";
                                  "@modelcontextprotocol/server-filesystem";
                                  process_cwd])
                          else isConnected (mcp w) x).
  { unfold connect_servers.
    (* first attempt *)
    unfold bind at 1. unfold connect_filesystem.
    pose proof (connection_attempt_frame "filesystem" "npx"
                  ["-y"; "@modelcontextprotocol/server-filesystem"; process_cwd]
                  (ServerReady " Filesystem server")
                  (fun error => ServerMissing
                     (String.append " Filesystem server: " (message error)))
                  w) as H1.
    cbv zeta in H1. destruct H1 as ([l1 Hl1] & Hd1 & Hc1 & Hi1).
    destruct (try_catch _ _ w) as [r1 w1]. simpl in Hl1, Hd1, Hc1, Hi1.
    subst r1.
    (* second attempt *)
    unfold bind at 1.
    assert (H2 : exists (l2 : StartupLine) w2,
               connect_github env w1 = (Ok l2, w2) /\
               db w2 = db w1 /\ cli w2 = cli w1 /\
               forall x,
                 isConnected (mcp w2) x
                 = if String.eqb x "github" && truthy (GITHUB_TOKEN env)
                   then is_ok (connect_transport "npx"
                                 ["-y"; "@missionsquad/mcp-github"])
                   else isConnected (mcp w1) x).
    { unfold connect_github. destruct (truthy (GITHUB_TOKEN env)).
      - pose proof (connection_attempt_frame "github" "npx"
                      ["-y"; "@missionsquad/mcp-github"]
                      (ServerReady " GitHub server")
                      (fun error => ServerMissing
                         (String.append " GitHub server: " (message error)))
                      w1) as H.
        cbv zeta in H. destruct H as ([l2 Hl2] & Hd2 & Hc2 & Hi2).
        destruct (try_catch _ _ w1) as [r2 w2]. simpl in *. subst r2.
        exists l2, w2. repeat split; try assumption.
        intros x. rewrite Hi2, andb_true_r. reflexivity.
      - eexists. exists w1. split; [reflexivity|]. repeat split.
        intros x. now rewrite andb_false_r. }
    destruct H2 as (l2 & w2 & Hr2 & Hd2 & Hc2 & Hi2). rewrite Hr2.
    (* third attempt *)
    unfold bind at 1.
    set (wanted := truthy (BRAVE_API_KEY env)
                   && negb (match BRAVE_API_KEY env with
                            | Some key => String.eqb key brave_placeholder
                            | None => false
                            end)) in *.
    assert (H3 : exists (l3 : StartupLine) w3,
               connect_websearch env w2 = (Ok l3, w3) /\
               db w3 = db w2 /\ cli w3 = cli w2 /\
               forall x,
                 isConnected (mcp w3) x
                 = if String.eqb x "websearch" && wanted
                   then is_ok (connect_transport "npx"
                                 ["-y"; "@brave/brave-search-mcp-server"])
                   else isConnected (mcp w2) x).
    { unfold connect_websearch. fold wanted. destruct wanted.
      - pose proof (connection_attempt_frame "websearch" "npx"
                      ["-y"; "@brave/brave-search-mcp-server"]
                      (ServerReady " Web search server")
                      (fun error => ServerMissing
                         (String.append " Web search server: "
                                        (message error)))
                      w2) as H.
        cbv zeta in H. destruct H as ([l3 Hl3] & Hd3 & Hc3 & Hi3).
        destruct (try_catch _ _ w2) as [r3 w3]. simpl in *. subst r3.
        exists l3, w3. repeat split; try assumption.
        intros x. rewrite Hi3, andb_true_r. reflexivity.
      - eexists. exists w2. split; [reflexivity|]. repeat split.
        intros x. now rewrite andb_false_r. }
    destruct H3 as (l3 & w3 & Hr3 & Hd3 & Hc3 & Hi3). rewrite Hr3.
    exists l1, l2, l3, w3. split; [reflexivity|].
    split; [congruence|]. split; [congruence|].
    intros x. now rewrite Hi3, Hi2, Hi1. }
  destruct Hrun as (l1 & l2 & l3 & w' & Hrun & Hd & Hc & Hi).
  cbv zeta. rewrite Hrun. cbn [fst snd].
  split; [exists l1, l2, l3; reflexivity|].
  split; [exact Hd|]. split; [exact Hc|].
  split; [|split; [|split]].
  - rewrite Hi. reflexivity.
  - rewrite Hi. cbn [String.eqb Ascii.eqb Bool.eqb andb].
    destruct (truthy (GITHUB_TOKEN env)); reflexivity.
  - rewrite Hi. cbn [String.eqb Ascii.eqb Bool.eqb andb].
    destruct (truthy (BRAVE_API_KEY env)
              && negb (match BRAVE_API_KEY env with
                       | Some key => String.eqb key brave_placeholder
                       | None => false
                       end)); reflexivity.
  - intros name Hf Hg Hs. rewrite Hi.
    apply String.eqb_neq in Hf, Hg, Hs. now rewrite Hf, Hg, Hs.
Qed.

(** ** The message store: order and isolation *)

Lemma insert_desc_oldest r l :
  Forall (fun y => row_createdAt r < row_createdAt y) l ->
  insert_desc r l = l ++ [r].
Proof.
  induction 1 as [|y rest Hy _ IH]; simpl; [reflexivity|].
  destruct (Nat.leb_spec (row_createdAt y) (row_createdAt r)); [lia|].
  now rewrite IH.
Qed.

Lemma orderBy_created_in_order rows :
  created_in_order rows -> orderBy_createdAt_desc rows = rev rows.
Proof.
  induction 1 as [|r rest Hs IH Hall]; [reflexivity|].
  change (orderBy_createdAt_desc (r :: rest))
    with (insert_desc r (orderBy_createdAt_desc rest)).
  rewrite IH. simpl. apply insert_desc_oldest.
  rewrite Forall_forall in Hall |- *. intros y Hy. apply Hall, in_rev, Hy.
Qed.

Lemma where_conversationId_app conversation l1 l2 :
  where_conversationId conversation (l1 ++ l2)
  = where_conversationId conversation l1
    ++ where_conversationId conversation l2.
Proof. apply filter_app. Qed.

Lemma where_other_conversation conversation other now data :
  other <> conversation ->
  where_conversationId other
    (map (stored_row now) (map (messageData conversation) data)) = [].
Proof.
  intros Hne. apply filter_none. intros r Hr.
  apply in_map_iff in Hr as [d [<- Hd]].
  apply in_map_iff in Hd as [m [<- _]]. simpl.
  apply String.eqb_neq. congruence.
Qed.

Lemma getConversationMessages_in_order conversation limit w :
  db_fault (db w) = None ->
  created_in_order
    (where_conversationId conversation (message_table (db w))) ->
  getConversationMessages conversation limit w
  = (Ok (map row_to_message
           (skipn (length (where_conversationId conversation
                             (message_table (db w))) - limit)
                  (where_conversationId conversation
                     (message_table (db w))))), w).
Proof.
  intros Hdb Horder. rewrite getConversationMessages_run, Hdb.
  rewrite (orderBy_created_in_order Horder).
  rewrite firstn_rev, rev_involutive. reflexivity.
Qed.

(** When the rows of a conversation were created at strictly increasing
    times, getConversationMessages returns exactly its last [limit] messages
    in the order they were stored; with a limit that covers the
    conversation, all of it. *)
Theorem getConversationMessages_stored_order
  (conversation : string) (limit : nat) (w : World)
  (Hdb : db_fault (db w) = None)
  (Horder : created_in_order
              (where_conversationId conversation (message_table (db w)))) :
  let rows := where_conversationId conversation (message_table (db w)) in
  getConversationMessages conversation limit w
  = (Ok (map row_to_message (skipn (length rows - limit) rows)), w) /\
  (length rows <= limit ->
   getConversationMessages conversation limit w
   = (Ok (map row_to_message rows), w)).
Proof.
  cbv zeta.
  assert (H : getConversationMessages conversation limit w
              = (Ok (map row_to_message
                       (skipn (length (where_conversationId conversation
                                         (message_table (db w))) - limit)
                              (where_conversationId conversation
                                 (message_table (db w))))), w)).
  { apply getConversationMessages_in_order; assumption. }
  split; [exact H|].
  intros Hlen. rewrite H.
  replace (length _ - limit) with 0 by lia. reflexivity.
Qed.

(** Saving messages to one conversation does not change what
    getConversationMessages returns for any other conversation, whether the
    store accepts the rows or not. *)
Theorem saveMessages_other_conversation
  (conversation other : string) (msgs : list BaseMessage) (limit : nat)
  (w : World)
  (Hother : other <> conversation) :
  fst (getConversationMessages other limit
         (snd (saveMessages conversation msgs w)))
  = fst (getConversationMessages other limit w).
Proof.
  rewrite saveMessages_run.
  destruct (db_fault (db w)) as [e|] eqn:Hdb; [reflexivity|].
  rewrite !getConversationMessages_run. cbn [fst snd db db_fault message_table].
  rewrite Hdb, where_conversationId_app.
  rewrite where_other_conversation by exact Hother.
  now rewrite app_nil_r.
Qed.

(** A message saved on its own is what getConversationMessages returns
    last afterwards (for a limit of at least one, and creation times that
    keep the conversation in order), with what a saved message keeps: its
    class, its content as a string, its tool calls (the empty list when it
    had no list), its tool-call id and its name; a message that is neither
    an assistant nor a tool message is returned as a human message.  At
    most limit - 1 earlier messages come before it. *)
Theorem saved_message_is_loaded_last
  (conversation : string) (m : BaseMessage) (limit : nat) (w : World)
  (Hdb : db_fault (db w) = None)
  (Hlimit : 0 < limit)
  (Horder : created_in_order
              (where_conversationId conversation
                 (message_table (db (snd (saveMessages conversation [m] w)))))) :
  exists earlier,
    fst (getConversationMessages conversation limit
           (snd (saveMessages conversation [m] w)))
    = Ok (earlier ++ [as_loaded m]) /\
    length earlier < limit /\
    fst (saveMessages conversation [m] w) = Ok tt.
Proof.
  revert Horder. rewrite saveMessages_run, Hdb. cbn [fst snd]. intros Horder.
  rewrite getConversationMessages_in_order; [|reflexivity|exact Horder].
  cbn [fst db message_table map] in *.
  rewrite where_conversationId_app in *.
  set (old := where_conversationId conversation (message_table (db w))) in *.
  assert (Hnew : where_conversationId conversation
                   [stored_row (db_clock (db w)) (messageData conversation m)]
                 = [stored_row (db_clock (db w)) (messageData conversation m)]).
  { unfold where_conversationId. simpl. now rewrite String.eqb_refl. }
  rewrite Hnew. rewrite length_app. simpl length.
  rewrite skipn_app.
  replace (length old + 1 - limit - length old) with 0 by lia.
  rewrite map_app. simpl skipn. simpl map.
  exists (map row_to_message (skipn (length old + 1 - limit) old)).
  split; [|split; [|reflexivity]].
  - do 3 f_equal. destruct m as [c|c [calls|]|c id n|t c]; reflexivity.
  - rewrite length_map, length_skipn. lia.
Qed.

End Assistant.

(** * The properties on the sample data *)

(** The spec's scenario of a direct answer, evaluated. *)
Example runTurn_hello :
  fst (runTurn sample_stringify sample_generate 1 "c1"
         [HumanMessage (TextContent "hi")] sample_tools sample_world)
  = Completed
      (MkTurn DONE
         [HumanMessage (TextContent "hi"); AIMessage (TextContent "Hello!") None]
         [AIMessage (TextContent "Hello!") None] []
         [[HumanMessage (TextContent "hi")]] []).
Proof. reflexivity. Qed.

(** The sample request, evaluated: the first call succeeds, the second
    fails at the gateway, and the generator is called again with both tool
    messages. *)
Example runTurn_list_files :
  map (fun m => (mapMessageRole m, msg_content m))
      (turn_produced
         (result_turn
            (fst (runTurn sample_stringify sample_generate 3 "c1"
                    list_files_history sample_tools sample_world))))
  = [("ASSISTANT", TextContent "");
     ("TOOL", ComplexContent sample_files);
     ("TOOL", failure_payload (MkError "ENOENT"))].
Proof. reflexivity. Qed.

(** The query keeps the ten most recent rows of the conversation and
    returns them oldest first. *)
Example recent_window_of_sample :
  map row_createdAt
      (rev (firstn 10 (orderBy_createdAt_desc
                         (where_conversationId "c1" sample_table))))
  = [3; 4; 5; 6; 7; 8; 9; 10; 11; 12].
Proof. reflexivity. Qed.

Lemma capability_request_round_witness :
  exists tools t2 w2,
    steps sample_stringify sample_generate 2 "c1" sample_tools
          (start_turn list_files_history) sample_world = (Ok t2, w2) /\
    turn_state t2 = GENERATING /\
    turn_produced t2 = sample_request :: tools /\
    length (sample_request :: tools) = 3 /\
    Forall2 answers sample_calls tools /\
    turn_executed t2 = sample_calls.
Proof.
  destruct (@capability_request_round sample_stringify sample_generate
              "c1" sample_tools (start_turn list_files_history) sample_world
              sample_calls eq_refl eq_refl eq_refl)
    as [tools [t2 [w2 [rows H]]]].
  cbv zeta in H.
  destruct H as (H1 & H2 & _ & H3 & _ & H4 & H5 & _ & H6 & _).
  exists tools, t2, w2. repeat split; assumption.
Defined.

Lemma failed_call_is_reported_witness :
  gateway_fails sample_world
    (MkToolCall "call_2" "read_file" (JObject [("path", JString "x")]))
    (MkError "ENOENT") /\
  exists t' w',
    step sample_stringify sample_generate "c1" sample_tools awaiting_sample
         sample_world = (Ok t', w') /\
    turn_state t' = GENERATING /\
    In (ToolMessage (failure_payload (MkError "ENOENT")) (Some "call_2")
                    (Some "read_file"))
       (turn_produced t').
Proof.
  assert (Hfail : gateway_fails sample_world
            (MkToolCall "call_2" "read_file" (JObject [("path", JString "x")]))
            (MkError "ENOENT")).
  { right. exists "filesystem". split; reflexivity. }
  split; [exact Hfail|].
  destruct (@failed_call_is_reported sample_stringify sample_generate
              "c1" sample_tools awaiting_sample sample_world
              [MkToolCall "call_1" "list_files" (JObject [("path", JString ".")])]
              [] _ _ eq_refl eq_refl Hfail eq_refl)
    as [mb [ma [t' [w' H]]]].
  cbv zeta in H. destruct H as (H1 & H2 & _ & _ & H3 & _).
  exists t', w'. split; [exact H1|]. split; [exact H2|].
  rewrite H3. apply in_or_app. right. apply in_or_app. right. now left.
Defined.

Lemma final_answer_turn_witness :
  exists t w',
    runTurn sample_stringify sample_generate 1 "c1"
            [HumanMessage (TextContent "hi")] sample_tools sample_world
    = (Completed t, w') /\
    turn_produced t = [AIMessage (TextContent "Hello!") None] /\
    turn_generated t = [[HumanMessage (TextContent "hi")]] /\
    turn_executed t = [].
Proof.
  destruct (@final_answer_turn sample_stringify sample_generate "c1"
              [HumanMessage (TextContent "hi")] sample_tools sample_world
              "Hello!" 0 eq_refl eq_refl)
    as [t [w' [row (H1 & _ & H2 & _ & H3 & H4 & _)]]].
  exists t, w'. repeat split; assumption.
Defined.

Lemma getConversationMessages_recent_window_witness :
  (fst (getConversationMessages "c1" 3 mixed_world)
   = Ok [AIMessage (TextContent "") (Some sample_calls);
         ToolMessage (TextContent "[a, b]") (Some "call_1") (Some "list_files");
         AIMessage (TextContent "Two files.") (Some [])]) /\
  (exists rows loaded,
     getConversationMessages "c1" 3 mixed_world = (Ok loaded, mixed_world) /\
     Forall2 loads_as rows loaded /\
     Forall (fun r => row_conversationId r = "c1") rows /\
     length rows = 3 /\
     StronglySorted older_first rows) /\
  (exists window,
     getConversationMessages "c1" 10 (thinking sample_world)
     = (Ok window, thinking sample_world) /\
     length window <= 10 /\
     length (messages (initialState "/work" sample_conversation window "hello"))
     <= 11).
Proof.
  destruct (@getConversationMessages_recent_window "/work" failing_graph
              "hello" sample_conversation sample_tools sample_world)
    as [Hquery [window (H1 & H2 & _ & _ & H3)]];
    try (cbv; discriminate).
  split; [reflexivity|]. split.
  - destruct (Hquery "c1" 3 mixed_world)
      as (rows & older & others & loaded & Hrun & _ & Hload & Hlen & Hsort & H).
    cbn [db_fault db mixed_world] in H.
    destruct H as (Hperm & Hconv & _ & _ & _ & Hmin & _).
    exists rows, loaded. split; [exact Hrun|]. split; [exact Hload|].
    split; [|split; [exact Hmin|exact Hsort]].
    apply Forall_app in Hconv as [_ Hconv]. exact Hconv.
  - exists window. repeat split; assumption.
Defined.

Lemma commands_short_circuit_witness :
  exists result shown,
    processUserInput "/work" failing_graph "/ExIt" sample_conversation
                     sample_tools sample_world
    = (Ok result,
       MkWorld (db sample_world) (mcp sample_world)
               (cli sample_world ++ [shown])) /\
    result = "exit".
Proof.
  destruct (@commands_short_circuit "/work" failing_graph "/ExIt"
              sample_conversation sample_tools sample_world
              (or_introl eq_refl))
    as [[result [shown [H1 H2]]] _].
  exists result, shown. split; [exact H1|].
  simpl in H2. now injection H2.
Defined.

Lemma steps_persisted_witness :
  steps sample_stringify sample_generate 2 "c1" sample_tools
        (start_turn list_files_history) sample_world
  = (Ok after_tools, after_tools_world) /\
  exists rows,
    message_table (db after_tools_world) = sample_table ++ rows /\
    Forall2 (stored_as sample_stringify "c1") (turn_produced after_tools) rows.
Proof.
  assert (Hsteps : steps sample_stringify sample_generate 2 "c1" sample_tools
                     (start_turn list_files_history) sample_world
                   = (Ok after_tools, after_tools_world)) by reflexivity.
  split; [exact Hsteps|].
  destruct (@steps_persisted sample_stringify sample_generate "c1"
              sample_tools list_files_history sample_world 2
              after_tools after_tools_world Hsteps) as [H _].
  exact H.
Defined.

Lemma generator_failure_aborts_turn_witness :
  (forall fuel,
     runTurn sample_stringify sample_generate (2 + S fuel) "c1"
             list_files_history sample_tools sample_world
     = (Aborted upstream_error after_tools, after_tools_world)) /\
  (exists rows,
     message_table (db after_tools_world) = sample_table ++ rows /\
     Forall2 (stored_as sample_stringify "c1") (turn_produced after_tools)
             rows) /\
  fst (main_loop_body "/work" failing_graph (ret "hello")
         sample_conversation sample_tools sample_world)
  = Ok false.
Proof.
  assert (Hsteps : steps sample_stringify sample_generate 2 "c1" sample_tools
                     (start_turn list_files_history) sample_world
                   = (Ok after_tools, after_tools_world)) by reflexivity.
  destruct (@generator_failure_aborts_turn sample_stringify "/work"
              sample_generate "c1" sample_tools list_files_history
              sample_world 2 after_tools after_tools_world upstream_error
              Hsteps eq_refl eq_refl)
    as (_ & H1 & H2 & H3).
  split; [exact H1|]. split; [exact H2|].
  destruct (H3 failing_graph "hello" sample_conversation sample_tools
               sample_world _ _
               ltac:(cbv; discriminate) ltac:(cbv; discriminate)
               ltac:(cbv; discriminate) eq_refl eq_refl) as [_ H4].
  now rewrite H4.
Defined.

Lemma getConversationMessages_storage_failure_witness :
  fst (prisma_message_findMany "c1" 10 faulty_world) = Throw connection_lost /\
  getConversationMessages "c1" 10 faulty_world = (Ok [], faulty_world).
Proof.
  split; [reflexivity|].
  apply (@getConversationMessages_storage_failure "/work" sample_conversation
           10 faulty_world connection_lost eq_refl).
Defined.

(** A system message is stored with the fallback role. *)
Lemma saveMessages_role_enum_witness :
  mapMessageRole (OtherMessage "system" (TextContent "be brief")) = "USER" /\
  In (mapMessageRole (ToolMessage (TextContent "ok") (Some "call_1") None))
     role_enum.
Proof.
  destruct (saveMessages_role_enum sample_stringify) as [H1 [H2 _]].
  split; [apply H2 | apply H1].
Defined.

(** A connected server that lists the tool is not found until its tools
    are listed. *)
Lemma getServerForTool_cached_only_witness :
  client_listTools sample_client = Ok (Some sample_tools) /\
  isConnected
    (mcp (mcp_calls sample_connect
            [CallConnectServer "filesystem" "npx" ["-y"];
             CallCallTool "filesystem" "list_files" JNull]
            (MkWorld (MkDb [] 0 None) new_MCPService [])))
    "filesystem" = true /\
  getServerForTool
    (mcp (mcp_calls sample_connect
            [CallConnectServer "filesystem" "npx" ["-y"];
             CallCallTool "filesystem" "list_files" JNull]
            (MkWorld (MkDb [] 0 None) new_MCPService [])))
    "list_files" = None /\
  getServerForTool
    (mcp (mcp_calls sample_connect
            [CallConnectServer "filesystem" "npx" ["-y"];
             CallListTools "filesystem"]
            (MkWorld (MkDb [] 0 None) new_MCPService [])))
    "list_files" = Some "filesystem" /\
  getServerForTool routing_service "search" = Some "websearch" /\
  getServerForTool routing_service "read_file" = Some "filesystem" /\
  getServerForTool routing_service "create_issue" = None.
Proof.
  split; [reflexivity|]. split; [reflexivity|].
  split; [|split; [reflexivity|split; [|split]]].
  - destruct (getServerForTool_cached_only sample_connect new_MCPService
                "list_files") as (_ & _ & _ & _ & H).
    apply H; [reflexivity | constructor | reflexivity].
  - destruct (getServerForTool_cached_only sample_connect routing_service
                "search") as (_ & H & _).
    apply (H [("filesystem",
               MkMCPServer "filesystem" "npx" ["-y"] (Some sample_client)
                           (Some sample_tools));
              ("github",
               MkMCPServer "github" "npx" ["-y"] (Some sample_client) None)]
             "websearch"
             (MkMCPServer "websearch" "npx" ["-y"] (Some sample_client)
                          (Some search_tools))
             [] search_tools (MkTool "search" JNull)).
    + reflexivity.
    + repeat constructor; cbn [snd server_tools]; intros cached [= <-];
        repeat constructor; discriminate.
    + reflexivity.
    + now left.
    + reflexivity.
  - destruct (getServerForTool_cached_only sample_connect routing_service
                "read_file") as (_ & H & _).
    apply (H [] "filesystem"
             (MkMCPServer "filesystem" "npx" ["-y"] (Some sample_client)
                          (Some sample_tools))
             [("github",
               MkMCPServer "github" "npx" ["-y"] (Some sample_client) None);
              ("websearch",
               MkMCPServer "websearch" "npx" ["-y"] (Some sample_client)
                           (Some search_tools))]
             sample_tools (MkTool "read_file" JNull)).
    + reflexivity.
    + constructor.
    + reflexivity.
    + right. now left.
    + reflexivity.
  - destruct (getServerForTool_cached_only sample_connect routing_service
                "create_issue") as (_ & _ & _ & H & _).
    apply H. repeat constructor.
Defined.

Lemma listTools_enables_routing_witness :
  fst (listTools "filesystem" connected_world) = Ok sample_tools /\
  getServerForTool (mcp connected_world) "read_file" = None /\
  exists found,
    getServerForTool (mcp (snd (listTools "filesystem" connected_world)))
                     "read_file" = Some found.
Proof.
  split; [reflexivity|]. split; [reflexivity|].
  destruct (@listTools_enables_routing "filesystem" connected_world
              sample_tools (MkTool "read_file" JNull) eq_refl
              (or_intror (or_introl eq_refl)))
    as (_ & _ & _ & _ & H).
  exact H.
Defined.

Lemma connectServer_then_disconnectServer_witness :
  sample_connect "npx" ["-y"] = Ok sample_client /\
  isConnected
    (mcp (snd (connectServer sample_connect "filesystem" "npx" ["-y"]
                 (MkWorld (MkDb [] 0 None) new_MCPService []))))
    "filesystem" = true.
Proof.
  split; [reflexivity|].
  destruct (@connectServer_then_disconnectServer sample_connect
              "filesystem" "npx" ["-y"] sample_client
              (MkWorld (MkDb [] 0 None) new_MCPService []) eq_refl)
    as (_ & _ & H & _).
  exact H.
Defined.

Lemma sample_mcp_ok : service_ok sample_mcp.
Proof.
  repeat split; simpl.
  - repeat constructor. intros [].
  - repeat constructor. eexists; reflexivity.
  - repeat constructor. intros [].
  - repeat constructor. eexists; reflexivity.
Qed.

Lemma fresh_world_ok : service_ok (mcp fresh_world).
Proof. repeat split; simpl; constructor. Qed.

(** The start-up on the sample environment: the file-system and GitHub
    servers are connected, the search server is skipped. *)
Example connect_servers_sample :
  getConnectedServers
    (mcp (snd (connect_servers "/work" sample_connect sample_env fresh_world)))
  = ["filesystem"; "github"] /\
  fst (connect_servers "/work" sample_connect sample_env fresh_world)
  = Ok [ServerReady " Filesystem server"; ServerReady " GitHub server";
        ServerMissing " Web search server (no API key)"].
Proof. split; reflexivity. Qed.

Lemma service_stays_well_formed_witness :
  service_ok (mcp fresh_world) /\
  service_ok
    (mcp (mcp_calls sample_connect
            [CallConnectServer "filesystem" "npx" ["-y"];
             CallGetAllTools;
             TransportClosed "filesystem";
             CallConnectServer "filesystem" "npx" ["-y"]]
            fresh_world)).
Proof.
  split; [exact fresh_world_ok|].
  destruct (@service_stays_well_formed sample_connect
              [CallConnectServer "filesystem" "npx" ["-y"];
               CallGetAllTools;
               TransportClosed "filesystem";
               CallConnectServer "filesystem" "npx" ["-y"]]
              fresh_world fresh_world_ok) as [_ [H _]].
  exact H.
Defined.

Lemma disconnectAll_removes_connected_witness :
  service_ok (mcp sample_world) /\
  getConnectedServers (mcp (snd (disconnectAll sample_world))) = [] /\
  map_get "filesystem" (servers (mcp (snd (disconnectAll sample_world))))
  = None.
Proof.
  split; [exact sample_mcp_ok|].
  destruct (@disconnectAll_removes_connected sample_world sample_mcp_ok)
    as (_ & _ & H1 & _ & H2 & _).
  split; [exact H1|]. apply H2. reflexivity.
Defined.

Lemma connectServer_replaces_entry_witness :
  NoDup (map fst (servers (mcp sample_world))) /\
  getServerForTool (mcp sample_world) "list_files" = Some "filesystem" /\
  isConnected (mcp sample_world) "filesystem" = true /\
  (isConnected
     (mcp (snd (connectServer sample_connect "filesystem" "npx" ["-y"]
                  sample_world)))
     "filesystem" = true /\
   getServerForTool
     (mcp (snd (connectServer sample_connect "filesystem" "npx" ["-y"]
                  sample_world)))
     "list_files" <> Some "filesystem") /\
  (fst (connectServer sample_connect "filesystem" "node" [] sample_world)
   = Throw (MkError "spawn failed") /\
   isConnected
     (mcp (snd (connectServer sample_connect "filesystem" "node" []
                  sample_world)))
     "filesystem" = false /\
   servers (mcp (snd (connectServer sample_connect "filesystem" "node" []
                        sample_world)))
   = servers (mcp sample_world)).
Proof.
  assert (Hkeys : NoDup (map fst (servers (mcp sample_world)))).
  { simpl. repeat constructor. intros []. }
  split; [exact Hkeys|]. split; [reflexivity|]. split; [reflexivity|].
  split.
  - pose proof (@connectServer_replaces_entry sample_connect "filesystem" "npx"
                  ["-y"] sample_world Hkeys) as H.
    cbv zeta in H. destruct H as (_ & _ & _ & H).
    change (sample_connect "npx" ["-y"]) with (Ok sample_client) in H.
    cbv iota in H. destruct H as (_ & H1 & _ & H2 & _).
    split; [exact H1|apply H2].
  - pose proof (@connectServer_replaces_entry sample_connect "filesystem"
                  "node" [] sample_world Hkeys) as H.
    cbv zeta in H. destruct H as (_ & _ & _ & H).
    change (sample_connect "node" [])
      with (@Throw Client (MkError "spawn failed")) in H.
    cbv iota in H. destruct H as (H1 & H2 & H3).
    split; [exact H1|]. split; [exact H3|exact H2].
Defined.

Lemma closed_transport_stays_stored_witness :
  fst (callTool "filesystem" "list_files" JNull sample_world)
  = Ok sample_files /\
  isConnected (mcp (snd (transport_closed "filesystem" sample_world)))
              "filesystem" = false /\
  getServerForTool (mcp (snd (transport_closed "filesystem" sample_world)))
                   "list_files" = Some "filesystem" /\
  fst (callTool "filesystem" "list_files" JNull
         (snd (transport_closed "filesystem" sample_world)))
  = Throw (MkError "Not connected") /\
  fst (getAllTools (snd (transport_closed "filesystem" sample_world)))
  = Ok [] /\
  exists server,
    map_get "filesystem"
      (servers (mcp (snd (disconnectAll
                            (snd (transport_closed "filesystem"
                                    sample_world))))))
    = Some server.
Proof.
  destruct (@closed_transport_stays_stored "filesystem" sample_world
              (MkMCPServer "filesystem" "npx" ["-y"] (Some sample_client)
                           (Some sample_tools))
              sample_mcp_ok eq_refl)
    as (H1 & _ & _ & _ & H2 & H3 & _ & H4 & H5).
  split; [reflexivity|]. split; [exact H1|].
  split; [rewrite H2; reflexivity|].
  split; [rewrite H3; reflexivity|].
  split; [rewrite H4; reflexivity|].
  eexists. exact H5.
Defined.

(** The start-up when no server can be started, on a service whose
    file-system server was connected: the failed attempt leaves it
    disconnected. *)
Lemma connect_servers_attempts_witness :
  isConnected (mcp sample_world) "filesystem" = true /\
  isConnected
    (mcp (snd (connect_servers "/work" failing_connect sample_env
                 sample_world)))
    "filesystem" = false /\
  isConnected
    (mcp (snd (connect_servers "/work" sample_connect sample_env
                 fresh_world)))
    "github" = true /\
  isConnected
    (mcp (snd (connect_servers "/work" sample_connect sample_env
                 sample_world)))
    "websearch" = false.
Proof.
  split; [reflexivity|].
  destruct (@connect_servers_attempts "/work" failing_connect sample_env
              sample_world) as (_ & _ & _ & H1 & _).
  destruct (@connect_servers_attempts "/work" sample_connect sample_env
              fresh_world) as (_ & _ & _ & _ & H2 & _).
  destruct (@connect_servers_attempts "/work" sample_connect sample_env
              sample_world) as (_ & _ & _ & _ & _ & H3 & _).
  split; [rewrite H1; reflexivity|].
  split; [rewrite H2; reflexivity|].
  rewrite H3. reflexivity.
Defined.

Lemma processUserInput_shows_last_reply_witness :
  trim_nonempty blank_text = false /\
  exists shown,
    processUserInput "/work" blank_last_graph "hello" sample_conversation
                     sample_tools ordered_world
    = (Ok "continue",
       MkWorld (db ordered_world) (mcp ordered_world)
               [DisplayThinking; StopThinking; DisplayResponse shown]) /\
    shown = "Hello!" /\
    (shown = no_response \/ trim_nonempty shown = true).
Proof.
  split; [reflexivity|].
  destruct (@processUserInput_shows_last_reply "/work" blank_last_graph "hello"
              sample_conversation sample_tools ordered_world _ _ _
              ltac:(cbv; discriminate) ltac:(cbv; discriminate)
              ltac:(cbv; discriminate) eq_refl eq_refl)
    as [shown [H1 H2]].
  exists shown. split; [exact H1|]. split.
  - assert (Hrun : processUserInput "/work" blank_last_graph "hello"
                     sample_conversation sample_tools ordered_world
                   = (Ok "continue",
                      MkWorld (db ordered_world) (mcp ordered_world)
                        [DisplayThinking; StopThinking;
                         DisplayResponse "Hello!"])) by reflexivity.
    rewrite Hrun in H1. now injection H1.
  - destruct H2 as [[H2 _]|[earlier [tcs [later [_ [H2 _]]]]]];
      [left|right]; exact H2.
Defined.

Lemma main_loop_stops_at_exit_witness :
  fst (main_loop "/work" failing_graph
         ([Ok "hello"; Throw connection_lost] ++ Ok "/EXIT" :: [Ok "more"])
         sample_conversation sample_tools sample_world)
  = Ok true /\
  main_loop "/work" failing_graph
    ([Ok "hello"; Throw connection_lost] ++ Ok "/EXIT" :: [Ok "more"])
    sample_conversation sample_tools sample_world
  = main_loop "/work" failing_graph
      ([Ok "hello"; Throw connection_lost] ++ Ok "/EXIT" :: [])
      sample_conversation sample_tools sample_world.
Proof.
  destruct (@main_loop_stops_at_exit "/work" failing_graph
              [Ok "hello"; Throw connection_lost] [Ok "more"] "/EXIT"
              sample_conversation sample_tools sample_world
              eq_refl eq_refl) as [H1 _].
  destruct (@main_loop_stops_at_exit "/work" failing_graph
              [Ok "hello"; Throw connection_lost] [] "/EXIT"
              sample_conversation sample_tools sample_world
              eq_refl eq_refl) as [H2 _].
  cbv zeta in H1, H2. split; [now rewrite H1|]. now rewrite H1, H2.
Defined.

Lemma getConversationMessages_stored_order_witness :
  created_in_order
    (where_conversationId "c1" (message_table (db ordered_world))) /\
  getConversationMessages "c1" 2 ordered_world
  = (Ok [HumanMessage (TextContent "m"); HumanMessage (TextContent "m")],
     ordered_world).
Proof.
  assert (Horder : created_in_order
            (where_conversationId "c1" (message_table (db ordered_world)))).
  { unfold created_in_order. simpl.
    repeat constructor; simpl; lia. }
  split; [exact Horder|].
  destruct (@getConversationMessages_stored_order "c1" 2 ordered_world
              eq_refl Horder) as [H _].
  exact H.
Defined.

Lemma saveMessages_other_conversation_witness :
  "c2" <> "c1" /\
  fst (getConversationMessages "c2" 10
         (snd (saveMessages sample_stringify "c1"
                 [HumanMessage (TextContent "hi")] sample_world)))
  = fst (getConversationMessages "c2" 10 sample_world).
Proof.
  split; [discriminate|].
  apply (@saveMessages_other_conversation sample_stringify "c1" "c2").
  discriminate.
Defined.

Lemma saved_message_is_loaded_last_witness :
  exists earlier,
    fst (getConversationMessages "c1" 3
           (snd (saveMessages sample_stringify "c1"
                   [AIMessage (TextContent "Hello!") None] ordered_world)))
    = Ok (earlier ++ [AIMessage (TextContent "Hello!") (Some [])]) /\
    length earlier < 3.
Proof.
  assert (Horder : created_in_order
            (where_conversationId "c1"
               (message_table
                  (db (snd (saveMessages sample_stringify "c1"
                              [AIMessage (TextContent "Hello!") None]
                              ordered_world)))))).
  { unfold created_in_order. simpl.
    repeat constructor; simpl; lia. }
  destruct (@saved_message_is_loaded_last sample_stringify "c1"
              (AIMessage (TextContent "Hello!") None) 3 ordered_world
              eq_refl ltac:(lia) Horder) as [earlier [H1 [H2 _]]].
  exists earlier. split; assumption.
Defined.
